(** * daklib.utils: control-record parsing and reverse-dependency analysis

    A shallow embedding of [parse_deb822], [parse_changes],
    [check_dsc_files], [build_file_list] and [check_reverse_depends] of
    [daklib/utils.py], with the properties the specification states about
    them.

    Text is modelled as [string]: a sequence of characters whose code points
    are below 256.  Exceptions are modelled by the [result] type. *)

From Stdlib Require Import String Ascii List ZArith Lia Bool.
From Stdlib Require DecimalString.
From stdpp Require Import base option list strings gmap.

Local Open Scope Z_scope.
Local Open Scope nat_scope.

(** ** Python's text primitives *)

Module Py.

Definition code (c : ascii) : nat := nat_of_ascii c.

(** [str.isspace] on one character; also the class [\s] of [re]. *)
Definition is_space (c : ascii) : bool :=
  let n := code c in
  ((9 <=? n) && (n <=? 13)) || ((28 <=? n) && (n <=? 32))
  || (n =? 133) || (n =? 160).

(** The line boundaries of [str.splitlines]. *)
Definition is_linebreak (c : ascii) : bool :=
  let n := code c in
  ((10 <=? n) && (n <=? 13)) || ((28 <=? n) && (n <=? 30)) || (n =? 133).

Definition LF : ascii := ascii_of_nat 10.
Definition CR : ascii := ascii_of_nat 13.
Definition nl : string := String LF EmptyString.

(** [s.splitlines(True)]: the lines of [s], each with its terminator;
    a carriage return followed by a line feed is one terminator. *)
Fixpoint splitlines (s : string) : list string :=
  match s with
  | EmptyString => []
  | String c s' =>
      if is_linebreak c then
        match s' with
        | String c2 s'' =>
            if Ascii.eqb c CR && Ascii.eqb c2 LF
            then String c (String c2 EmptyString) :: splitlines s''
            else String c EmptyString :: splitlines s'
        | EmptyString => [String c EmptyString]
        end
      else
        match splitlines s' with
        | [] => [String c EmptyString]
        | l :: ls => String c l :: ls
        end
  end.

(** [s[:-1]] *)
Fixpoint drop_last (s : string) : string :=
  match s with
  | EmptyString => EmptyString
  | String c EmptyString => EmptyString
  | String c s' => String c (drop_last s')
  end.

(** [s.lower()] for code points below 256. *)
Definition lower_char (c : ascii) : ascii :=
  let n := code c in
  if ((65 <=? n) && (n <=? 90))
     || ((192 <=? n) && (n <=? 222) && negb (n =? 215))
  then ascii_of_nat (n + 32) else c.

Fixpoint lower (s : string) : string :=
  match s with
  | EmptyString => EmptyString
  | String c s' => String (lower_char c) (lower s')
  end.

(** [s.split(sep)] for a one-character separator: empty pieces are kept. *)
Fixpoint split_on (sep : ascii) (s : string) : list string :=
  match s with
  | EmptyString => [EmptyString]
  | String c s' =>
      if Ascii.eqb c sep then EmptyString :: split_on sep s'
      else match split_on sep s' with
           | [] => [String c EmptyString]
           | p :: ps => String c p :: ps
           end
  end.

(** [s.split()]: the maximal runs of non-whitespace characters. *)
Fixpoint split_ws_go (cur : option string) (s : string) : list string :=
  match s with
  | EmptyString => match cur with Some w => [String.rev w] | None => [] end
  | String c s' =>
      if is_space c then
        match cur with
        | Some w => String.rev w :: split_ws_go None s'
        | None => split_ws_go None s'
        end
      else
        split_ws_go (Some (String c (default EmptyString cur))) s'
  end.

Definition split_ws (s : string) : list string := split_ws_go None s.

(** [s.strip()] *)
Fixpoint lstrip (s : string) : string :=
  match s with
  | EmptyString => EmptyString
  | String c s' => if is_space c then lstrip s' else s
  end.

Definition strip (s : string) : string :=
  String.rev (lstrip (String.rev (lstrip s))).

(** [sep.join(l)] *)
Fixpoint join (sep : string) (l : list string) : string :=
  match l with
  | [] => EmptyString
  | [x] => x
  | x :: xs => x +:+ sep +:+ join sep xs
  end.

(** [s.find(c) != -1] *)
Fixpoint contains_char (c : ascii) (s : string) : bool :=
  match s with
  | EmptyString => false
  | String d s' => Ascii.eqb c d || contains_char c s'
  end.

(** The longest prefix of characters satisfying [p], and the rest. *)
Fixpoint span (p : ascii -> bool) (s : string) : string * string :=
  match s with
  | EmptyString => (EmptyString, EmptyString)
  | String c s' =>
      if p c then let '(a, b) := span p s' in (String c a, b)
      else (EmptyString, s)
  end.

(** [repr] of a list of strings that need no escaping, as [%s] prints
    it. *)
Definition repr_list (l : list string) : string :=
  "[" +:+ join ", " (map (fun s => "'" +:+ s +:+ "'") l) +:+ "]".

End Py.

(** ** Exceptions *)

Inductive exn : Type :=
| ParseChangesError (msg : string)
| InvalidDscError (index : nat)
| NoFilesFieldError
| UnboundLocalError (name : string)
| KeyError (key : string)
| ExternalError (what : string).

Inductive result (A : Type) : Type :=
| Ok (a : A)
| Raise (e : exn).
Arguments Ok {A} a.
Arguments Raise {A} e.

#[global] Instance result_ret : MRet result := fun A a => Ok a.

#[global] Instance result_bind : MBind result := fun A B k r =>
  match r with
  | Ok a => k a
  | Raise e => Raise e
  end.

(** ** Notions used to state the properties *)

(** The concatenation of the strings of a list, in order. *)
Definition concat_lines (l : list string) : string :=
  foldr String.append "" l.

(** What a run of continuation lines of contents [cs] adds to a field. *)
Definition continuation_text (cs : list string) : string :=
  concat_lines (map (λ c, c +:+ Py.nl) cs).

(** The value of a field that starts as [v] on its single line, after the
    continuation lines of contents [cs]. *)
Definition field_value (v : string) (cs : list string) : string :=
  match cs with
  | [] => v
  | _ :: _ =>
      (if String.eqb v "" then "" else v +:+ Py.nl) +:+ continuation_text cs
  end.

(** ** External collaborators

    [daklib.regexes], [daklib.gpg], [daklib.formats], [daklib.srcformats],
    [apt_pkg] and the database session are used by [daklib.utils] but are
    not part of it; the functions below take them as parameters. *)

(** The compiled patterns of [daklib.regexes], each as the function from a
    subject to the groups of its match. *)
Class Regexes : Type := {
  (** [re_single_line_field.match(line).groups()] *)
  re_single_line_field : string -> option (string * string);
  (** [re_multi_line_field.match(line).groups()[0]] *)
  re_multi_line_field : string -> option string;
  (** [re_srchasver.search(s)], groups 1 and 2 *)
  re_srchasver : string -> option (string * string);
  (** [re_issource.match(f).group(3)] *)
  re_issource : string -> option string;
  (** [re_build_dep_arch.sub("", s)] *)
  re_build_dep_arch_sub : string -> string
}.

(** [SignedFile(data, keyrings, require_signature).contents], or the
    exception of the verifier. *)
Class Gpg : Type := {
  SignedFile_contents : string -> list string -> bool -> result string
}.

(** ** parse_deb822 *)

(** The variables of the scanning loop.  [field] is unbound until the first
    single-line field. *)
Record scan_state : Type := {
  changes : gmap string string;
  field : option string;
  first : Z;
  error : string
}.

Definition scan_init : scan_state :=
  {| changes := ∅; field := None; first := (-1)%Z; error := "" |}.

(** What one iteration of the [while] loop does. *)
Inductive iteration : Type :=
| Continue (st : scan_state)
| Break (st : scan_state)
| Raised (e : exn).

(** [changes[field] += s] *)
Definition append_to_field (st : scan_state) (s : string)
    (k : scan_state -> iteration) : iteration :=
  match field st with
  | None => Raised (UnboundLocalError "field")
  | Some f =>
      match changes st !! f with
      | None => Raised (KeyError f)
      | Some v =>
          k {| changes := <[f := v +:+ s]> (changes st); field := field st;
               first := first st; error := error st |}
      end
  end.

Definition set_first (z : Z) (st : scan_state) : scan_state :=
  {| changes := changes st; field := field st; first := z;
     error := error st |}.

(** The branch of a continuation line whose content is [content]. *)
Definition continuation_line (line content : string) (st : scan_state)
    : iteration :=
  if (first st =? -1)%Z then
    Raised (ParseChangesError
      ("'" +:+ line +:+ "'" +:+ Py.nl +:+
       " [Multi-line field continuing on from nothing?]"))
  else
    let add := fun st' =>
      append_to_field (set_first 0%Z st') (content +:+ Py.nl) Continue in
    if (first st =? 1)%Z then
      match field st with
      | None => Raised (UnboundLocalError "field")
      | Some f =>
          match changes st !! f with
          | None => Raised (KeyError f)
          | Some v =>
              if negb (String.eqb v "")
              then append_to_field st Py.nl add
              else add st
          end
      end
    else add st.

(** [error += line] *)
Definition push_error (line : string) (st : scan_state) : scan_state :=
  {| changes := changes st; field := field st; first := first st;
     error := error st +:+ line |}.

Definition iteration_map (g : scan_state -> scan_state) (it : iteration)
    : iteration :=
  match it with
  | Continue st => Continue (g st)
  | Break st => Break (g st)
  | Raised e => Raised e
  end.

Definition result_map {A B : Type} (g : A -> B) (r : result A) : result B :=
  match r with
  | Ok a => Ok (g a)
  | Raise e => Raise e
  end.

(** The state holds a current field: [field] is bound to a key of
    [changes] and [first] is no longer -1. *)
Definition in_field (st : scan_state) : Prop :=
  ∃ f v, field st = Some f ∧ changes st !! f = Some v ∧ first st ≠ (-1)%Z.

Section Parser.
Context `{Regexes} `{Gpg}.

(** The body of the loop, at the line of number [index]. *)
Definition scan_line (signing_rules : Z) (num_of_lines index : nat)
    (line : string) (st : scan_state) : iteration :=
  if String.eqb line "" && (signing_rules =? 1)%Z then
    if negb (index =? num_of_lines) then Raised (InvalidDscError index)
    else Break st
  else
    match re_single_line_field line with
    | Some (k, v) =>
        let f := Py.lower k in
        Continue {| changes := <[f := v]> (changes st); field := Some f;
                    first := 1%Z; error := error st |}
    | None =>
        if String.eqb line " ." then
          append_to_field st Py.nl Continue
        else
          match re_multi_line_field line with
          | Some content => continuation_line line content st
          | None => Continue (push_error line st)
          end
    end.

(** The loop [while index < num_of_lines], entered with [index] lines
    already read and [lines] still to read. *)
Fixpoint scan_loop (signing_rules : Z) (num_of_lines index : nat)
    (lines : list string) (st : scan_state) : result scan_state :=
  match lines with
  | [] => Ok st
  | line :: rest =>
      match scan_line signing_rules num_of_lines (S index) line st with
      | Continue st' => scan_loop signing_rules num_of_lines (S index) rest st'
      | Break st' => Ok st'
      | Raised e => Raise e
      end
  end.

(** [indexed_lines]: every line without its last character. *)
Definition indexed_lines (contents : string) : list string :=
  map Py.drop_last (Py.splitlines contents).

Definition scan (signing_rules : Z) (lines : list string) : result scan_state :=
  scan_loop signing_rules (length lines) 0 lines scan_init.

(** The split of a [source] field of the shape [name (version)]. *)
Definition split_source (changes : gmap string string) : gmap string string :=
  match changes !! "source" with
  | Some v =>
      match re_srchasver v with
      | Some (name, version) =>
          <["source-version" := version]> (<["source" := name]> changes)
      | None => changes
      end
  | None => changes
  end.

(** The record as it stands after the scan: the fields, the raw text and
    the split source field. *)
Definition finish_record (armored_contents : string) (st : scan_state)
    : gmap string string :=
  split_source (<["filecontents" := armored_contents]> (changes st)).

(** The payload inside the signature wrapper.  Without [keyrings] no
    signature is required. *)
Definition signed_contents (armored_contents : string)
    (keyrings : option (list string)) : result string :=
  match keyrings with
  | None => SignedFile_contents armored_contents [] false
  | Some k => SignedFile_contents armored_contents k true
  end.

Definition parse_deb822 (armored_contents : string) (signing_rules : Z)
    (keyrings : option (list string)) : result (gmap string string) :=
  contents ← signed_contents armored_contents keyrings;
  let lines := Py.splitlines contents in
  if length lines =? 0 then Raise (ParseChangesError "[Empty changes file]")
  else
    st ← scan signing_rules (indexed_lines contents);
    let changes := finish_record armored_contents st in
    if negb (String.eqb (error st) "")
    then Raise (ParseChangesError (error st))
    else Ok changes.

(** Which branch of the loop body a line takes. *)
Inductive line_kind : Type :=
| Terminator
| Single (key value : string)
| Marker
| Continuation (content : string)
| Unparseable.

Definition classify (signing_rules : Z) (line : string) : line_kind :=
  if String.eqb line "" && (signing_rules =? 1)%Z then Terminator
  else
    match re_single_line_field line with
    | Some (k, v) => Single k v
    | None =>
        if String.eqb line " ." then Marker
        else
          match re_multi_line_field line with
          | Some content => Continuation content
          | None => Unparseable
          end
    end.

Definition unparseable (signing_rules : Z) (line : string) : bool :=
  match classify signing_rules line with
  | Unparseable => true
  | _ => false
  end.

Definition parseable (signing_rules : Z) (line : string) : bool :=
  negb (unparseable signing_rules line).

(** In strict mode no line but the last is empty. *)
Fixpoint terminator_last (signing_rules : Z) (lines : list string) : bool :=
  match lines with
  | [] => true
  | line :: rest =>
      match classify signing_rules line, rest with
      | Terminator, _ :: _ => false
      | _, _ => terminator_last signing_rules rest
      end
  end.

(** No continuation line and no marker comes before the first single-line
    field. *)
Fixpoint field_first (signing_rules : Z) (lines : list string) : bool :=
  match lines with
  | [] => true
  | line :: rest =>
      match classify signing_rules line with
      | Unparseable => field_first signing_rules rest
      | Single _ _ | Terminator => true
      | Marker | Continuation _ => false
      end
  end.

(** The state in which the loop arrives at the line that follows [pre],
    if it gets there. *)
Fixpoint scan_reach (signing_rules : Z) (num_of_lines index : nat)
    (pre : list string) (st : scan_state) : option scan_state :=
  match pre with
  | [] => Some st
  | line :: rest =>
      match scan_line signing_rules num_of_lines (S index) line st with
      | Continue st' => scan_reach signing_rules num_of_lines (S index) rest st'
      | _ => None
      end
  end.

End Parser.

(** ** parse_changes *)

Definition must_keywords : list string :=
  ["Format"; "Date"; "Source"; "Architecture"; "Version"; "Distribution";
   "Maintainer"; "Changes"; "Files"].

Definition missing_fields_message (missingfields : list string) : string :=
  "Missing mandatory field(s) in changes file (policy 5.5): "
  +:+ Py.repr_list missingfields.

(** The loop over [must_keywords]; the test of [len(missingfields)] sits
    inside the branch that has just appended a keyword. *)
Fixpoint check_must_keywords (changes : gmap string string)
    (keywords missingfields : list string) : result (list string) :=
  match keywords with
  | [] => Ok missingfields
  | keyword :: rest =>
      match changes !! Py.lower keyword with
      | None =>
          let missingfields := missingfields ++ [keyword] in
          if negb (length missingfields =? 0)
          then Raise (ParseChangesError (missing_fields_message missingfields))
          else check_must_keywords changes rest missingfields
      | Some _ => check_must_keywords changes rest missingfields
      end
  end.

Section Changes.
Context `{Regexes} `{Gpg}.

(** [content] is what is read from the file [filename]. *)
Definition parse_changes (content : string) (signing_rules : Z)
    (dsc_file : bool) (keyrings : option (list string))
    : result (gmap string string) :=
  changes ← parse_deb822 content signing_rules keyrings;
  if negb dsc_file then
    _ ← check_must_keywords changes must_keywords [];
    Ok changes
  else Ok changes.

End Changes.

(** ** build_file_list *)

(** A [dict] whose iteration order matters: assignment to a key that is
    present replaces its value in place, a new key goes last. *)
Fixpoint dict_set {V : Type} (k : string) (v : V) (d : list (string * V))
    : list (string * V) :=
  match d with
  | [] => [(k, v)]
  | (k', v') :: d' =>
      if String.eqb k k' then (k, v) :: d' else (k', v') :: dict_set k v d'
  end.

Definition dict_keys {V : Type} (d : list (string * V)) : list string :=
  map fst d.

Definition extract_component_from_section (section : string)
    : string * string :=
  if Py.contains_char "/" section
  then (section, default "" (head (Py.split_on "/" section)))
  else (section, "main").

(** [parse_format] and [validate_changes_format] of [daklib.formats]: the
    exception they raise for the text of a Format field, if any. *)
Class Formats : Type := {
  validate_changes_format : string -> string -> result unit
}.

(** One entry of the file list: the tokens of a line, or [ValueError] (here
    [None]) when their number is not the one the shape asks for. *)
Definition unpack_entry (includes_section : bool) (s : list string)
    : option (string * string * string * string * string) :=
  if includes_section then
    match s with
    | [md5; size; section; priority; name] =>
        Some (md5, size, section, priority, name)
    | _ => None
    end
  else
    match s with
    | [md5; size; name] => Some (md5, size, "", "", name)
    | _ => None
    end.

(** The number of tokens a line of the file list must have. *)
Definition expected_tokens (is_a_dsc : bool) (field : string) : nat :=
  if negb is_a_dsc && String.eqb field "files" then 5 else 3.

Fixpoint build_entries (includes_section : bool) (hashname : string)
    (lines : list string) (files : list (string * gmap string string))
    : result (list (string * gmap string string)) :=
  match lines with
  | [] => Ok files
  | i :: rest =>
      if String.eqb i "" then Ok files
      else
        match unpack_entry includes_section (Py.split_ws i) with
        | None => Raise (ParseChangesError i)
        | Some (md5, size, section, priority, name) =>
            let section := if String.eqb section "" then "-" else section in
            let priority := if String.eqb priority "" then "-" else priority in
            let '(section, component) :=
              extract_component_from_section section in
            let entry : gmap string string :=
              <[hashname := md5]>
                (<["component" := component]>
                  (<["priority" := priority]>
                    (<["section" := section]> (<["size" := size]> ∅)))) in
            build_entries includes_section hashname rest
              (dict_set name entry files)
        end
  end.

Section FileList.
Context `{Formats}.

Definition build_file_list (changes : gmap string string) (is_a_dsc : bool)
    (field hashname : string) : result (list (string * gmap string string)) :=
  match changes !! field with
  | None => Raise NoFilesFieldError
  | Some value =>
      _ ← (if negb is_a_dsc then
             match changes !! "format" with
             | None => Raise (KeyError "format")
             | Some fmt => validate_changes_format fmt field
             end
           else Ok tt);
      let includes_section := negb is_a_dsc && String.eqb field "files" in
      build_entries includes_section hashname (Py.split_on Py.LF value) []
  end.

End FileList.

(** ** check_dsc_files *)

(** The fragment of regular expressions the table [ftype_lookup] is
    written in. *)
Inductive regex : Type :=
| Lit (s : string)
| Cat (a b : regex)
| Alt (a b : regex)
| AnyPlus.

Fixpoint strip_prefix (p s : string) : option string :=
  match p, s with
  | EmptyString, _ => Some s
  | String a p', String b s' =>
      if Ascii.eqb a b then strip_prefix p' s' else None
  | String _ _, EmptyString => None
  end.

(** [.+] followed by [k]: one or more characters other than a line feed. *)
Fixpoint any_plus (s : string) (k : string -> bool) : bool :=
  match s with
  | EmptyString => false
  | String c s' =>
      if Ascii.eqb c Py.LF then false else k s' || any_plus s' k
  end.

Fixpoint re_run (r : regex) (s : string) (k : string -> bool) : bool :=
  match r with
  | Lit l =>
      match strip_prefix l s with
      | Some s' => k s'
      | None => false
      end
  | Cat a b => re_run a s (fun s' => re_run b s' k)
  | Alt a b => re_run a s k || re_run b s k
  | AnyPlus => any_plus s k
  end.

(** [re.match(r, s)]: some prefix of [s] matches. *)
Definition re_match (r : regex) (s : string) : bool :=
  re_run r s (fun _ => true).

(** [re.fullmatch(r, s)] *)
Definition re_fullmatch (r : regex) (s : string) : bool :=
  re_run r s (fun s' => String.eqb s' "").

Definition gz_bz2_xz : regex := Alt (Lit "gz") (Alt (Lit "bz2") (Lit "xz")).

Definition ftype_lookup : list (regex * list string) :=
  [ (Cat (Lit "orig.tar.") (Cat gz_bz2_xz (Lit ".asc")), ["orig_tar_sig"]);
    (Lit "orig.tar.gz", ["orig_tar_gz"; "orig_tar"]);
    (Lit "diff.gz", ["debian_diff"]);
    (Lit "tar.gz", ["native_tar_gz"; "native_tar"]);
    (Cat (Lit "debian.tar.") gz_bz2_xz, ["debian_tar"]);
    (Cat (Lit "orig.tar.") gz_bz2_xz, ["orig_tar"]);
    (Cat (Lit "tar.") gz_bz2_xz, ["native_tar"]);
    (Cat (Lit "orig-")
       (Cat AnyPlus (Cat (Lit ".tar.") (Cat gz_bz2_xz (Lit ".asc")))),
     ["more_orig_tar_sig"]);
    (Cat (Lit "orig-") (Cat AnyPlus (Cat (Lit ".tar.") gz_bz2_xz)),
     ["more_orig_tar"]) ].

(** The keys of the first rule of the table that matches, if any. *)
Fixpoint ftype_keys (table : list (regex * list string)) (ext : string)
    : option (list string) :=
  match table with
  | [] => None
  | (r, keys) :: rest =>
      if re_match r ext then Some keys else ftype_keys rest ext
  end.

(** [has[key] += 1] on a [defaultdict] of counters. *)
Definition has_incr (has : gmap string nat) (key : string) : gmap string nat :=
  <[key := S (default 0 (has !! key))]> has.

(** Reading [has[key]] enters the key with 0 when it is absent. *)
Definition has_read (has : gmap string nat) (key : string)
    : nat * gmap string nat :=
  match has !! key with
  | Some n => (n, has)
  | None => (0, <[key := 0]> has)
  end.

(** [get_format_from_string(s).reject_msgs] of [daklib.srcformats];
    [None] stands for [UnknownFormatError]. *)
Class SrcFormats : Type := {
  get_format_from_string : string -> option (gmap string nat -> list string)
}.

Definition single_types : list string :=
  ["orig_tar"; "orig_tar_sig"; "native_tar"; "debian_tar"; "debian_diff"].

Fixpoint check_multiple (dsc_filename : string) (types : list string)
    (rejmsg : list string) (has : gmap string nat)
    : list string * gmap string nat :=
  match types with
  | [] => (rejmsg, has)
  | file_type :: rest =>
      let '(n, has) := has_read has file_type in
      let rejmsg :=
        if 1 <? n
        then rejmsg ++ [dsc_filename +:+ ": lists multiple " +:+ file_type]
        else rejmsg in
      check_multiple dsc_filename rest rejmsg has
  end.

Definition not_recognised_message (dsc_filename f : string) : string :=
  dsc_filename +:+ ": " +:+ f +:+ " in Files field not recognised as source.".

Definition unexpected_message (dsc_filename f : string) : string :=
  dsc_filename +:+ ": unexpected source file '" +:+ f +:+ "'".

Section DscFiles.
Context `{Regexes} `{SrcFormats}.

(** The loop over the file names [dsc_files]. *)
Fixpoint classify_files (dsc_filename : string) (dsc_files : list string)
    (rejmsg : list string) (has : gmap string nat)
    : list string * gmap string nat :=
  match dsc_files with
  | [] => (rejmsg, has)
  | f :: rest =>
      match re_issource f with
      | None =>
          classify_files dsc_filename rest
            (rejmsg ++ [not_recognised_message dsc_filename f]) has
      | Some ext =>
          match ftype_keys ftype_lookup ext with
          | Some keys =>
              classify_files dsc_filename rest rejmsg
                (foldl has_incr has keys)
          | None =>
              (rejmsg ++ [unexpected_message dsc_filename f], has)
          end
      end
  end.

(** The loop does not stop at [f]: [f] is not a source file name, or it is
    one that a rule of the table classifies. *)
Definition passed (f : string) : Prop :=
  match re_issource f with
  | None => True
  | Some ext => is_Some (ftype_keys ftype_lookup ext)
  end.

Definition check_dsc_files (dsc_filename : string) (dsc : gmap string string)
    (dsc_files : list (string * gmap string string)) : result (list string) :=
  let '(rejmsg, has) := classify_files dsc_filename (dict_keys dsc_files) [] ∅ in
  let '(rejmsg, has) := check_multiple dsc_filename single_types rejmsg has in
  match dsc !! "format" with
  | None => Raise (KeyError "format")
  | Some fmt =>
      match get_format_from_string fmt with
      | Some reject_msgs =>
          Ok (rejmsg ++
              map (fun x => dsc_filename +:+ ": " +:+ x) (reject_msgs has))
      | None => Ok rejmsg
      end
  end.

End DscFiles.

(** ** check_reverse_depends *)

(** One alternative of a clause as [apt_pkg] returns it: the package name
    and two more strings for the version constraint. *)
Definition alternative : Type := string * string * string.
Definition clause : Type := list alternative.

Definition dep_package (a : alternative) : string := a.1.1.

(** A row of the query for the binaries of one architecture. *)
Record binary_row : Type := {
  row_package : string;
  row_source : string;
  row_component : string;
  row_depends : option string;
  row_provides : option string
}.

(** The database session and [apt_pkg], as far as the function uses them. *)
Class Archive : Type := {
  (** [x.arch_string for x in get_suite_architectures(suite)] *)
  suite_architectures : list string;
  (** [get_architecture(architecture, session)] is not [None] *)
  known_architecture : string -> bool;
  (** the rows of the binaries query for an architecture *)
  binaries_query : string -> list binary_row;
  (** the rows of the sources query; the flag is [include_arch_all] *)
  sources_query : bool -> list (string * option string);
  (** the component of the [dsc] override of a source, if there is one *)
  override_component : string -> option string;
  (** [apt_pkg.parse_depends]; [None] stands for [ValueError] *)
  parse_depends : string -> option (list clause);
  (** [apt_pkg.parse_src_depends]; [None] stands for [ValueError] *)
  parse_src_depends : string -> option (list clause)
}.

(** [x in removals], as a boolean. *)
Definition in_list (x : string) (l : list string) : bool :=
  existsb (String.eqb x) l.

(** The test at the heart of both passes: [unsat] counts the alternatives
    whose package is in [removals] and is compared with [len(dep)]. *)
Fixpoint unsat (removals : list string) (dep : clause) : nat :=
  match dep with
  | [] => 0
  | (dep_package, _, _) :: rest =>
      (if in_list dep_package removals then 1 else 0) + unsat removals rest
  end.

Definition clause_broken (removals : list string) (dep : clause) : bool :=
  unsat removals dep =? length dep.

(** The loop over the names of one Provides field. *)
Fixpoint count_provides (removals : list string) (package : string)
    (names : list string) (virtual_packages : gmap string nat)
    : gmap string nat :=
  match names with
  | [] => virtual_packages
  | virtual_pkg :: rest =>
      let virtual_pkg := Py.strip virtual_pkg in
      if String.eqb virtual_pkg package
      then count_provides removals package rest virtual_packages
      else
        let vp :=
          match virtual_packages !! virtual_pkg with
          | None => <[virtual_pkg := 0]> virtual_packages
          | Some _ => virtual_packages
          end in
        let vp :=
          if negb (in_list package removals)
          then <[virtual_pkg := S (default 0 (vp !! virtual_pkg))]> vp
          else vp in
        count_provides removals package rest vp
  end.

(** The dictionaries filled from the rows of one architecture. *)
Record arch_tables : Type := {
  deps : list (string * string);
  sources : gmap string string;
  virtual_packages : gmap string nat;
  p2c : gmap string string
}.

Fixpoint read_rows (removals : list string) (rows : list binary_row)
    (t : arch_tables) : arch_tables :=
  match rows with
  | [] => t
  | r :: rest =>
      let package := row_package r in
      read_rows removals rest
        {| sources := <[package := row_source r]> (sources t);
           p2c := <[package := row_component r]> (p2c t);
           deps := match row_depends r with
                   | Some d => dict_set package d (deps t)
                   | None => deps t
                   end;
           virtual_packages :=
             match row_provides r with
             | Some p =>
                 count_provides removals package (Py.split_on "," p)
                   (virtual_packages t)
             | None => virtual_packages t
             end |}
  end.

(** Every package that declares Depends has its source and its component
    in the tables. *)
Definition tables_complete (t : arch_tables) : Prop :=
  ∀ p d, (p, d) ∈ deps t → is_Some (p2c t !! p) ∧ is_Some (sources t !! p).

(** The breakage found so far: [all_broken] of the first pass, [all_broken]
    of the second pass, [dep_problem], and the set [removal_set]. *)
Record analysis : Type := {
  broken_depends : gmap string (gmap string (gset string));
  broken_build_depends : gmap string (gset string);
  dep_problem : bool;
  removal_set : gset string
}.

(** The same analysis with another [removal_set]. *)
Definition with_removal_set (s : gset string) (a : analysis) : analysis :=
  {| broken_depends := broken_depends a;
     broken_build_depends := broken_build_depends a;
     dep_problem := dep_problem a;
     removal_set := s |}.

(** [all_broken[source][package].add(architecture)] *)
Definition add_broken (source package architecture : string)
    (b : gmap string (gmap string (gset string)))
    : gmap string (gmap string (gset string)) :=
  let bindict := default ∅ (b !! source) in
  let arches := default ∅ (bindict !! package) in
  <[source := <[package := {[architecture]} ∪ arches]> bindict]> b.

Definition qualified (source component : string) : string :=
  if negb (String.eqb component "main")
  then source +:+ "/" +:+ component else source.

Definition record_broken (source package architecture : string)
    (a : analysis) : analysis :=
  {| broken_depends :=
       add_broken source package architecture (broken_depends a);
     broken_build_depends := broken_build_depends a;
     dep_problem := true;
     removal_set := removal_set a |}.

(** The loop over the clauses of one package. *)
Fixpoint check_clauses (removals : list string) (t : arch_tables)
    (package architecture : string) (parsed_dep : list clause)
    (a : analysis) : result analysis :=
  match parsed_dep with
  | [] => Ok a
  | dep :: rest =>
      if clause_broken removals dep then
        match p2c t !! package with
        | None => Raise (KeyError package)
        | Some component =>
            match sources t !! package with
            | None => Raise (KeyError package)
            | Some source =>
                check_clauses removals t package architecture rest
                  (record_broken (qualified source component) package
                     architecture a)
            end
        end
      else check_clauses removals t package architecture rest a
  end.

(** [pp_deps] *)
Definition pp_deps (deps : clause) : string :=
  Py.join " |"
    (map (fun '(pkg, constraint, version) =>
            if negb (String.eqb constraint "")
            then pkg +:+ " (" +:+ constraint +:+ " " +:+ version +:+ ")"
            else pkg)
         deps).

Definition strip_suffix (suffix s : string) : option string :=
  String.rev <$> strip_prefix (String.rev suffix) (String.rev s).

(** [re.sub('/(contrib|non-free-firmware|non-free)$', '', source)]; the
    end of the subject is also just before a final line feed. *)
Definition strip_component_suffix (source : string) : string :=
  let try_all := fun s =>
    match strip_suffix "/contrib" s with
    | Some x => Some x
    | None =>
        match strip_suffix "/non-free-firmware" s with
        | Some x => Some x
        | None => strip_suffix "/non-free" s
        end
    end in
  match try_all source with
  | Some x => x
  | None =>
      match strip_suffix Py.nl source with
      | Some body =>
          match try_all body with
          | Some x => x +:+ Py.nl
          | None => source
          end
      | None => source
      end
  end.

Section ReverseDepends.
Context `{Regexes} `{Archive}.

(** The loop over the packages that declare Depends. *)
Fixpoint check_packages (removals : list string) (t : arch_tables)
    (architecture : string) (packages : list (string * string))
    (a : analysis) : result analysis :=
  match packages with
  | [] => Ok a
  | (package, depends) :: rest =>
      if in_list package removals
      then check_packages removals t architecture rest a
      else
        let parsed_dep := default [] (parse_depends depends) in
        a ← check_clauses removals t package architecture parsed_dep a;
        check_packages removals t architecture rest a
  end.

(** The body of the loop over the architectures; [p2c] is kept from one
    architecture to the next, and so is [removal_set]. *)
Definition check_architecture (removals : list string) (architecture : string)
    (st : gmap string string * analysis)
    : result (gmap string string * analysis) :=
  if negb (known_architecture architecture) then Ok st
  else
    let t := read_rows removals (binaries_query architecture)
               {| deps := []; sources := ∅; virtual_packages := ∅;
                  p2c := st.1 |} in
    let a :=
      {| broken_depends := broken_depends st.2;
         broken_build_depends := broken_build_depends st.2;
         dep_problem := dep_problem st.2;
         removal_set :=
           removal_set st.2 ∪
           dom (filter (fun kv => kv.2 = 0) (virtual_packages t)) |} in
    a ← check_packages removals t architecture (deps t) a;
    Ok (p2c t, a).

Fixpoint check_architectures (removals : list string)
    (architectures : list string) (st : gmap string string * analysis)
    : result (gmap string string * analysis) :=
  match architectures with
  | [] => Ok st
  | architecture :: rest =>
      st ← check_architecture removals architecture st;
      check_architectures removals rest st
  end.

(** The loop over the clauses of the build dependencies of one source. *)
Fixpoint check_build_clauses (removals : list string) (source : string)
    (parsed_dep : list clause) (a : analysis) : result analysis :=
  match parsed_dep with
  | [] => Ok a
  | dep :: rest =>
      if clause_broken removals dep then
        match override_component (strip_component_suffix source) with
        | None => Raise (ExternalError "TypeError")
        | Some component =>
            let key := qualified source component in
            let b := broken_build_depends a in
            check_build_clauses removals source rest
              {| broken_depends := broken_depends a;
                 broken_build_depends :=
                   <[key := {[pp_deps dep]} ∪ default ∅ (b !! key)]> b;
                 dep_problem := true;
                 removal_set := removal_set a |}
        end
      else check_build_clauses removals source rest a
  end.

(** The loop over the rows of the sources query. *)
Fixpoint check_sources (removals : list string)
    (rows : list (string * option string)) (a : analysis) : result analysis :=
  match rows with
  | [] => Ok a
  | (source, build_dep) :: rest =>
      if in_list source removals then check_sources removals rest a
      else
        let parsed_dep :=
          match build_dep with
          | Some build_dep =>
              default [] (parse_src_depends (re_build_dep_arch_sub build_dep))
          | None => []
          end in
        a ← check_build_clauses removals source parsed_dep a;
        check_sources removals rest a
  end.

(** [all_arches] and [rdep_architectures].  The loop of the function visits
    a Python set; here its elements are visited in the order of
    [elements]. *)
Definition all_arches (arches : list string) : gset string :=
  (match arches with
   | [] => list_to_set suite_architectures
   | _ => list_to_set arches
   end) ∖ {[ "source"; "all" ]}.

Definition rdep_architectures (arches : list string) (include_arch_all : bool)
    : gset string :=
  if include_arch_all then all_arches arches ∪ {[ "all" ]}
  else all_arches arches.

(** The whole analysis, from the computation of [all_arches] on.  The
    head of the function, which looks the suite and its override suite up
    ([get_suite], [dbsuite.overridesuite]) and needs a session, is not
    modelled: the definition describes a call for a suite that is found,
    with a session, and says nothing of the exceptions of a call without
    them.  What the function prints is not modelled; its return value is
    [dep_problem]. *)
Definition analyse (removals arches : list string) (include_arch_all : bool)
    : result analysis :=
  st ← check_architectures removals
         (elements (rdep_architectures arches include_arch_all))
         (∅, {| broken_depends := ∅; broken_build_depends := ∅;
                dep_problem := false;
                removal_set := list_to_set removals |});
  check_sources removals (sources_query include_arch_all) st.2.

Definition check_reverse_depends (removals arches : list string)
    (include_arch_all : bool) : result bool :=
  a ← analyse removals arches include_arch_all;
  Ok (dep_problem a).

End ReverseDepends.

(** ** A concrete setting

    Instances of the collaborators, used to run the functions above on
    concrete inputs. *)

Module Dak.

Definition not_space (c : ascii) : bool := negb (Py.is_space c).
Definition not_lf (c : ascii) : bool := negb (Ascii.eqb c Py.LF).

(** Modelled from the spec: the pattern of a single-line field,
    [Key: value], missing with [daklib/regexes.py]; read as a shortest run
    of non-whitespace characters (the key), optional whitespace, a colon,
    optional whitespace, and the rest of the line (the value). *)
Definition single_line_field (line : string) : option (string * string) :=
  let '(key, r) :=
    Py.span (fun c => not_space c && negb (Ascii.eqb c ":")) line in
  match (Py.span Py.is_space r).2 with
  | String ":" r' => Some (key, (Py.span not_lf (Py.span Py.is_space r').2).1)
  | _ => None
  end.

(** Modelled from the spec: the pattern of a continuation line, a line that
    begins with whitespace, missing with [daklib/regexes.py]; read as one
    whitespace character and the rest of the line (the content). *)
Definition multi_line_field (line : string) : option string :=
  match line with
  | String c r => if Py.is_space c then Some (Py.span not_lf r).1 else None
  | EmptyString => None
  end.

(** [s] without its last character, and that character. *)
Fixpoint unsnoc (s : string) : option (string * ascii) :=
  match s with
  | EmptyString => None
  | String c EmptyString => Some (EmptyString, c)
  | String c s' =>
      match unsnoc s' with
      | Some (b, l) => Some (String c b, l)
      | None => None
      end
  end.

(** Modelled from the spec: the pattern [name (version)] of a source field,
    missing with [daklib/regexes.py]; read as a run of non-whitespace
    characters (the name), whitespace, and a run of non-whitespace
    characters (the version) in brackets at the end of the subject. *)
Definition srchasver (s : string) : option (string * string) :=
  let '(name, r) := Py.span not_space s in
  let '(ws, r) := Py.span Py.is_space r in
  match name, ws, r with
  | String _ _, String _ _, String "(" r' =>
      let '(body, rest) := Py.span not_space r' in
      if String.eqb rest "" || String.eqb rest Py.nl then
        match unsnoc body with
        | Some (String c v, ")"%char) => Some (name, String c v)
        | _ => None
        end
      else None
  | _, _, _ => None
  end.

(** Every way of cutting [s] at an occurrence of [c], leftmost first. *)
Fixpoint cuts (c : ascii) (s : string) : list (string * string) :=
  match s with
  | EmptyString => []
  | String d s' =>
      (if Ascii.eqb d c then [(EmptyString, s')] else [])
      ++ map (fun '(a, b) => (String d a, b)) (cuts c s')
  end.

Definition opt (r : regex) : regex := Alt r (Lit "").

Definition source_ext : regex :=
  Alt (Cat (Lit "orig")
         (Cat (opt (Cat (Lit "-") AnyPlus))
            (Cat (Lit ".tar.") (Cat gz_bz2_xz (opt (Lit ".asc"))))))
    (Alt (Cat (opt (Lit "debian.")) (Cat (Lit "tar.") gz_bz2_xz))
       (Alt (Lit "diff.gz") (Lit "dsc"))).

Definition no_lf (s : string) : bool := negb (Py.contains_char Py.LF s).

(** Modelled from the spec: the pattern of a plausible source file name,
    missing with [daklib/regexes.py]; read as a package name, an
    underscore, a version, a dot and one of the endings of the files of a
    source package, which is the third group and the result. *)
Definition issource (f : string) : option string :=
  head
    (flat_map
       (fun '(package, r) =>
          if String.eqb package "" || negb (no_lf package) then []
          else
            flat_map
              (fun '(version, ext) =>
                 if String.eqb version "" || negb (no_lf version) then []
                 else if re_fullmatch source_ext ext then [ext] else [])
              (cuts "." r))
       (rev (cuts "_" f))).

(** Modelled from the spec: architecture qualifiers are stripped from the
    text of build dependencies; the pattern is missing with
    [daklib/regexes.py]; read as the removal of every bracketed group. *)
Fixpoint build_dep_arch_sub_go (skipping : bool) (s : string) : string :=
  match s with
  | EmptyString => EmptyString
  | String c s' =>
      if skipping then
        build_dep_arch_sub_go (negb (Ascii.eqb c "]")) s'
      else if Ascii.eqb c "[" then build_dep_arch_sub_go true s'
      else String c (build_dep_arch_sub_go false s')
  end.

Definition build_dep_arch_sub (s : string) : string :=
  build_dep_arch_sub_go false s.

Definition regexes : Regexes := {|
  re_single_line_field := single_line_field;
  re_multi_line_field := multi_line_field;
  re_srchasver := srchasver;
  re_issource := issource;
  re_build_dep_arch_sub := build_dep_arch_sub
|}.

(** A verifier for unsigned text: the payload is the data itself. *)
Definition cleartext : Gpg := {|
  SignedFile_contents := fun data _ require_signature =>
    if require_signature then Raise (ExternalError "GpgException")
    else Ok data
|}.

(** A format check that accepts every Format field. *)
Definition any_format : Formats := {|
  validate_changes_format := fun _ _ => Ok tt
|}.

(** No source format is known. *)
Definition no_srcformats : SrcFormats := {|
  get_format_from_string := fun _ => None
|}.

(** One alternative, [name] or [name (op version)]. *)
Definition parse_alternative (s : string) : option alternative :=
  let '(name, r) :=
    Py.span (fun c => not_space c && negb (Ascii.eqb c "(")) (Py.strip s) in
  match name, Py.strip r with
  | EmptyString, _ => None
  | _, EmptyString => Some (name, "", "")
  | _, String "(" r' =>
      match unsnoc r' with
      | Some (body, ")"%char) =>
          let '(op, v) :=
            Py.span (fun c => Ascii.eqb c "<" || Ascii.eqb c ">"
                              || Ascii.eqb c "=") (Py.strip body) in
          Some (name, Py.strip v, op)
      | _ => None
      end
  | _, _ => None
  end.

Fixpoint sequence {A : Type} (l : list (option A)) : option (list A) :=
  match l with
  | [] => Some []
  | x :: xs =>
      match x, sequence xs with
      | Some a, Some r => Some (a :: r)
      | _, _ => None
      end
  end.

(** A dependency field: clauses separated by commas, alternatives by
    vertical bars. *)
Definition parse_clauses (s : string) : option (list clause) :=
  if String.eqb (Py.strip s) "" then Some []
  else
    sequence
      (map (fun c => sequence (map parse_alternative (Py.split_on "|" c)))
         (Py.split_on "," s)).

(** An archive with one architecture and two binaries: [b], the only
    provider of the virtual package [v], and [a], which depends on [v]. *)
Definition virtual_archive : Archive := {|
  suite_architectures := ["amd64"];
  known_architecture := fun _ => true;
  binaries_query := fun architecture =>
    if String.eqb architecture "amd64" then
      [ {| row_package := "b"; row_source := "b-src";
           row_component := "main"; row_depends := None;
           row_provides := Some "v" |};
        {| row_package := "a"; row_source := "a-src";
           row_component := "main"; row_depends := Some "v";
           row_provides := None |} ]
    else [];
  sources_query := fun _ => [];
  override_component := fun _ => Some "main";
  parse_depends := parse_clauses;
  parse_src_depends := parse_clauses
|}.

(** The tables of an architecture with the one package [a]. *)
Definition tables_of_a (depends : string) : arch_tables :=
  {| deps := [("a", depends)];
     sources := {[ "a" := "a-src" ]};
     virtual_packages := ∅;
     p2c := {[ "a" := "main" ]} |}.

Definition no_breakage (removals : list string) : analysis :=
  {| broken_depends := ∅; broken_build_depends := ∅; dep_problem := false;
     removal_set := list_to_set removals |}.

(** [lines], each followed by a line feed. *)
Definition payload (lines : list string) : string :=
  concat_lines (map (λ l, l +:+ Py.nl) lines).



(** The record of the payload [Source: foo (1.2-3)]. *)
Definition source_record : gmap string string :=
  <["source-version" := "1.2-3"]>
    (<["source" := "foo"]>
      (<["filecontents" := payload ["Source: foo (1.2-3)"]]> ∅)).

(** A Files field of a manifest whose second line has four tokens. *)
Definition four_token_files : string :=
  payload ["0123 10 utils optional foo_1.0_all.deb";
               "4567 20 utils foo_1.0.dsc";
               "89ab 30 foo_1.0.tar.gz"].

Definition four_token_manifest : gmap string string :=
  {[ "format" := "1.8"; "files" := four_token_files ]}.

End Dak.

(** ** Further notions used to state properties *)

(** The names of the fields are in lower case. *)
Definition lower_keys (m : gmap string string) : Prop :=
  ∀ k, is_Some (m !! k) → Py.lower k = k.

(** The count a [defaultdict] of counters gives for a key. *)
Definition count (has : gmap string nat) (key : string) : nat :=
  default 0 (has !! key).

Definition multiple_message (dsc_filename file_type : string) : string :=
  dsc_filename +:+ ": lists multiple " +:+ file_type.

(** [s] has no occurrence of the character [c]. *)
Definition free_of (c : ascii) (s : string) : Prop :=
  Py.contains_char c s = false.

(** Every file counted as a gzipped tarball is counted as a tarball. *)
Definition counters_consistent (has : gmap string nat) : Prop :=
  count has "orig_tar_gz" ≤ count has "orig_tar"
  ∧ count has "native_tar_gz" ≤ count has "native_tar".

(** The binary package [pkg] is filed in the report [b] of broken
    Depends. *)
Definition reported (b : gmap string (gmap string (gset string)))
    (pkg : string) : Prop :=
  ∃ key bindict, b !! key = Some bindict ∧ is_Some (bindict !! pkg).

(** The virtual packages a row provides: the names of its Provides field,
    stripped, other than the name of the package itself. *)
Definition provides_of (r : binary_row) : list string :=
  match row_provides r with
  | Some p =>
      List.filter (λ v, negb (String.eqb v (row_package r)))
        (map Py.strip (Py.split_on "," p))
  | None => []
  end.

(** ** Further functions of daklib.utils *)

(** More of Python's text primitives. *)
Module PyMore.

(** [s[:n]] *)
Fixpoint take (n : nat) (s : string) : string :=
  match n, s with
  | S n', String c s' => String c (take n' s')
  | _, _ => EmptyString
  end.

(** [s[-1:] == c] *)
Fixpoint ends_with_char (c : ascii) (s : string) : bool :=
  match s with
  | EmptyString => false
  | String d EmptyString => Ascii.eqb d c
  | String _ s' => ends_with_char c s'
  end.

(** [s.endswith(suffix)] *)
Definition endswith (suffix s : string) : bool :=
  match strip_suffix suffix s with
  | Some _ => true
  | None => false
  end.

(** Every character of [s] satisfies [p]. *)
Fixpoint all_chars (p : ascii → bool) (s : string) : bool :=
  match s with
  | EmptyString => true
  | String c s' => p c && all_chars p s'
  end.

(** [s.split(sep, 1)] when [sep] occurs in [s]: the text before the first
    occurrence and the text after it. *)
Fixpoint split_once (sep s : string) : option (string * string) :=
  match strip_prefix sep s with
  | Some rest => Some (EmptyString, rest)
  | None =>
      match s with
      | EmptyString => None
      | String c s' =>
          match split_once sep s' with
          | Some (a, b) => Some (String c a, b)
          | None => None
          end
      end
  end.

(** [s.split(c, 1)[-1]] for a character [c]: the text after the first
    [c], or [s] when it has none. *)
Definition after_first (c : ascii) (s : string) : string :=
  match split_once (String c EmptyString) s with
  | Some (_, rest) => rest
  | None => s
  end.

(** The class [\d] of [re], for code points below 256. *)
Definition is_digit (c : ascii) : bool :=
  (48 <=? Py.code c) && (Py.code c <=? 57).

(** [re.search(r"(\d)+", s).group()]: the first longest run of digits of
    [s], if [s] has a digit. *)
Fixpoint first_digits (s : string) : option string :=
  match s with
  | EmptyString => None
  | String c s' =>
      if is_digit c then Some (String c (Py.span is_digit s').1)
      else first_digits s'
  end.

(** [repr(n)] for a natural number. *)
Definition repr_nat (n : nat) : string :=
  DecimalString.NilZero.string_of_uint (Nat.to_uint n).

End PyMore.

(** The exceptions of the functions below. *)
Inductive failure : Type :=
| SystemExit (exit_code : Z)
| ValueError
| AssertionError (msg : string)
| IndexError
| AttributeError
| MissingKey (key : string)
| OSError (filename : string)
| NoFreeFilenameError.

Inductive outcome (A : Type) : Type :=
| Returns (a : A)
| Raises (e : failure).
Arguments Returns {A} a.
Arguments Raises {A} e.

#[global] Instance outcome_ret : MRet outcome := fun A a => Returns a.

#[global] Instance outcome_bind : MBind outcome := fun A B k r =>
  match r with
  | Returns a => k a
  | Raises e => Raises e
  end.

(** [fubar]: the message goes to the standard error stream, which is not
    modelled, and the program exits. *)
Definition fubar {A : Type} (msg : string) : outcome A :=
  Raises (SystemExit 1).

(** *** poolify *)

Definition poolify (source : string) : string :=
  if String.eqb (PyMore.take 3 source) "lib"
  then PyMore.take 4 source +:+ "/" +:+ source +:+ "/"
  else PyMore.take 1 source +:+ "/" +:+ source +:+ "/".

(** *** find_next_free *)

(** The names the loop tries: [dest], then [dest.0], [dest.1], ... *)
Definition candidate (orig_dest : string) (j : nat) : string :=
  match j with
  | 0 => orig_dest
  | S extra => orig_dest +:+ "." +:+ PyMore.repr_nat extra
  end.

(** The loop, with [n] the difference between [too_many] and [extra]: at 0
    the test [extra < too_many] fails. *)
Fixpoint find_next_free_loop (lexists : string → bool) (orig_dest : string)
    (n : nat) (dest : string) (extra : nat) : string * nat :=
  match n with
  | 0 => (dest, extra)
  | S n' =>
      if lexists dest
      then find_next_free_loop lexists orig_dest n'
             (orig_dest +:+ "." +:+ PyMore.repr_nat extra) (S extra)
      else (dest, extra)
  end.

(** [lexists] is [os.path.lexists] on the file system as it stands. *)
Definition find_next_free (lexists : string → bool) (dest : string)
    (too_many : nat) : outcome string :=
  let '(dest, extra) := find_next_free_loop lexists dest too_many dest 0 in
  if too_many <=? extra then Raises NoFreeFilenameError else Returns dest.

(** *** result_join, prefix_multi_line_string, join_with_commas_and *)

Definition result_join (original : list (option string)) (sep : string)
    : string :=
  Py.join sep (map (λ x, match x with Some s => s | None => "" end) original).

(** The lines that [prefix_multi_line_string] keeps, each stripped. *)
Definition cleaned_lines (lines : string) (include_blank_lines : bool)
    : list string :=
  List.filter (λ cleaned_line,
                 negb (String.eqb cleaned_line "") || include_blank_lines)
    (map Py.strip (Py.split_on Py.LF lines)).

Definition prefix_multi_line_string (lines prefix : string)
    (include_blank_lines : bool) : string :=
  Py.join Py.nl
    (map (λ cleaned_line, prefix +:+ cleaned_line)
       (cleaned_lines lines include_blank_lines)).

Definition join_with_commas_and (list : list string) : string :=
  match list with
  | [] => "nothing"
  | [x] => x
  | _ => Py.join ", " (removelast list) +:+ " and " +:+ List.last list ""
  end.

(** *** ArchKey *)

Module ArchKey.

Record t : Type := { arch : string; issource : bool }.

(** [__init__] *)
Definition init (a : string) : t :=
  {| arch := a; issource := String.eqb a "source" |}.

(** [__lt__] *)
Definition lt (self other : t) : bool :=
  if issource self then negb (issource other)
  else if issource other then false
  else String.ltb (arch self) (arch other).

(** [__eq__] between two keys *)
Definition eq (self other : t) : bool :=
  String.eqb (arch self) (arch other).

End ArchKey.

(** *** split_args *)

Definition split_args (s : string) (dwim : bool) : outcome (list string) :=
  if negb (Py.contains_char "," s) then Returns (Py.split_ws s)
  else if PyMore.ends_with_char "," s && dwim
       then fubar "split_args: found trailing comma, spurious space maybe?"
       else Returns (Py.split_on "," s).

(** *** find_possibly_compressed_file *)

Definition compressions : list string := [""; ".xz"; ".gz"; ".bz2"].

Fixpoint first_existing (exists_ : string → bool) (filename : string)
    (exts : list string) : outcome string :=
  match exts with
  | [] => Raises (OSError filename)
  | ext :: rest =>
      if exists_ (filename +:+ ext) then Returns (filename +:+ ext)
      else first_existing exists_ filename rest
  end.

(** [exists_] is [os.path.exists] on the file system as it stands. *)
Definition find_possibly_compressed_file (exists_ : string → bool)
    (filename : string) : outcome string :=
  first_existing exists_ filename compressions.

(** *** is_in_debug_section, parse_built_using *)

(** A control file is read through [control.get]. *)
Definition is_in_debug_section (control : string → option string)
    : outcome bool :=
  match control "Section" with
  | None => Raises (MissingKey "Section")
  | Some s =>
      let section := PyMore.after_first "/" s in
      Returns (String.eqb section "debug"
               && match control "Auto-Built-Package" with
                  | Some a => String.eqb a "debug-symbols"
                  | None => false
                  end)
  end.

(** The loop of [parse_built_using] over the parsed clauses. *)
Fixpoint built_using_pairs (clauses : list clause) (bu : list (string * string))
    : outcome (list (string * string)) :=
  match clauses with
  | [] => Returns bu
  | dep :: rest =>
      match dep with
      | [(source_name, source_version, comp)] =>
          if String.eqb comp "="
          then built_using_pairs rest (bu ++ [(source_name, source_version)])
          else Raises (AssertionError
                         "Built-Using must contain strict dependencies")
      | _ => Raises (AssertionError
                       "Alternatives are not allowed in Built-Using field")
      end
  end.

Section BuiltUsing.
Context `{Archive}.

Definition parse_built_using (control : string → option string)
    : outcome (list (string * string)) :=
  match control "Built-Using" with
  | None => Returns []
  | Some built_using =>
      match parse_depends built_using with
      | None => Raises ValueError
      | Some clauses => built_using_pairs clauses []
      end
  end.

End BuiltUsing.

(** *** parse_wnpp_bug_file *)

(** The first loop: a line with [": "] sets the entry of the text before
    it to the pieces, between vertical bars, of the text after it. *)
Fixpoint wnpp_entries (lines : list string) (wnpp : list (string * list string))
    : list (string * list string) :=
  match lines with
  | [] => wnpp
  | line :: rest =>
      match PyMore.split_once ": " line with
      | Some (source, bugs) =>
          wnpp_entries rest (dict_set source (Py.split_on "|" bugs) wnpp)
      | None => wnpp_entries rest wnpp
      end
  end.

(** The inner loop of the second loop. *)
Fixpoint bug_numbers (wnpp_bugs bugs : list string) : outcome (list string) :=
  match wnpp_bugs with
  | [] => Returns bugs
  | wnpp_bug :: rest =>
      match PyMore.first_digits wnpp_bug with
      | None => Raises AttributeError
      | Some bug_no =>
          bug_numbers rest
            (if negb (String.eqb bug_no "") then bugs ++ [bug_no] else bugs)
      end
  end.

(** The second loop: [todo] are the entries still to visit. *)
Fixpoint wnpp_numbers (todo wnpp : list (string * list string))
    : outcome (list (string * list string)) :=
  match todo with
  | [] => Returns wnpp
  | (source, wnpp_bugs) :: rest =>
      bugs ← bug_numbers wnpp_bugs [];
      wnpp_numbers rest (dict_set source bugs wnpp)
  end.

(** [lines] is what [readlines] gives for the file, or the empty list when
    the file cannot be opened. *)
Definition parse_wnpp_bug_file (lines : list string)
    : outcome (list (string * list string)) :=
  let wnpp := wnpp_entries lines [] in
  wnpp_numbers wnpp wnpp.

(** *** _gpg_get_addresses_from_listing, gpg_get_key_addresses *)

(** What the two functions take from outside: the decoding of the bytes of
    a uid (UTF-8, or Latin-1 when that fails), the second group of
    [re_parse_maintainer.match], and the listing that gpg prints for a
    fingerprint, [None] when gpg fails. *)
Class Keys : Type := {
  decode_uid : string → string;
  re_parse_maintainer : string → option string;
  gpg_list_keys : string → option string
}.

Section Addresses.
Context `{Keys}.

Fixpoint listing_addresses (lines addresses : list string)
    : outcome (list string) :=
  match lines with
  | [] => Returns addresses
  | line :: rest =>
      let parts := Py.split_on ":" line in
      if negb (in_list (nth 0 parts "") ["uid"; "pub"])
      then listing_addresses rest addresses
      else
        match nth_error parts 1 with
        | None => Raises IndexError
        | Some validity =>
            if in_list validity ["i"; "d"; "r"]
            then listing_addresses rest addresses
            else
              match nth_error parts 9 with
              | None => listing_addresses rest addresses
              | Some uid_bytes =>
                  match re_parse_maintainer (decode_uid uid_bytes) with
                  | None => listing_addresses rest addresses
                  | Some address =>
                      if PyMore.endswith "@debian.org" address
                      then listing_addresses rest (address :: addresses)
                      else listing_addresses rest (addresses ++ [address])
                  end
              end
        end
  end.

Definition _gpg_get_addresses_from_listing (output : string)
    : outcome (list string) :=
  listing_addresses (Py.split_on Py.LF output) [].

(** The cache [key_uid_email_cache] is passed in and returned. *)
Definition gpg_get_key_addresses (fingerprint : string)
    (key_uid_email_cache : gmap string (list string))
    : outcome (list string * gmap string (list string)) :=
  match key_uid_email_cache !! fingerprint with
  | Some addresses => Returns (addresses, key_uid_email_cache)
  | None =>
      addresses ←
        match gpg_list_keys fingerprint with
        | None => Returns []
        | Some output => _gpg_get_addresses_from_listing output
        end;
      Returns (addresses, <[fingerprint := addresses]> key_uid_email_cache)
  end.

End Addresses.

(** ** Notions used to state the properties of the further functions *)

(** No package of [removals] is filed in the report. *)
Definition removed_unreported (removals : list string) (a : analysis) : Prop :=
  ∀ pkg, reported (broken_depends a) pkg → pkg ∉ removals.

(** A word: not empty, and made of characters that satisfy [p]. *)
Definition word_of (p : ascii → bool) (w : string) : Prop :=
  w ≠ "" ∧ PyMore.all_chars p w = true.

(** An entry of the table of [parse_wnpp_bug_file] as the first loop
    leaves it, and as the second loop does. *)
Definition wnpp_raw (lines : list string) (entry : string * list string)
    : Prop :=
  ∃ line text,
    line ∈ lines
    ∧ PyMore.split_once ": " line = Some (entry.1, text)
    ∧ entry.2 = Py.split_on "|" text.

Definition wnpp_numbered (lines : list string) (entry : string * list string)
    : Prop :=
  Forall (word_of PyMore.is_digit) entry.2
  ∧ ∃ line text,
      line ∈ lines
      ∧ PyMore.split_once ": " line = Some (entry.1, text)
      ∧ map Some entry.2 = map PyMore.first_digits (Py.split_on "|" text).

Section AddressNotions.
Context `{Keys}.

(** An address taken from a line of the listing: the line is a [uid] or
    [pub] record that is not invalid, disabled or revoked, and the address
    is what the maintainer pattern finds in its tenth field. *)
Definition taken_from (lines : list string) (address : string) : Prop :=
  ∃ line validity uid_bytes,
    line ∈ lines
    ∧ in_list (nth 0 (Py.split_on ":" line) "") ["uid"; "pub"] = true
    ∧ nth_error (Py.split_on ":" line) 1 = Some validity
    ∧ in_list validity ["i"; "d"; "r"] = false
    ∧ nth_error (Py.split_on ":" line) 9 = Some uid_bytes
    ∧ re_parse_maintainer (decode_uid uid_bytes) = Some address.

End AddressNotions.

(** The addresses that end with [@debian.org] come first. *)
Definition preferred_first (addresses : list string) : Prop :=
  ∃ preferred others,
    addresses = preferred ++ others
    ∧ Forall (λ a, PyMore.endswith "@debian.org" a = true) preferred
    ∧ Forall (λ a, PyMore.endswith "@debian.org" a = false) others.

(** ** Sample data for the further runs *)

Module Samples.

(** A Files field that lists one name twice. *)
Definition upload_manifest : gmap string string :=
  {[ "format" := "1.8";
     "files" := Dak.payload ["0123 10 utils optional foo_1.0_all.deb";
                             "4567 20 libs extra foo_1.0_all.deb"] ]}.

(** A changes file with the nine mandatory fields. *)
Definition changes_text : string :=
  Dak.payload ["Format: 1.8"; "Date: today"; "Source: foo";
               "Architecture: all"; "Version: 1.0";
               "Distribution: unstable"; "Maintainer: me";
               "Changes: none"; "Files: none"].

(** The report on the removal of [v] from [Dak.virtual_archive]: the
    package [a] of the source [a-src] is broken on amd64. *)
Definition removal_of_v : analysis :=
  {| broken_depends := {[ "a-src" := {[ "a" := {[ "amd64" ]} ]} ]};
     broken_build_depends := ∅;
     dep_problem := true;
     removal_set := {[ "v" ]} |}.

(** A stand-in for the second group of the maintainer pattern, which is
    missing with [daklib/regexes.py]: the text between the first [<] and
    the next [>]. *)
Definition angle_address (uid : string) : option string :=
  match PyMore.split_once "<" uid with
  | Some (_, r) =>
      match PyMore.split_once ">" r with
      | Some (String c address, _) => Some (String c address)
      | _ => None
      end
  | None => None
  end.

(** A listing with three uid records, the last of them revoked. *)
Definition listing : string :=
  Dak.payload ["uid:u::::::::Jane Doe <jane@example.org>:";
               "uid:u::::::::Jane Doe <jane@debian.org>:";
               "uid:r::::::::Jane Doe <old@debian.org>:"].

Definition keys : Keys := {|
  decode_uid := λ uid_bytes, uid_bytes;
  re_parse_maintainer := angle_address;
  gpg_list_keys := λ fingerprint,
    if String.eqb fingerprint "ABCD" then Some listing else None
|}.

(** Another source of keys, which knows none. *)
Definition no_keys : Keys := {|
  decode_uid := λ uid_bytes, uid_bytes;
  re_parse_maintainer := λ _, None;
  gpg_list_keys := λ _, None
|}.

End Samples.

(** * Properties *)

(** ** The record parser *)

Lemma splitlines_nil (s : string) : Py.splitlines s = [] ↔ s = "".
Proof.
  split; [| intros ->; reflexivity].
  destruct s as [| c s]; [reflexivity | simpl].
  destruct (Py.is_linebreak c).
  - destruct s as [| c2 s]; [discriminate |].
    destruct (Ascii.eqb c Py.CR && Ascii.eqb c2 Py.LF); discriminate.
  - destruct (Py.splitlines s); discriminate.
Qed.

Section ParserFacts.
Context `{Regexes} `{Gpg}.

(** What [parse_deb822] returns once the wrapper is removed and the payload
    has at least one line. *)
Lemma parse_deb822_unfold (armored : string) (sr : Z)
    (keyrings : option (list string)) (contents : string) :
  signed_contents armored keyrings = Ok contents →
  contents ≠ "" →
  parse_deb822 armored sr keyrings =
    st ← scan sr (indexed_lines contents);
    if negb (String.eqb (error st) "")
    then Raise (ParseChangesError (error st))
    else Ok (finish_record armored st).
Proof.
  intros Hs Hne. unfold parse_deb822. rewrite Hs. simpl.
  destruct (Py.splitlines contents) eqn:E.
  - apply splitlines_nil in E. contradiction.
  - reflexivity.
Qed.

(** C10: when the payload inside the wrapper splits into no line at all,
    [parse_deb822] raises [ParseChangesError] with the message
    [[Empty changes file]]; it does not return a record without fields. *)
Theorem parse_deb822_empty_payload (armored : string) (sr : Z)
    (keyrings : option (list string)) (contents : string) :
  signed_contents armored keyrings = Ok contents →
  Py.splitlines contents = [] →
  parse_deb822 armored sr keyrings
  = Raise (ParseChangesError "[Empty changes file]").
Proof.
  intros Hs Hl. unfold parse_deb822. rewrite Hs. simpl. rewrite Hl.
  reflexivity.
Qed.

(** A record is returned only when the scan ran to its end with an empty
    error buffer, and it is then the finished record of the scan. *)
Lemma parse_deb822_ok_inv (armored : string) (sr : Z)
    (keyrings : option (list string)) (r : gmap string string) :
  parse_deb822 armored sr keyrings = Ok r →
  ∃ contents st,
    signed_contents armored keyrings = Ok contents
    ∧ scan sr (indexed_lines contents) = Ok st
    ∧ error st = ""
    ∧ r = finish_record armored st.
Proof.
  unfold parse_deb822. intros Hp.
  destruct (signed_contents armored keyrings) as [contents |] eqn:Hs;
    [simpl in Hp | discriminate].
  destruct (length (Py.splitlines contents) =? 0); [discriminate |].
  destruct (scan sr (indexed_lines contents)) as [st |] eqn:Hscan;
    [simpl in Hp | discriminate].
  destruct (String.eqb (error st) "") eqn:He; simpl in Hp; [| discriminate].
  apply String.eqb_eq in He. exists contents, st.
  repeat split; congruence.
Qed.

(** C9: in a record that [parse_deb822] returns, a source field whose
    scanned value matches the pattern [name (version)] holds the name alone
    and the field source-version holds the version, every other field being
    as scanned; when the scanned value does not match, or there is no
    source field, the record is as scanned, source-version included. *)
Theorem parse_deb822_source_version (armored : string) (sr : Z)
    (keyrings : option (list string)) (r : gmap string string) :
  parse_deb822 armored sr keyrings = Ok r →
  ∃ contents st,
    signed_contents armored keyrings = Ok contents
    ∧ scan sr (indexed_lines contents) = Ok st
    ∧ let scanned := <["filecontents" := armored]> (changes st) in
      match changes st !! "source" with
      | Some v =>
          match re_srchasver v with
          | Some (name, version) =>
              r !! "source" = Some name
              ∧ r !! "source-version" = Some version
              ∧ ∀ k, k ≠ "source" → k ≠ "source-version" →
                     r !! k = scanned !! k
          | None => r = scanned ∧ r !! "source" = Some v
          end
      | None => r = scanned ∧ r !! "source" = None
      end.
Proof.
  intros Hp. apply parse_deb822_ok_inv in Hp.
  destruct Hp as (contents & st & Hs & Hscan & _ & ->).
  exists contents, st. split; [exact Hs |]. split; [exact Hscan |].
  unfold finish_record, split_source.
  assert (Hsrc : (<["filecontents" := armored]> (changes st) : gmap string string)
                   !! "source" = changes st !! "source")
    by (apply lookup_insert_ne; discriminate).
  cbv zeta. rewrite Hsrc.
  destruct (changes st !! "source") as [v |] eqn:Hv.
  - destruct (re_srchasver v) as [[name version] |].
    + split; [| split].
      * rewrite lookup_insert_ne by discriminate. apply lookup_insert_eq.
      * apply lookup_insert_eq.
      * intros k Hk1 Hk2. rewrite !lookup_insert_ne by congruence.
        reflexivity.
    + split; [reflexivity | exact Hsrc].
  - split; [reflexivity | exact Hsrc].
Qed.

End ParserFacts.

(** ** The scanning loop *)

Section ScanFacts.
Context `{Regexes}.

Lemma scan_line_classify (sr : Z) (n i : nat) (line : string)
    (st : scan_state) :
  scan_line sr n i line st =
    match classify sr line with
    | Terminator =>
        if negb (i =? n) then Raised (InvalidDscError i) else Break st
    | Single k v =>
        Continue {| changes := <[Py.lower k := v]> (changes st);
                    field := Some (Py.lower k);
                    first := 1%Z; error := error st |}
    | Marker => append_to_field st Py.nl Continue
    | Continuation content => continuation_line line content st
    | Unparseable => Continue (push_error line st)
    end.
Proof.
  unfold scan_line, classify.
  destruct (String.eqb line "" && (sr =? 1)%Z); [reflexivity |].
  destruct (re_single_line_field line) as [[k v] |]; [reflexivity |].
  destruct (String.eqb line " ."); [reflexivity |].
  destruct (re_multi_line_field line); reflexivity.
Qed.

Lemma classify_terminator (sr : Z) (line : string) :
  classify sr line = Terminator ↔ line = "" ∧ sr = 1%Z.
Proof.
  unfold classify.
  destruct (String.eqb_spec line ""), (Z.eqb_spec sr 1); simpl;
    repeat case_match; split; try discriminate; try tauto;
    intros [? ?]; congruence.
Qed.

Lemma append_to_field_bound (st : scan_state) (s f v : string)
    (k : scan_state -> iteration) :
  field st = Some f →
  changes st !! f = Some v →
  append_to_field st s k
  = k {| changes := <[f := v +:+ s]> (changes st); field := Some f;
         first := first st; error := error st |}.
Proof.
  intros Hf Hv. unfold append_to_field. rewrite Hf, Hv. reflexivity.
Qed.

Lemma append_to_field_continue (st : scan_state) (s : string) :
  (∃ e, append_to_field st s Continue = Raised e)
  ∨ (∃ st', append_to_field st s Continue = Continue st').
Proof.
  unfold append_to_field. destruct (field st) as [f |]; [| eauto].
  destruct (changes st !! f); eauto.
Qed.

Lemma continuation_line_continue (line content : string) (st : scan_state) :
  (∃ e, continuation_line line content st = Raised e)
  ∨ (∃ st', continuation_line line content st = Continue st').
Proof.
  unfold continuation_line.
  destruct (first st =? -1)%Z; [eauto |].
  destruct (first st =? 1)%Z; [| apply append_to_field_continue].
  destruct (field st) as [f |] eqn:Hf; [| eauto].
  destruct (changes st !! f) as [v |] eqn:Hv; [| eauto].
  destruct (negb (String.eqb v "")); [| apply append_to_field_continue].
  rewrite (append_to_field_bound _ _ _ _ _ Hf Hv).
  apply append_to_field_continue.
Qed.

(** The loop is left by [break] only at an empty line in strict mode that
    is the last line. *)
Lemma scan_line_break (sr : Z) (n i : nat) (line : string)
    (st st' : scan_state) :
  scan_line sr n i line st = Break st' →
  i = n ∧ line = "" ∧ sr = 1%Z ∧ st' = st.
Proof.
  rewrite scan_line_classify.
  destruct (classify sr line) eqn:Hc.
  - apply classify_terminator in Hc as [-> ->].
    destruct (i =? n) eqn:E; simpl; [| discriminate].
    apply Nat.eqb_eq in E. intros [= ->]. auto.
  - discriminate.
  - destruct (append_to_field_continue st Py.nl) as [[e ->] | [s ->]];
      discriminate.
  - destruct (continuation_line_continue line content st)
      as [[e ->] | [s ->]]; discriminate.
  - discriminate.
Qed.

Lemma scan_line_empty_strict (n i : nat) (st : scan_state) :
  scan_line 1 n i "" st =
    if negb (i =? n) then Raised (InvalidDscError i) else Break st.
Proof. reflexivity. Qed.

Lemma scan_loop_reach (sr : Z) (n : nat) (pre post : list string) :
  ∀ (i : nat) (st st' : scan_state),
    scan_reach sr n i pre st = Some st' →
    scan_loop sr n i (pre ++ post) st
    = scan_loop sr n (i + length pre) post st'.
Proof.
  induction pre as [| line pre IH]; intros i st st' Hr; simpl in *.
  - injection Hr as ->. rewrite Nat.add_0_r. reflexivity.
  - destruct (scan_line sr n (S i) line st) as [s | s | e];
      try discriminate.
    rewrite (IH _ _ _ Hr). f_equal. lia.
Qed.


End ScanFacts.

Section StrictMode.
Context `{Regexes} `{Gpg}.

Lemma indexed_lines_nonempty (contents : string) :
  indexed_lines contents ≠ [] → contents ≠ "".
Proof. intros Hl ->. apply Hl. reflexivity. Qed.


End StrictMode.

(** ** Aggregation of the lines that cannot be parsed *)

Lemma append_nil_r (s : string) : s +:+ "" = s.
Proof.
  induction s as [| c s IH]; [reflexivity |].
  change (String c (s +:+ "") = String c s). by rewrite IH.
Qed.

Lemma append_assoc (a b c : string) : (a +:+ b) +:+ c = a +:+ (b +:+ c).
Proof.
  induction a as [| x a IH]; [reflexivity |].
  change (String x ((a +:+ b) +:+ c) = String x (a +:+ (b +:+ c))).
  by rewrite IH.
Qed.

Lemma append_eq_nil (a b : string) : a +:+ b = "" → a = "" ∧ b = "".
Proof. destruct a; [auto | discriminate]. Qed.

Lemma concat_lines_nil (l : list string) :
  concat_lines l = "" → Forall (λ s, s = "") l.
Proof.
  induction l as [| s l IH]; intros Hc; [constructor |].
  apply append_eq_nil in Hc as [-> Hc]. constructor; auto.
Qed.

Lemma push_error_nil : push_error "" scan_init = scan_init.
Proof. reflexivity. Qed.

Lemma push_error_push_error (a b : string) (st : scan_state) :
  push_error b (push_error a st) = push_error (a +:+ b) st.
Proof. unfold push_error. simpl. by rewrite append_assoc. Qed.

Lemma in_field_push_error (e : string) (st : scan_state) :
  in_field st → in_field (push_error e st).
Proof. intros (f & v & ? & ? & ?). exists f, v. auto. Qed.

Section Aggregation.
Context `{Regexes}.

(** A line that can be parsed is handled in the same way whatever the
    error buffer holds and wherever the line stands. *)
Lemma scan_line_push_error (sr : Z) (n i n' i' : nat) (line e : string)
    (st : scan_state) :
  classify sr line ≠ Unparseable →
  classify sr line ≠ Terminator →
  scan_line sr n i line (push_error e st)
  = iteration_map (push_error e) (scan_line sr n' i' line st).
Proof.
  intros Hu Ht. rewrite !scan_line_classify.
  destruct (classify sr line) as [| k v | | content |]; try congruence.
  - reflexivity.
  - unfold append_to_field; simpl.
    destruct (field st) as [f |]; [| reflexivity].
    destruct (changes st !! f); reflexivity.
  - unfold continuation_line; simpl.
    destruct (first st =? -1)%Z; [reflexivity |].
    destruct (first st =? 1)%Z.
    + destruct (field st) as [f |] eqn:Hf; [| reflexivity].
      destruct (changes st !! f) as [v |] eqn:Hv; [| reflexivity].
      destruct (negb (String.eqb v "")).
      * unfold append_to_field; simpl. rewrite Hf, Hv; simpl.
        rewrite lookup_insert_eq. reflexivity.
      * unfold append_to_field; simpl. rewrite Hf, Hv. reflexivity.
    + unfold append_to_field; simpl.
      destruct (field st) as [f |]; [| reflexivity].
      destruct (changes st !! f); reflexivity.
Qed.

Lemma terminator_last_cons (sr : Z) (line : string) (rest : list string) :
  terminator_last sr (line :: rest) = true →
  terminator_last sr rest = true
  ∧ (classify sr line = Terminator → rest = []).
Proof.
  intros Ht. cbn [terminator_last] in Ht.
  destruct (classify sr line), rest; try discriminate Ht;
    (split; [exact Ht | intros Hc; reflexivity || discriminate Hc]).
Qed.

(** The scan of a payload is the scan of its parseable lines, with the
    other lines added to the error buffer in their order. *)
Lemma scan_loop_skip (sr : Z) (lines : list string) :
  ∀ (n i n' i' : nat) (e : string) (st : scan_state),
    terminator_last sr lines = true →
    i + length lines = n →
    i' + length (List.filter (parseable sr) lines) = n' →
    scan_loop sr n i lines (push_error e st)
    = result_map
        (push_error (e +:+ concat_lines (List.filter (unparseable sr) lines)))
        (scan_loop sr n' i' (List.filter (parseable sr) lines) st).
Proof.
  induction lines as [| line rest IH]; intros n i n' i' e st Ht Hn Hn'.
  - simpl. by rewrite append_nil_r.
  - apply terminator_last_cons in Ht as [Ht Hlast].
    revert Hn'. cbn [List.filter length] in *.
    change (parseable sr line) with (negb (unparseable sr line)).
    destruct (unparseable sr line) eqn:Hu; cbn [negb]; intros Hn'.
    + (* a line that cannot be parsed goes to the error buffer *)
      assert (Hc : classify sr line = Unparseable).
      { unfold unparseable in Hu. destruct (classify sr line); congruence. }
      cbn [scan_loop]. rewrite scan_line_classify, Hc.
      rewrite push_error_push_error.
      cbn [concat_lines foldr]. rewrite <- append_assoc.
      apply IH; [exact Ht | lia | exact Hn'].
    + assert (Hc : classify sr line ≠ Unparseable).
      { unfold unparseable in Hu. destruct (classify sr line); congruence. }
      cbn [scan_loop length] in *.
      destruct (String.eqb line "" && (sr =? 1)%Z) eqn:Hterm.
      * (* the empty line that ends a strict payload *)
        assert (Hk : classify sr line = Terminator)
          by (unfold classify; rewrite Hterm; reflexivity).
        rewrite (Hlast Hk) in *.
        apply classify_terminator in Hk as [-> ->].
        rewrite !scan_line_empty_strict. cbn [List.filter length] in *.
        replace (S i =? n) with true by (symmetry; apply Nat.eqb_eq; lia).
        replace (S i' =? n') with true by (symmetry; apply Nat.eqb_eq; lia).
        simpl. by rewrite append_nil_r.
      * assert (Hk : classify sr line ≠ Terminator).
        { intros Hk. apply classify_terminator in Hk as [-> ->].
          discriminate Hterm. }
        rewrite (scan_line_push_error sr n (S i) n' (S i')) by assumption.
        destruct (scan_line sr n' (S i') line st) as [s | s | x] eqn:Hl;
          cbn [iteration_map].
        -- apply IH; [exact Ht | lia | lia].
        -- apply scan_line_break in Hl as (_ & -> & -> & _).
           discriminate Hterm.
        -- reflexivity.
Qed.

End Aggregation.

Section AggregationTheorem.
Context `{Regexes} `{Gpg}.

(** Inside a field every line but a misplaced empty line is accepted, and
    the scan stays inside a field. *)
Lemma scan_line_in_field (sr : Z) (n i : nat) (line : string)
    (st : scan_state) :
  in_field st →
  classify sr line ≠ Terminator →
  ∃ st', scan_line sr n i line st = Continue st' ∧ in_field st'.
Proof.
  intros (f & v & Hf & Hv & Hfirst) Ht. rewrite scan_line_classify.
  destruct (classify sr line) as [| k w | | content |]; [congruence | | | |].
  - eexists. split; [reflexivity |].
    exists (Py.lower k), w. simpl. rewrite lookup_insert_eq. done.
  - rewrite (append_to_field_bound _ _ _ _ _ Hf Hv).
    eexists. split; [reflexivity |].
    exists f, (v +:+ Py.nl). simpl. rewrite lookup_insert_eq. done.
  - unfold continuation_line.
    replace (first st =? -1)%Z with false by (symmetry; by apply Z.eqb_neq).
    assert (Hadd : ∀ s w, field s = Some f → changes s !! f = Some w →
              ∃ st', append_to_field (set_first 0 s) (content +:+ Py.nl)
                       Continue = Continue st' ∧ in_field st').
    { intros s w Hsf Hsw.
      rewrite (append_to_field_bound _ _ f w) by (simpl; assumption).
      eexists. split; [reflexivity |].
      exists f, (w +:+ (content +:+ Py.nl)). simpl.
      rewrite lookup_insert_eq. done. }
    destruct (first st =? 1)%Z; [| by apply (Hadd st v)].
    rewrite Hf, Hv. destruct (negb (String.eqb v "")); [| by apply (Hadd st v)].
    rewrite (append_to_field_bound _ _ _ _ _ Hf Hv).
    apply (Hadd _ (v +:+ Py.nl)); simpl; [done | apply lookup_insert_eq].
  - eexists. split; [reflexivity |]. apply in_field_push_error.
    exists f, v. done.
Qed.

Lemma scan_loop_in_field (sr : Z) (lines : list string) :
  ∀ (n i : nat) (st : scan_state),
    terminator_last sr lines = true →
    i + length lines = n →
    in_field st →
    ∃ st', scan_loop sr n i lines st = Ok st'.
Proof.
  induction lines as [| line rest IH]; intros n i st Ht Hn Hin.
  - eexists. reflexivity.
  - apply terminator_last_cons in Ht as [Ht Hlast]. cbn [scan_loop].
    destruct (String.eqb line "" && (sr =? 1)%Z) eqn:Hterm.
    + assert (Hk : classify sr line = Terminator)
        by (unfold classify; rewrite Hterm; reflexivity).
      rewrite (Hlast Hk) in *. apply classify_terminator in Hk as [-> ->].
      rewrite scan_line_empty_strict. simpl in Hn.
      replace (S i =? n) with true by (symmetry; apply Nat.eqb_eq; lia).
      eexists. reflexivity.
    + assert (Hk : classify sr line ≠ Terminator).
      { intros Hk. apply classify_terminator in Hk as [-> ->].
        discriminate Hterm. }
      destruct (scan_line_in_field sr n (S i) line st Hin Hk)
        as (st' & -> & Hin').
      apply IH; [exact Ht | simpl in Hn; lia | exact Hin'].
Qed.

(** Before the first field the loop gets through a payload in which a
    single-line field comes before any continuation line or marker. *)
Lemma scan_loop_field_first (sr : Z) (lines : list string) :
  ∀ (n i : nat) (st : scan_state),
    terminator_last sr lines = true →
    field_first sr lines = true →
    i + length lines = n →
    first st = (-1)%Z →
    ∃ st', scan_loop sr n i lines st = Ok st'.
Proof.
  induction lines as [| line rest IH]; intros n i st Ht Hff Hn Hfirst.
  - eexists. reflexivity.
  - pose proof (terminator_last_cons _ _ _ Ht) as [Ht' Hlast].
    cbn [scan_loop field_first] in *. rewrite scan_line_classify.
    destruct (classify sr line) as [| k v | | content |] eqn:Hc;
      try discriminate Hff.
    + rewrite (Hlast eq_refl) in Hn. simpl in Hn.
      replace (S i =? n) with true by (symmetry; apply Nat.eqb_eq; lia).
      eexists. reflexivity.
    + apply scan_loop_in_field; [exact Ht' | simpl in Hn; lia |].
      exists (Py.lower k), v. simpl. rewrite lookup_insert_eq. done.
    + apply IH; [exact Ht' | exact Hff | simpl in Hn; lia | exact Hfirst].
Qed.

(** The parseable lines leave the error buffer as it is. *)
Lemma scan_line_error (sr : Z) (n i : nat) (line : string)
    (st st' : scan_state) :
  classify sr line ≠ Unparseable →
  scan_line sr n i line st = Continue st' →
  error st' = error st.
Proof.
  intros Hc. rewrite scan_line_classify.
  destruct (classify sr line) as [| k v | | content |]; [| | | | congruence].
  - destruct (negb (i =? n)); discriminate.
  - intros [= <-]. reflexivity.
  - unfold append_to_field. repeat case_match; try discriminate.
    intros [= <-]. reflexivity.
  - unfold continuation_line, append_to_field, set_first; simpl.
    repeat (case_match; simpl); try discriminate; intros [= <-]; reflexivity.
Qed.

Lemma scan_loop_error (sr : Z) (lines : list string) :
  ∀ (n i : nat) (st st' : scan_state),
    Forall (λ l, parseable sr l = true) lines →
    scan_loop sr n i lines st = Ok st' →
    error st' = error st.
Proof.
  induction lines as [| line rest IH]; intros n i st st' Hall Hs.
  - injection Hs as ->. reflexivity.
  - inversion Hall as [| ? ? Hp Hrest]; subst. cbn [scan_loop] in Hs.
    assert (Hc : classify sr line ≠ Unparseable).
    { unfold parseable, unparseable in Hp. intros Hc. rewrite Hc in Hp.
      discriminate. }
    destruct (scan_line sr n (S i) line st) as [s | s | x] eqn:Hl.
    + rewrite (IH _ _ _ _ Hrest Hs). by eapply scan_line_error.
    + injection Hs as <-. by apply scan_line_break in Hl as (_ & _ & _ & ->).
    + discriminate.
Qed.

(** C3, as amended: take a payload whose scan is not cut short, that is, in
    which a single-line field comes before any continuation line or marker
    and, in strict mode, no line but the last is empty.  If one of its
    lines is non-empty and is neither a single-line field, nor the marker,
    nor a continuation line, then the loop reads every line and
    [parse_deb822] fails afterwards with one [ParseChangesError] whose
    message is the concatenation of the lines of that kind, in their order;
    the fields are those of the scan of the payload without these lines. *)
Theorem unparseable_lines_aggregated (armored : string) (sr : Z)
    (keyrings : option (list string)) (contents bad : string) :
  signed_contents armored keyrings = Ok contents →
  terminator_last sr (indexed_lines contents) = true →
  field_first sr (indexed_lines contents) = true →
  In bad (indexed_lines contents) →
  unparseable sr bad = true →
  bad ≠ "" →
  let lines := indexed_lines contents in
  let message := concat_lines (List.filter (unparseable sr) lines) in
  parse_deb822 armored sr keyrings = Raise (ParseChangesError message)
  ∧ ∃ st st',
      scan sr lines = Ok st
      ∧ error st = message
      ∧ scan sr (List.filter (parseable sr) lines) = Ok st'
      ∧ error st' = ""
      ∧ changes st = changes st'.
Proof.
  intros Hs Ht Hff Hin Hbad Hne lines message.
  assert (Hc : contents ≠ "").
  { apply indexed_lines_nonempty. intros Hnil. fold lines in Hin.
    unfold lines in Hin. rewrite Hnil in Hin. destruct Hin. }
  assert (Hmsg : message ≠ "").
  { intros Hm. apply concat_lines_nil in Hm.
    rewrite Forall_forall in Hm. apply Hne, Hm.
    apply list_elem_of_In, filter_In. by split. }
  destruct (scan_loop_field_first sr lines (length lines) 0 scan_init
              Ht Hff eq_refl eq_refl) as [st Hst].
  pose proof (scan_loop_skip sr lines (length lines) 0
                (length (List.filter (parseable sr) lines)) 0 "" scan_init
                Ht eq_refl eq_refl) as Hskip.
  rewrite push_error_nil, Hst in Hskip. fold message in Hskip.
  destruct (scan_loop sr (length (List.filter (parseable sr) lines)) 0
              (List.filter (parseable sr) lines) scan_init)
    as [st' |] eqn:Hst'; [| discriminate Hskip].
  injection Hskip as Hskip.
  assert (He' : error st' = "").
  { apply (scan_loop_error _ _ _ _ _ _) in Hst'; [exact Hst' |].
    apply Forall_forall. intros l Hl.
    apply list_elem_of_In, filter_In in Hl. tauto. }
  assert (He : error st = message).
  { rewrite Hskip. unfold push_error; simpl. rewrite He'. reflexivity. }
  split.
  - rewrite (parse_deb822_unfold _ _ _ _ Hs Hc). unfold scan.
    fold lines. rewrite Hst. simpl. rewrite He.
    destruct (String.eqb_spec message ""); [contradiction | reflexivity].
  - exists st, st'. unfold scan. rewrite Hst, Hst'.
    repeat split; try assumption. rewrite Hskip. reflexivity.
Qed.

End AggregationTheorem.

(** ** Continuation lines *)

Section Continuations.
Context `{Regexes}.

Lemma scan_continuations (sr : Z) (n : nat) (conts cs : list string) :
  Forall2 (λ l c, classify sr l = Continuation c) conts cs →
  ∀ (i : nat) (st : scan_state) (f v : string),
    field st = Some f →
    changes st !! f = Some v →
    first st = 0%Z →
    scan_loop sr n i conts st
    = Ok {| changes := <[f := v +:+ continuation_text cs]> (changes st);
            field := Some f; first := 0%Z; error := error st |}.
Proof.
  induction 1 as [| l c conts cs Hc _ IH]; intros i st f v Hf Hv Hfirst.
  - simpl. f_equal. destruct st as [ch fi fr er]; simpl in *; subst.
    f_equal. change (continuation_text []) with "".
    rewrite append_nil_r. symmetry. by apply insert_id.
  - cbn [scan_loop]. rewrite scan_line_classify, Hc.
    unfold continuation_line. rewrite Hfirst. simpl.
    rewrite (append_to_field_bound _ _ f v) by (simpl; assumption).
    rewrite (IH _ _ f (v +:+ (c +:+ Py.nl)));
      [| reflexivity | simpl; apply lookup_insert_eq | reflexivity].
    simpl. rewrite insert_insert_eq.
    change (continuation_text (c :: cs))
      with ((c +:+ Py.nl) +:+ continuation_text cs).
    by rewrite append_assoc.
Qed.

(** C5, as amended: when a single-line field [Key: value] is followed by
    continuation lines, the first of them puts a newline between the value
    and its content only when the value is not the empty string; every
    continuation line adds its content and a newline, with nothing in
    between. *)
Theorem continuation_lines_value (sr : Z) (n i : nat) (line : string)
    (k v : string) (conts cs : list string) (st : scan_state) :
  classify sr line = Single k v →
  Forall2 (λ l c, classify sr l = Continuation c) conts cs →
  scan_loop sr n i (line :: conts) st
  = Ok {| changes := <[Py.lower k := field_value v cs]> (changes st);
          field := Some (Py.lower k);
          first := match cs with [] => 1%Z | _ :: _ => 0%Z end;
          error := error st |}.
Proof.
  intros Hline Hconts. cbn [scan_loop].
  rewrite scan_line_classify, Hline.
  destruct Hconts as [| l c conts cs Hc Hrest]; [reflexivity |].
  cbn [scan_loop]. rewrite scan_line_classify, Hc.
  unfold continuation_line. simpl. rewrite lookup_insert_eq.
  destruct (String.eqb_spec v "") as [-> | Hv]; simpl.
  - rewrite (append_to_field_bound _ _ (Py.lower k) "");
      [| reflexivity | simpl; apply lookup_insert_eq].
    rewrite (scan_continuations sr n conts cs Hrest _ _ (Py.lower k)
               ("" +:+ (c +:+ Py.nl)));
      [| reflexivity | simpl; apply lookup_insert_eq | reflexivity].
    simpl. rewrite !insert_insert_eq.
    change (continuation_text (c :: cs))
      with ((c +:+ Py.nl) +:+ continuation_text cs).
    reflexivity.
  - rewrite (append_to_field_bound _ _ (Py.lower k) v);
      [| reflexivity | simpl; apply lookup_insert_eq].
    rewrite (append_to_field_bound _ _ (Py.lower k) (v +:+ Py.nl));
      [| reflexivity | simpl; apply lookup_insert_eq].
    rewrite (scan_continuations sr n conts cs Hrest _ _ (Py.lower k)
               ((v +:+ Py.nl) +:+ (c +:+ Py.nl)));
      [| reflexivity | simpl; apply lookup_insert_eq | reflexivity].
    simpl. rewrite !insert_insert_eq.
    change (continuation_text (c :: cs))
      with ((c +:+ Py.nl) +:+ continuation_text cs).
    by rewrite !append_assoc.
Qed.

End Continuations.

(** ** Mandatory fields *)

(** The loop over the keywords stops at the first keyword that is missing,
    whatever is missing after it. *)
Lemma check_must_keywords_first_missing (changes : gmap string string)
    (pre post : list string) (k : string) :
  Forall (λ kw, is_Some (changes !! Py.lower kw)) pre →
  changes !! Py.lower k = None →
  ∀ missingfields,
    check_must_keywords changes (pre ++ k :: post) missingfields
    = Raise (ParseChangesError
               (missing_fields_message (missingfields ++ [k]))).
Proof.
  intros Hpre Hk. induction Hpre as [| kw pre [v Hv] _ IH];
    intros missingfields; simpl.
  - rewrite Hk. rewrite length_app. simpl.
    replace (length missingfields + 1 =? 0) with false
      by (symmetry; apply Nat.eqb_neq; lia).
    reflexivity.
  - rewrite Hv. apply IH.
Qed.

(** ** The file list *)

Lemma unpack_entry_shape (includes_section : bool) (s : list string) :
  (length s = (if includes_section then 5 else 3) →
   ∃ e, unpack_entry includes_section s = Some e)
  ∧ (length s ≠ (if includes_section then 5 else 3) →
     unpack_entry includes_section s = None).
Proof.
  unfold unpack_entry. destruct includes_section.
  - destruct s as [| a [| b [| c [| d [| e [| x s]]]]]]; simpl;
      split; intros Hl; try lia; try reflexivity; eauto.
  - destruct s as [| a [| b [| c [| x s]]]]; simpl;
      split; intros Hl; try lia; try reflexivity; eauto.
Qed.

Lemma build_entries_first_bad (includes_section : bool) (hashname : string)
    (pre post : list string) (bad : string) :
  Forall (λ l, l ≠ "" ∧ length (Py.split_ws l)
                         = if includes_section then 5 else 3) pre →
  bad ≠ "" →
  length (Py.split_ws bad) ≠ (if includes_section then 5 else 3) →
  ∀ files,
    build_entries includes_section hashname (pre ++ bad :: post) files
    = Raise (ParseChangesError bad).
Proof.
  intros Hpre Hne Hbad.
  induction Hpre as [| l pre [Hl Hlen] _ IH]; intros files; simpl.
  - destruct (String.eqb_spec bad ""); [contradiction |].
    by rewrite (proj2 (unpack_entry_shape _ _) Hbad).
  - destruct (String.eqb_spec l ""); [contradiction |].
    destruct (proj1 (unpack_entry_shape _ _) Hlen)
      as [[[[[md5 size] section] priority] name] ->].
    destruct (extract_component_from_section _). apply IH.
Qed.

Section FileListFacts.
Context `{Formats}.

(** C8: in the value of the field that [build_file_list] reads, take the
    first line, among the lines before the empty line that ends the list,
    whose number of whitespace-separated tokens is not the expected one (5
    when section and priority are included, 3 otherwise).  The call fails
    with the error that carries the text of exactly that line, whatever
    follows it. *)
Theorem build_file_list_first_bad_line (changes : gmap string string)
    (is_a_dsc : bool) (field hashname value bad : string)
    (pre post : list string) :
  changes !! field = Some value →
  (is_a_dsc = false →
   ∃ fmt, changes !! "format" = Some fmt
          ∧ validate_changes_format fmt field = Ok tt) →
  Py.split_on Py.LF value = pre ++ bad :: post →
  Forall (λ l, l ≠ "" ∧ length (Py.split_ws l)
                         = expected_tokens is_a_dsc field) pre →
  bad ≠ "" →
  length (Py.split_ws bad) ≠ expected_tokens is_a_dsc field →
  build_file_list changes is_a_dsc field hashname
  = Raise (ParseChangesError bad).
Proof.
  intros Hfield Hfmt Hsplit Hpre Hne Hbad.
  unfold build_file_list. rewrite Hfield, Hsplit.
  assert (Hval : (if negb is_a_dsc
                  then match changes !! "format" with
                       | None => Raise (KeyError "format")
                       | Some fmt => validate_changes_format fmt field
                       end
                  else Ok tt) = Ok tt).
  { destruct is_a_dsc; [reflexivity |]. simpl.
    destruct (Hfmt eq_refl) as (fmt & -> & ->). reflexivity. }
  rewrite Hval. simpl.
  by apply build_entries_first_bad.
Qed.

End FileListFacts.

(** ** Source files of a .dsc *)

Section DscFilesFacts.
Context `{Regexes}.

Lemma classify_files_app (dsc_filename : string) (pre rest : list string) :
  Forall passed pre →
  ∀ rejmsg has,
    classify_files dsc_filename (pre ++ rest) rejmsg has
    = classify_files dsc_filename rest
        (classify_files dsc_filename pre rejmsg has).1
        (classify_files dsc_filename pre rejmsg has).2.
Proof.
  induction 1 as [| f pre Hf _ IH]; intros rejmsg has; [reflexivity |].
  cbn [classify_files app]. unfold passed in Hf.
  destruct (re_issource f) as [ext |]; [| apply IH].
  destruct Hf as [keys ->]. apply IH.
Qed.

(** C6, as amended: a file name that fails the pattern of source file
    names is rejected with a message and the loop goes on with the names
    after it.  The loop ends early only at a name that passes this pattern
    and that no rule of the table matches. *)
Theorem unrecognised_file_is_skipped (dsc_filename f : string)
    (pre rest rejmsg : list string) (has : gmap string nat) :
  Forall passed pre →
  re_issource f = None →
  classify_files dsc_filename (pre ++ f :: rest) rejmsg has
  = classify_files dsc_filename rest
      ((classify_files dsc_filename pre rejmsg has).1
       ++ [not_recognised_message dsc_filename f])
      (classify_files dsc_filename pre rejmsg has).2.
Proof.
  intros Hpre Hf. rewrite (classify_files_app _ _ _ Hpre).
  cbn [classify_files]. rewrite Hf. reflexivity.
Qed.

Lemma unexpected_file_stops (dsc_filename f ext : string)
    (pre rest rejmsg : list string) (has : gmap string nat) :
  Forall passed pre →
  re_issource f = Some ext →
  ftype_keys ftype_lookup ext = None →
  classify_files dsc_filename (pre ++ f :: rest) rejmsg has
  = ((classify_files dsc_filename pre rejmsg has).1
     ++ [unexpected_message dsc_filename f],
     (classify_files dsc_filename pre rejmsg has).2).
Proof.
  intros Hpre Hf Hk. rewrite (classify_files_app _ _ _ Hpre).
  cbn [classify_files]. rewrite Hf, Hk. reflexivity.
Qed.

(** Every name of a list of names that all fail the pattern gets its
    message. *)
Lemma all_unrecognised (dsc_filename : string) (files : list string) :
  Forall (λ f, re_issource f = None) files →
  ∀ rejmsg has,
    classify_files dsc_filename files rejmsg has
    = (rejmsg ++ map (not_recognised_message dsc_filename) files, has).
Proof.
  induction 1 as [| f files Hf _ IH]; intros rejmsg has;
    cbn [classify_files map].
  - by rewrite app_nil_r.
  - rewrite Hf, IH. by rewrite <- app_assoc.
Qed.

End DscFilesFacts.

(** ** Reverse dependencies *)

Lemma in_list_elem_of (x : string) (l : list string) :
  in_list x l = true ↔ x ∈ l.
Proof.
  unfold in_list. rewrite existsb_exists, list_elem_of_In. split.
  - intros (y & Hy & He). apply String.eqb_eq in He. by subst.
  - intros Hx. exists x. split; [exact Hx | apply String.eqb_refl].
Qed.

Lemma unsat_le (removals : list string) (dep : clause) :
  unsat removals dep ≤ length dep.
Proof.
  induction dep as [| [[p a] b] dep IH]; simpl; [lia |].
  destruct (in_list p removals); lia.
Qed.

(** The count equals the length exactly when every alternative names a
    package of [removals]; the other two components of an alternative play
    no part. *)
Lemma clause_broken_iff (removals : list string) (dep : clause) :
  clause_broken removals dep = true
  ↔ Forall (λ alt, dep_package alt ∈ removals) dep.
Proof.
  unfold clause_broken. rewrite Nat.eqb_eq.
  induction dep as [| [[p a] b] dep IH]; simpl.
  - split; [constructor | reflexivity].
  - pose proof (unsat_le removals dep) as Hle.
    destruct (in_list p removals) eqn:Hp.
    + apply in_list_elem_of in Hp. split.
      * intros Hs. constructor; [exact Hp | apply IH; lia].
      * intros Hall. inversion Hall; subst. f_equal. by apply IH.
    + split; [lia |]. intros Hall. inversion Hall as [| ? ? Hin _]; subst.
      apply in_list_elem_of in Hin. unfold dep_package in Hin. simpl in Hin.
      congruence.
Qed.

Lemma add_broken_idem (source package architecture : string)
    (b : gmap string (gmap string (gset string))) :
  add_broken source package architecture
    (add_broken source package architecture b)
  = add_broken source package architecture b.
Proof.
  unfold add_broken. rewrite !lookup_insert_eq. simpl.
  rewrite !lookup_insert_eq. simpl. rewrite !insert_insert_eq.
  do 2 f_equal. by rewrite (assoc_L (∪)), (idemp_L (∪)).
Qed.

Lemma record_broken_idem (source package architecture : string)
    (a : analysis) :
  record_broken source package architecture
    (record_broken source package architecture a)
  = record_broken source package architecture a.
Proof. unfold record_broken. simpl. by rewrite add_broken_idem. Qed.

(** What it is to be reported: the architecture is in the set filed under
    the source and the package, and the result of the analysis is true. *)
Lemma record_broken_reports (source package architecture : string)
    (a : analysis) :
  let a' := record_broken source package architecture a in
  dep_problem a' = true
  ∧ ∃ bindict arches,
      broken_depends a' !! source = Some bindict
      ∧ bindict !! package = Some arches
      ∧ architecture ∈ arches.
Proof.
  simpl. split; [reflexivity |]. unfold add_broken.
  eexists _, _. rewrite !lookup_insert_eq.
  split; [reflexivity |]. split; [reflexivity |]. set_solver.
Qed.

Lemma check_clauses_result (removals : list string) (t : arch_tables)
    (package architecture component source : string)
    (parsed_dep : list clause) :
  p2c t !! package = Some component →
  sources t !! package = Some source →
  ∀ a,
    check_clauses removals t package architecture parsed_dep a
    = Ok (if existsb (clause_broken removals) parsed_dep
          then record_broken (qualified source component) package
                 architecture a
          else a).
Proof.
  intros Hc Hs. induction parsed_dep as [| dep rest IH]; intros a;
    [reflexivity |].
  cbn [check_clauses existsb]. rewrite Hc, Hs.
  destruct (clause_broken removals dep); simpl; [| apply IH].
  rewrite IH, record_broken_idem. by destruct (existsb _ rest).
Qed.

Lemma dict_set_elem_of {V : Type} (k k' : string) (v v' : V)
    (d : list (string * V)) :
  (k', v') ∈ dict_set k v d → k' = k ∨ (k', v') ∈ d.
Proof.
  induction d as [| [k0 v0] d IH]; simpl.
  - intros Hin. apply list_elem_of_singleton in Hin. injection Hin. auto.
  - destruct (String.eqb_spec k k0) as [-> |].
    + intros Hin. apply elem_of_cons in Hin as [Hin | Hin].
      * injection Hin. auto.
      * right. by apply elem_of_cons; right.
    + intros Hin. apply elem_of_cons in Hin as [Hin | Hin].
      * right. rewrite Hin. by apply elem_of_cons; left.
      * destruct (IH Hin); [by left | right]. by apply elem_of_cons; right.
Qed.

Lemma read_rows_complete (removals : list string) (rows : list binary_row) :
  ∀ t, tables_complete t → tables_complete (read_rows removals rows t).
Proof.
  induction rows as [| r rows IH]; intros t Ht; [exact Ht |].
  cbn [read_rows]. apply IH. intros p d Hin. simpl in *.
  assert (Hcases : p = row_package r ∨ (p, d) ∈ deps t).
  { destruct (row_depends r); [| by right].
    by apply dict_set_elem_of in Hin. }
  destruct Hcases as [-> | Hold].
  - rewrite !lookup_insert_eq. split; eauto.
  - destruct (Ht _ _ Hold) as [Hc Hs].
    split; apply lookup_insert_is_Some';  by right.
Qed.

Section ReverseDependsFacts.
Context `{Regexes} `{Archive}.

(** With the tables of an architecture the loop over the packages runs to
    its end. *)
Lemma check_packages_total (removals : list string) (t : arch_tables)
    (architecture : string) (packages : list (string * string)) :
  (∀ p d, (p, d) ∈ packages →
          is_Some (p2c t !! p) ∧ is_Some (sources t !! p)) →
  ∀ a, ∃ a', check_packages removals t architecture packages a = Ok a'.
Proof.
  induction packages as [| [package depends] rest IH]; intros Hc a.
  - eexists. reflexivity.
  - cbn [check_packages].
    assert (Hrest : ∀ p d, (p, d) ∈ rest →
              is_Some (p2c t !! p) ∧ is_Some (sources t !! p)).
    { intros p d Hin. apply (Hc p d). by apply elem_of_cons; right. }
    destruct (in_list package removals); [by apply IH |].
    destruct (Hc package depends) as [[c Hpc] [s Hs]];
      [by apply elem_of_cons; left |].
    rewrite (check_clauses_result _ _ _ _ _ _ _ Hpc Hs). simpl.
    by apply IH.
Qed.

Lemma check_architecture_total (removals : list string)
    (architecture : string) (st : gmap string string * analysis) :
  ∃ st', check_architecture removals architecture st = Ok st'.
Proof.
  unfold check_architecture.
  destruct (known_architecture architecture); simpl; [| eauto].
  assert (Hcomp : tables_complete
            (read_rows removals (binaries_query architecture)
               {| deps := []; sources := ∅; virtual_packages := ∅;
                  p2c := st.1 |})).
  { apply read_rows_complete. intros p d Hin. simpl in Hin.
    by apply elem_of_nil in Hin. }
  match goal with
  | |- context [check_packages _ ?t _ _ ?a0] =>
      destruct (check_packages_total removals t architecture (deps t)
                  Hcomp a0) as [a' ->]
  end.
  simpl. eauto.
Qed.

(** The set [removal_set], which holds the virtual packages that lose all
    their providers, is carried through the check of the clauses and is
    never read by it. *)
Lemma check_clauses_removal_set (removals : list string) (t : arch_tables)
    (package architecture : string) (parsed_dep : list clause)
    (s : gset string) :
  ∀ a,
    check_clauses removals t package architecture parsed_dep
      (with_removal_set s a)
    = result_map (with_removal_set s)
        (check_clauses removals t package architecture parsed_dep a).
Proof.
  induction parsed_dep as [| dep rest IH]; intros a; [reflexivity |].
  cbn [check_clauses]. destruct (clause_broken removals dep); [| apply IH].
  destruct (p2c t !! package); [| reflexivity].
  destruct (sources t !! package); [| reflexivity].
  apply (IH (record_broken _ _ _ a)).
Qed.

Lemma check_packages_removal_set (removals : list string) (t : arch_tables)
    (architecture : string) (packages : list (string * string))
    (s : gset string) :
  ∀ a,
    check_packages removals t architecture packages (with_removal_set s a)
    = result_map (with_removal_set s)
        (check_packages removals t architecture packages a).
Proof.
  induction packages as [| [package depends] rest IH]; intros a;
    [reflexivity |].
  cbn [check_packages]. destruct (in_list package removals); [apply IH |].
  rewrite check_clauses_removal_set.
  destruct (check_clauses removals t package architecture
              (default [] (parse_depends depends)) a) as [a' | e]; simpl;
    [apply IH | reflexivity].
Qed.

(** What the loop does with one package that is not in [removals]: when
    one clause of its Depends field has every one of its alternatives
    naming a package of [removals], the architecture is filed under the
    source and the package and [dep_problem] is set; otherwise the analysis
    is left as it was.  Only the package name of an alternative is looked
    at, not its version constraint, and the names are looked up in
    [removals], the list the caller passed. *)
Lemma check_packages_reports (removals : list string)
    (t : arch_tables) (architecture package depends component source : string)
    (rest : list (string * string)) (a : analysis) :
  package ∉ removals →
  p2c t !! package = Some component →
  sources t !! package = Some source →
  ∃ a',
    check_packages removals t architecture ((package, depends) :: rest) a
    = check_packages removals t architecture rest a'
    ∧ (Exists (λ dep, Forall (λ alt, dep_package alt ∈ removals) dep)
         (default [] (parse_depends depends)) →
       dep_problem a' = true
       ∧ ∃ bindict arches,
           broken_depends a' !! qualified source component = Some bindict
           ∧ bindict !! package = Some arches
           ∧ architecture ∈ arches)
    ∧ (¬ Exists (λ dep, Forall (λ alt, dep_package alt ∈ removals) dep)
           (default [] (parse_depends depends)) →
       a' = a).
Proof.
  intros Hsurv Hc Hs. cbn [check_packages].
  destruct (in_list package removals) eqn:Hin.
  { apply in_list_elem_of in Hin. contradiction. }
  rewrite (check_clauses_result _ _ _ _ _ _ _ Hc Hs).
  assert (Hex : existsb (clause_broken removals)
                  (default [] (parse_depends depends)) = true
                ↔ Exists (λ dep, Forall (λ alt, dep_package alt ∈ removals) dep)
                    (default [] (parse_depends depends))).
  { rewrite existsb_exists, Exists_exists. split.
    - intros (dep & Hdep & Hb). exists dep.
      split; [by apply list_elem_of_In | by apply clause_broken_iff].
    - intros (dep & Hdep & Hall). exists dep.
      split; [by apply list_elem_of_In | by apply clause_broken_iff]. }
  eexists. split; [reflexivity |].
  destruct (existsb (clause_broken removals)
              (default [] (parse_depends depends))).
  - split; [| intros Hn; destruct Hn; by apply Hex].
    intros _. apply record_broken_reports.
  - split; [| reflexivity]. intros He. apply Hex in He. discriminate.
Qed.

End ReverseDependsFacts.

(** * Concrete runs *)

Section Runs.
#[local] Existing Instance Dak.regexes.
#[local] Existing Instance Dak.cleartext.
#[local] Existing Instance Dak.any_format.
#[local] Existing Instance Dak.no_srcformats.

(** The empty payload. *)
Lemma parse_deb822_empty_payload_witness :
  signed_contents "" None = Ok ""
  ∧ Py.splitlines "" = []
  ∧ parse_deb822 "" 0 None
    = Raise (ParseChangesError "[Empty changes file]").
Proof.
  split; [reflexivity |]. split; [reflexivity |].
  apply (parse_deb822_empty_payload "" 0%Z None ""); reflexivity.
Defined.

Lemma parse_deb822_source_version_witness :
  parse_deb822 (Dak.payload ["Source: foo (1.2-3)"]) 0 None = Ok Dak.source_record
  ∧ Dak.source_record !! "source" = Some "foo"
  ∧ Dak.source_record !! "source-version" = Some "1.2-3".
Proof.
  assert (Hp : parse_deb822 (Dak.payload ["Source: foo (1.2-3)"]) 0 None
               = Ok Dak.source_record) by (vm_compute; reflexivity).
  split; [exact Hp |].
  destruct (parse_deb822_source_version _ _ _ _ Hp)
    as (contents & st & Hs & Hscan & Hm).
  injection Hs as <-.
  vm_compute in Hscan. injection Hscan as <-.
  vm_compute in Hm. destruct Hm as (H1 & H2 & _).
  split; vm_compute; [exact H1 | exact H2].
Defined.

(** A record whose source field carries no version is left as scanned. *)
Example source_without_version :
  ∃ r, parse_deb822 (Dak.payload ["Source: foo"]) 0 None = Ok r
       ∧ r !! "source" = Some "foo"
       ∧ r !! "source-version" = None.
Proof. eexists. split; [vm_compute; reflexivity |]. split; reflexivity. Qed.


(** Strict mode: an empty last line ends the scan. *)
Example strict_mode_last_empty_line :
  ∃ r, parse_deb822 (Dak.payload ["A: b"; ""]) 1 None = Ok r
       ∧ r !! "a" = Some "b".
Proof. eexists. split; [vm_compute; reflexivity | reflexivity]. Qed.


(** Two lines that cannot be parsed, around a field. *)
Lemma unparseable_lines_aggregated_witness :
  signed_contents (Dak.payload ["bogus"; "A: b"; "more bogus"]) None
  = Ok (Dak.payload ["bogus"; "A: b"; "more bogus"])
  ∧ terminator_last 0
      (indexed_lines (Dak.payload ["bogus"; "A: b"; "more bogus"])) = true
  ∧ field_first 0
      (indexed_lines (Dak.payload ["bogus"; "A: b"; "more bogus"])) = true
  ∧ In "bogus" (indexed_lines (Dak.payload ["bogus"; "A: b"; "more bogus"]))
  ∧ unparseable 0 "bogus" = true
  ∧ "bogus" ≠ ""
  ∧ parse_deb822 (Dak.payload ["bogus"; "A: b"; "more bogus"]) 0 None
    = Raise (ParseChangesError "bogusmore bogus").
Proof.
  assert (Hin : In "bogus"
            (indexed_lines (Dak.payload ["bogus"; "A: b"; "more bogus"])))
    by (left; reflexivity).
  assert (Hne : "bogus" ≠ "") by discriminate.
  repeat (split; [first [reflexivity | exact Hin | exact Hne] |]).
  exact (proj1 (unparseable_lines_aggregated
                  (Dak.payload ["bogus"; "A: b"; "more bogus"]) 0%Z None
                  (Dak.payload ["bogus"; "A: b"; "more bogus"]) "bogus"
                  eq_refl eq_refl eq_refl Hin eq_refl Hne)).
Defined.

(** A payload with one line that cannot be parsed, [bogus], followed by a
    continuation line: the parse fails at the continuation line, and the
    message of the error is not made of the line [bogus]. *)
Lemma unparseable_lines_aggregated_counterexample :
  indexed_lines (Dak.payload ["bogus"; " indented"]) = ["bogus"; " indented"]
  ∧ List.filter (unparseable 0) ["bogus"; " indented"] = ["bogus"]
  ∧ parse_deb822 (Dak.payload ["bogus"; " indented"]) 0 None
    = Raise (ParseChangesError
               ("' indented'" +:+ Py.nl +:+
                " [Multi-line field continuing on from nothing?]"))
  ∧ parse_deb822 (Dak.payload ["bogus"; " indented"]) 0 None
    ≠ Raise (ParseChangesError "bogus").
Proof.
  split; [reflexivity |]. split; [reflexivity |].
  split; [vm_compute; reflexivity |]. vm_compute. discriminate.
Qed.

(** A field with a value and two continuation lines. *)
Lemma continuation_lines_value_witness :
  classify 0 "Files: x" = Single "Files" "x"
  ∧ Forall2 (λ l c, classify 0 l = Continuation c)
      [" abc"; " def"] ["abc"; "def"]
  ∧ scan_loop 0 3 0 ["Files: x"; " abc"; " def"] scan_init
    = Ok {| changes :=
              <["files" := "x" +:+ Py.nl +:+ "abc" +:+ Py.nl
                           +:+ "def" +:+ Py.nl]> ∅;
            field := Some "files"; first := 0%Z; error := "" |}.
Proof.
  assert (H1 : classify 0 "Files: x" = Single "Files" "x") by reflexivity.
  assert (H2 : Forall2 (λ l c, classify 0 l = Continuation c)
                 [" abc"; " def"] ["abc"; "def"])
    by (repeat constructor).
  split; [exact H1 |]. split; [exact H2 |].
  exact (continuation_lines_value 0%Z 3 0 "Files: x" "Files" "x"
           [" abc"; " def"] ["abc"; "def"] scan_init H1 H2).
Defined.

(** A field that starts with the empty string: the first continuation
    line puts no newline before its content. *)
Lemma continuation_lines_value_counterexample :
  ∃ r, parse_deb822 (Dak.payload ["Files:"; " abc"; " def"]) 0 None = Ok r
       ∧ r !! "files" = Some ("abc" +:+ Py.nl +:+ "def" +:+ Py.nl)
       ∧ r !! "files"
         ≠ Some (Py.nl +:+ "abc" +:+ Py.nl +:+ "def" +:+ Py.nl).
Proof.
  eexists. split; [vm_compute; reflexivity |].
  split; [reflexivity | vm_compute; discriminate].
Qed.

(** C2: a manifest with a Format field and nothing else lacks the other
    eight mandatory fields; the error that [parse_changes] raises names
    the first of them, Date, and no other. *)
Theorem parse_changes_names_first_missing_field :
  parse_changes (Dak.payload ["Format: 1.8"]) 0 false None
  = Raise (ParseChangesError
             "Missing mandatory field(s) in changes file (policy 5.5): ['Date']")
  ∧ Forall (λ kw, ({[ "format" := "1.8" ]} : gmap string string)
                    !! Py.lower kw = None)
      ["Date"; "Source"; "Architecture"; "Version"; "Distribution";
       "Maintainer"; "Changes"; "Files"].
Proof. split; [vm_compute; reflexivity | repeat constructor]. Qed.

(** A name that is not a source file name, then an original tarball. *)
Lemma unrecognised_file_is_skipped_witness :
  Forall passed []
  ∧ re_issource "junk" = None
  ∧ classify_files "x.dsc" ([] ++ "junk" :: ["foo_1.0.orig.tar.gz"]) [] ∅
    = (["x.dsc: junk in Files field not recognised as source."],
       {[ "orig_tar_gz" := 1; "orig_tar" := 1 ]}).
Proof.
  assert (H1 : Forall passed []) by constructor.
  assert (H2 : re_issource "junk" = None) by reflexivity.
  split; [exact H1 |]. split; [exact H2 |].
  rewrite (unrecognised_file_is_skipped "x.dsc" "junk" []
             ["foo_1.0.orig.tar.gz"] [] ∅ H1 H2).
  vm_compute. reflexivity.
Defined.

(** The list of files starts with a name that is not a source file name;
    the two names after it are still classified, and the message about
    the two original tarballs follows the message about the first name. *)
Lemma unrecognised_file_is_skipped_counterexample :
  re_issource "junk" = None
  ∧ check_dsc_files "x.dsc" {[ "format" := "1.0" ]}
      [("junk", ∅); ("foo_1.0.orig.tar.gz", ∅); ("foo_1.0.orig.tar.bz2", ∅)]
    = Ok ["x.dsc: junk in Files field not recognised as source.";
          "x.dsc: lists multiple orig_tar"].
Proof. split; [reflexivity | vm_compute; reflexivity]. Qed.

(** A name that passes the pattern of source file names and that no rule
    of the table matches ends the loop. *)
Example unexpected_file_ends_the_loop :
  check_dsc_files "x.dsc" {[ "format" := "1.0" ]}
    [("foo_1.0.dsc", ∅); ("junk", ∅)]
  = Ok ["x.dsc: unexpected source file 'foo_1.0.dsc'"].
Proof. vm_compute. reflexivity. Qed.

Lemma build_file_list_first_bad_line_witness :
  Dak.four_token_manifest !! "files" = Some Dak.four_token_files
  ∧ Py.split_on Py.LF Dak.four_token_files
    = ["0123 10 utils optional foo_1.0_all.deb"]
      ++ "4567 20 utils foo_1.0.dsc" :: ["89ab 30 foo_1.0.tar.gz"; ""]
  ∧ build_file_list Dak.four_token_manifest false "files" "md5sum"
    = Raise (ParseChangesError "4567 20 utils foo_1.0.dsc").
Proof.
  split; [reflexivity |]. split; [reflexivity |].
  apply (build_file_list_first_bad_line Dak.four_token_manifest false "files"
           "md5sum" Dak.four_token_files "4567 20 utils foo_1.0.dsc"
           ["0123 10 utils optional foo_1.0_all.deb"]
           ["89ab 30 foo_1.0.tar.gz"; ""]).
  - reflexivity.
  - intros _. exists "1.8". split; reflexivity.
  - reflexivity.
  - repeat constructor. discriminate.
  - discriminate.
  - vm_compute. lia.
Defined.

#[local] Existing Instance Dak.virtual_archive.

(** The clause [b | d] when only [b] is removed: nothing is reported. *)
(** The clause [b] alone when [b] is removed, with and without a version
    constraint: the package is reported. *)
Example single_clause_is_broken :
  check_packages ["b"] (Dak.tables_of_a "b") "amd64" [("a", "b")]
    (Dak.no_breakage ["b"])
  = Ok (record_broken "a-src" "a" "amd64" (Dak.no_breakage ["b"]))
  ∧ check_packages ["b"] (Dak.tables_of_a "b (>= 1.0)") "amd64"
      [("a", "b (>= 1.0)")] (Dak.no_breakage ["b"])
    = Ok (record_broken "a-src" "a" "amd64" (Dak.no_breakage ["b"])).
Proof. split; reflexivity. Qed.

Example or_clause_is_not_broken :
  Dak.parse_clauses "b | d" = Some [[("b", "", ""); ("d", "", "")]]
  ∧ clause_broken ["b"] [("b", "", ""); ("d", "", "")] = false
  ∧ clause_broken ["b"] [("b", "", "")] = true
  ∧ clause_broken ["b"; "d"] [("b", "", ""); ("d", "2", "<<")] = true.
Proof. repeat split; reflexivity. Qed.

(** C1: [v] is provided by [b] alone, [b] is to be removed and [a] depends
    on [v].  The analysis does put [v] into [removal_set], but it decides
    the clauses against [removals], which holds [b] only: the dependency
    of [a] on [v] is not reported and the function returns false. *)
Theorem virtual_closure_is_not_used :
  (∃ a, analyse ["b"] [] true = Ok a
        ∧ removal_set a = {[ "b"; "v" ]}
        ∧ broken_depends a = ∅
        ∧ dep_problem a = false)
  ∧ check_reverse_depends ["b"] [] true = Ok false.
Proof.
  split; [| vm_compute; reflexivity].
  eexists. split; [vm_compute; reflexivity |].
  split; [| split; reflexivity].
  apply set_eq. intros x. vm_compute. set_solver.
Qed.

(** When [v] is named among the removals, the same dependency is
    reported. *)
Example virtual_package_named_in_removals :
  check_reverse_depends ["b"; "v"] [] true = Ok true.
Proof. vm_compute. reflexivity. Qed.

(** C4: the package [a] is not to be removed and its Depends field is the
    one clause [v], whose only alternative names a package of the set
    [removal_set] that the analysis has built, [b] and [v].  The clause is
    decided against [removals], which holds [b] only: it is not counted as
    broken, [a] is filed nowhere in the report and [dep_problem] stays
    false. *)
Theorem clause_of_virtual_package_is_not_reported :
  ∃ a,
    analyse ["b"] [] true = Ok a
    ∧ ("a" ∉ ["b"])
    ∧ (∃ r, r ∈ binaries_query "amd64"
            ∧ row_package r = "a" ∧ row_depends r = Some "v")
    ∧ parse_depends "v" = Some [[("v", "", "")]]
    ∧ Forall (λ alt, dep_package alt ∈ removal_set a) [("v", "", "")]
    ∧ clause_broken ["b"] [("v", "", "")] = false
    ∧ ¬ reported (broken_depends a) "a"
    ∧ dep_problem a = false.
Proof.
  eexists. split; [vm_compute; reflexivity |].
  split.
  { intros Hin. apply list_elem_of_In in Hin.
    destruct Hin as [? | []]; discriminate. }
  split.
  { exists {| row_package := "a"; row_source := "a-src";
              row_component := "main"; row_depends := Some "v";
              row_provides := None |}.
    split; [| split; reflexivity].
    apply list_elem_of_In. right. left. reflexivity. }
  split; [reflexivity |]. split.
  { constructor; [| constructor]. vm_compute. reflexivity. }
  split; [reflexivity |]. split; [| reflexivity].
  intros (key & bindict & Hk & _). cbn [broken_depends] in Hk.
  vm_compute in Hk. discriminate.
Qed.

(** The claim's own two cases, where the alternatives name packages of
    [removals] itself, through the general fact on one package: the clause
    [b | d] files nothing, the clause [b] alone files the package. *)
Example clause_on_removed_package_is_reported :
  (∃ a', check_packages ["b"] (Dak.tables_of_a "b | d") "amd64"
           [("a", "b | d")] (Dak.no_breakage ["b"]) = Ok a'
         ∧ a' = Dak.no_breakage ["b"])
  ∧ (∃ a', check_packages ["b"] (Dak.tables_of_a "b") "amd64"
             [("a", "b")] (Dak.no_breakage ["b"]) = Ok a'
           ∧ dep_problem a' = true
           ∧ ∃ bindict arches,
               broken_depends a' !! "a-src" = Some bindict
               ∧ bindict !! "a" = Some arches
               ∧ "amd64" ∈ arches).
Proof.
  assert (Ha : "a" ∉ ["b"]).
  { intros Hin. apply list_elem_of_In in Hin.
    destruct Hin as [? | []]; discriminate. }
  split.
  - destruct (check_packages_reports ["b"] (Dak.tables_of_a "b | d") "amd64"
                "a" "b | d" "main" "a-src" [] (Dak.no_breakage ["b"])
                Ha eq_refl eq_refl) as (a' & He & _ & Hno).
    exists a'. split; [exact He |]. apply Hno.
    intros Hex. apply Exists_exists in Hex as (dep & Hdep & Hall).
    vm_compute in Hdep. apply list_elem_of_In in Hdep.
    destruct Hdep as [<- | []].
    apply Forall_cons in Hall as [_ Hall].
    apply Forall_cons in Hall as [Hd _].
    apply list_elem_of_In in Hd. destruct Hd as [? | []]; discriminate.
  - destruct (check_packages_reports ["b"] (Dak.tables_of_a "b") "amd64"
                "a" "b" "main" "a-src" [] (Dak.no_breakage ["b"])
                Ha eq_refl eq_refl) as (a' & He & Hyes & _).
    exists a'. split; [exact He |]. apply Hyes.
    apply Exists_exists. exists [("b", "", "")].
    split; [by apply list_elem_of_In; left |].
    repeat constructor.
Qed.

End Runs.

(** * Further properties of the record parser *)

Lemma lower_char_idem (c : ascii) :
  Py.lower_char (Py.lower_char c) = Py.lower_char c.
Proof. destruct c as [[] [] [] [] [] [] [] []]; reflexivity. Qed.

Lemma lower_idem (s : string) : Py.lower (Py.lower s) = Py.lower s.
Proof.
  induction s as [| c s IH]; [reflexivity |].
  simpl. by rewrite lower_char_idem, IH.
Qed.

Section ParserMore.
Context `{Regexes} `{Gpg}.

(** A property of the state that every iteration keeps is kept by the
    loop. *)
Lemma scan_loop_invariant (P : scan_state → Prop) (sr : Z) (n : nat) :
  (∀ i line st st',
     P st → scan_line sr n i line st = Continue st' → P st') →
  ∀ lines i st st',
    P st → scan_loop sr n i lines st = Ok st' → P st'.
Proof.
  intros Hstep lines.
  induction lines as [| line rest IH]; intros i st st' HP Hs.
  - by injection Hs as <-.
  - cbn [scan_loop] in Hs.
    destruct (scan_line sr n (S i) line st) as [s | s | e] eqn:Hl.
    + eapply IH; [| exact Hs]. eapply Hstep; eauto.
    + injection Hs as <-.
      by apply scan_line_break in Hl as (_ & _ & _ & ->).
    + discriminate.
Qed.

(** X1: every record that [parse_deb822] returns holds, under the key
    filecontents, the text it was given, wrapper included, whatever the
    payload says about a field of that name. *)
Theorem parse_deb822_keeps_raw_text (armored : string) (sr : Z)
    (keyrings : option (list string)) (r : gmap string string) :
  parse_deb822 armored sr keyrings = Ok r →
  r !! "filecontents" = Some armored.
Proof.
  intros Hp. apply parse_deb822_ok_inv in Hp as (c & st & _ & _ & _ & ->).
  unfold finish_record, split_source.
  destruct (_ !! "source") as [v |]; [| apply lookup_insert_eq].
  destruct (re_srchasver v) as [[name version] |]; [| apply lookup_insert_eq].
  rewrite !lookup_insert_ne by discriminate. apply lookup_insert_eq.
Qed.

Lemma lower_keys_insert (m : gmap string string) (k v : string) :
  Py.lower k = k → lower_keys m → lower_keys (<[k := v]> m).
Proof.
  intros Hk Hm k' Hs. destruct (decide (k = k')) as [<- | Hne]; [exact Hk |].
  apply Hm. by rewrite lookup_insert_ne in Hs.
Qed.

Lemma append_to_field_keys (st st' : scan_state) (s : string) :
  lower_keys (changes st) →
  append_to_field st s Continue = Continue st' →
  lower_keys (changes st').
Proof.
  intros Hk. unfold append_to_field.
  destruct (field st) as [f |]; [| discriminate].
  destruct (changes st !! f) as [v |] eqn:Hv; [| discriminate].
  intros [= <-]. simpl. apply lower_keys_insert; [| exact Hk].
  apply Hk. by rewrite Hv.
Qed.

Lemma scan_line_keys (sr : Z) (n i : nat) (line : string)
    (st st' : scan_state) :
  lower_keys (changes st) →
  scan_line sr n i line st = Continue st' →
  lower_keys (changes st').
Proof.
  intros Hk. rewrite scan_line_classify.
  destruct (classify sr line) as [| k v | | content |].
  - destruct (negb (i =? n)); discriminate.
  - intros [= <-]. simpl. apply lower_keys_insert; [apply lower_idem | exact Hk].
  - by apply append_to_field_keys.
  - unfold continuation_line.
    destruct (first st =? -1)%Z; [discriminate |].
    assert (Hadd : ∀ s, lower_keys (changes s) →
              append_to_field (set_first 0 s) (content +:+ Py.nl) Continue
              = Continue st' → lower_keys (changes st')).
    { intros s Hs. by apply append_to_field_keys. }
    destruct (first st =? 1)%Z; [| by apply Hadd].
    destruct (field st) as [f |] eqn:Hf; [| discriminate].
    destruct (changes st !! f) as [v |] eqn:Hv; [| discriminate].
    destruct (negb (String.eqb v "")); [| by apply Hadd].
    rewrite (append_to_field_bound _ _ _ _ _ Hf Hv). apply Hadd. simpl.
    apply lower_keys_insert; [| exact Hk]. apply Hk. by rewrite Hv.
  - intros [= <-]. exact Hk.
Qed.

(** X2: in a record that [parse_deb822] returns every key is in lower
    case: lower-casing a key of the record gives the key back. *)
Theorem parse_deb822_lower_case_keys (armored : string) (sr : Z)
    (keyrings : option (list string)) (r : gmap string string) :
  parse_deb822 armored sr keyrings = Ok r →
  ∀ k, is_Some (r !! k) → Py.lower k = k.
Proof.
  intros Hp. apply parse_deb822_ok_inv in Hp as (c & st & _ & Hs & _ & ->).
  assert (Hk : lower_keys (changes st)).
  { unfold scan in Hs.
    eapply (scan_loop_invariant (λ s, lower_keys (changes s))); [| | exact Hs].
    - intros i line s s'. apply scan_line_keys.
    - intros k [v Hv]. simpl in Hv. by rewrite lookup_empty in Hv. }
  unfold finish_record, split_source.
  assert (Hfc : lower_keys (<["filecontents" := armored]> (changes st)))
    by (by apply lower_keys_insert).
  destruct (_ !! "source") as [v |]; [| exact Hfc].
  destruct (re_srchasver v) as [[name version] |]; [| exact Hfc].
  by repeat apply lower_keys_insert.
Qed.

End ParserMore.

Section ParserErrors.
Context `{Regexes} `{Gpg}.

(** A scan that ends without an exception has met no empty line before
    the last line in strict mode. *)
Lemma scan_ok_terminator_last (sr : Z) (lines : list string) :
  ∀ n i st st',
    i + length lines = n →
    scan_loop sr n i lines st = Ok st' →
    terminator_last sr lines = true.
Proof.
  induction lines as [| line rest IH]; intros n i st st' Hn Hs;
    [reflexivity |].
  cbn [scan_loop terminator_last length] in *.
  destruct (scan_line sr n (S i) line st) as [s | s | e] eqn:Hl;
    [| | discriminate].
  - assert (Hrest : terminator_last sr rest = true)
      by (eapply (IH n (S i)); [lia | exact Hs]).
    rewrite scan_line_classify in Hl.
    destruct (classify sr line); try exact Hrest.
    destruct (negb (S i =? n)); discriminate.
  - apply scan_line_break in Hl as (Hi & _).
    destruct rest; [| simpl in Hn; lia].
    by destruct (classify sr line).
Qed.

(** When [parse_deb822] returns a record, every line that the loop has
    read and that matched nothing was the empty text. *)
Lemma parse_deb822_ok_read_lines (armored : string) (sr : Z)
    (keyrings : option (list string)) (contents : string)
    (r : gmap string string) :
  signed_contents armored keyrings = Ok contents →
  parse_deb822 armored sr keyrings = Ok r →
  Forall (λ l, unparseable sr l = true → l = "") (indexed_lines contents).
Proof.
  intros Hc Hp.
  apply parse_deb822_ok_inv in Hp as (c & st & Hc' & Hs & He & _).
  rewrite Hc in Hc'. injection Hc' as <-.
  set (lines := indexed_lines contents) in *. unfold scan in Hs.
  pose proof (scan_ok_terminator_last sr lines _ 0 _ _ eq_refl Hs) as Ht.
  pose proof (scan_loop_skip sr lines (length lines) 0
                (length (List.filter (parseable sr) lines)) 0 "" scan_init
                Ht eq_refl eq_refl) as Hskip.
  rewrite push_error_nil, Hs in Hskip.
  destruct (scan_loop sr (length (List.filter (parseable sr) lines)) 0
              (List.filter (parseable sr) lines) scan_init)
    as [st' |] eqn:Hst'; [| discriminate Hskip].
  injection Hskip as ->.
  assert (He' : error st' = "").
  { apply (scan_loop_error _ _ _ _ _ _) in Hst'; [exact Hst' |].
    apply Forall_forall. intros l Hl.
    apply list_elem_of_In, filter_In in Hl. tauto. }
  simpl in He. rewrite He' in He.
  change ("" +:+ "" +:+ concat_lines (List.filter (unparseable sr) lines))
    with (concat_lines (List.filter (unparseable sr) lines)) in He.
  apply concat_lines_nil in He. rewrite Forall_forall in He.
  apply Forall_forall. intros l Hl Hu. apply He.
  apply list_elem_of_In, filter_In. split; [by apply list_elem_of_In | done].
Qed.

(** Cut off its last character, a text is empty exactly when it has at
    most one character. *)
Lemma drop_last_empty (line : string) :
  Py.drop_last line = "" ↔ String.length line ≤ 1.
Proof.
  destruct line as [| c [| d line]]; simpl; split; try done; lia.
Qed.

(** X3: the loop reads every line of the payload without its last
    character.  When [parse_deb822] returns a record, every line of the
    payload that, read so, is neither a single-line field, nor the marker,
    nor a continuation line (nor, in strict mode, the final empty line) has
    at most one character: it is a line terminator alone, or a last line
    of one character without terminator, and the loop reads it as the
    empty text.  Only such lines are dropped silently; a longer line that
    matches nothing makes the parse fail. *)
Theorem parse_deb822_ok_no_unparseable (armored : string) (sr : Z)
    (keyrings : option (list string)) (contents : string)
    (r : gmap string string) :
  signed_contents armored keyrings = Ok contents →
  parse_deb822 armored sr keyrings = Ok r →
  Forall (λ line, unparseable sr (Py.drop_last line) = true →
                  String.length line ≤ 1)
    (Py.splitlines contents).
Proof.
  intros Hc Hp.
  pose proof (parse_deb822_ok_read_lines _ _ _ _ _ Hc Hp) as Hr.
  unfold indexed_lines in Hr. apply Forall_map in Hr.
  eapply Forall_impl; [exact Hr |].
  intros line Hl Hu. apply drop_last_empty. by apply Hl.
Qed.

Lemma append_to_field_raised (st : scan_state) (s : string) (e : exn) :
  append_to_field st s Continue = Raised e →
  e = UnboundLocalError "field" ∨ ∃ f, e = KeyError f.
Proof.
  unfold append_to_field. destruct (field st) as [f |].
  - destruct (changes st !! f); [discriminate |]. intros [= <-]. eauto.
  - intros [= <-]. auto.
Qed.

Lemma continuation_line_raised (line content : string) (st : scan_state)
    (e : exn) :
  continuation_line line content st = Raised e →
  (∃ msg, e = ParseChangesError msg)
  ∨ e = UnboundLocalError "field" ∨ ∃ f, e = KeyError f.
Proof.
  unfold continuation_line.
  destruct (first st =? -1)%Z; [intros [= <-]; eauto |].
  destruct (first st =? 1)%Z;
    [| intros He; right; by apply append_to_field_raised in He].
  destruct (field st) as [f |] eqn:Hf; [| intros [= <-]; auto].
  destruct (changes st !! f) as [v |] eqn:Hv; [| intros [= <-]; eauto].
  destruct (negb (String.eqb v ""));
    [| intros He; right; by apply append_to_field_raised in He].
  rewrite (append_to_field_bound _ _ _ _ _ Hf Hv).
  intros He; right; by apply append_to_field_raised in He.
Qed.

Lemma scan_line_invalid (sr : Z) (n j i : nat) (line : string)
    (st : scan_state) :
  scan_line sr n j line st = Raised (InvalidDscError i) →
  i = j ∧ line = "" ∧ sr = 1%Z ∧ j ≠ n.
Proof.
  rewrite scan_line_classify.
  destruct (classify sr line) as [| k v | | content |] eqn:Hc.
  - apply classify_terminator in Hc as [-> ->].
    destruct (j =? n) eqn:E; simpl; [discriminate |].
    apply Nat.eqb_neq in E. intros [= <-]. auto.
  - discriminate.
  - intros He. apply append_to_field_raised in He as [He | [f He]];
      discriminate.
  - intros He.
    apply continuation_line_raised in He as [[m He] | [He | [f He]]];
      discriminate.
  - discriminate.
Qed.

Lemma scan_loop_invalid (sr : Z) (n i : nat) (lines : list string) :
  ∀ i0 st,
    scan_loop sr n i0 lines st = Raise (InvalidDscError i) →
    sr = 1%Z ∧ i0 < i ∧ lines !! (i - S i0) = Some "" ∧ i ≠ n.
Proof.
  induction lines as [| line rest IH]; intros i0 st Hs; [discriminate |].
  cbn [scan_loop] in Hs.
  destruct (scan_line sr n (S i0) line st) as [s | s | e] eqn:Hl.
  - destruct (IH _ _ Hs) as (Hsr & Hlt & Hl' & Hn).
    repeat split; [exact Hsr | lia | | exact Hn].
    replace (i - S i0) with (S (i - S (S i0))) by lia. exact Hl'.
  - discriminate.
  - injection Hs as ->. apply scan_line_invalid in Hl as (-> & -> & -> & Hn).
    repeat split; [lia | | exact Hn].
    by replace (S i0 - S i0) with 0 by lia.
Qed.

(** X4: [parse_deb822] raises [InvalidDscError] only in strict mode, and
    the index the error carries is the 1-based number of an empty line
    of the payload that is not its last line. *)
Theorem invalid_dsc_error_points_at_empty_line (armored : string) (sr : Z)
    (keyrings : option (list string)) (contents : string) (i : nat) :
  signed_contents armored keyrings = Ok contents →
  parse_deb822 armored sr keyrings = Raise (InvalidDscError i) →
  sr = 1%Z
  ∧ 1 ≤ i < length (indexed_lines contents)
  ∧ indexed_lines contents !! (i - 1) = Some "".
Proof.
  intros Hc Hp. unfold parse_deb822 in Hp. rewrite Hc in Hp. simpl in Hp.
  destruct (length (Py.splitlines contents) =? 0); [discriminate |].
  unfold scan in Hp.
  destruct (scan_loop sr (length (indexed_lines contents)) 0
              (indexed_lines contents) scan_init) as [st | e] eqn:Hs;
    simpl in Hp.
  - destruct (negb (String.eqb (error st) "")); discriminate.
  - injection Hp as ->.
    apply scan_loop_invalid in Hs as (Hsr & Hlt & Hl & Hn).
    pose proof (lookup_lt_Some _ _ _ Hl) as Hlen.
    repeat split; [exact Hsr | lia | lia | exact Hl].
Qed.

(** The lines that take no branch leave the loop before its first field,
    with these lines in the error buffer. *)
Lemma scan_reach_unparseable (sr : Z) (n : nat) (pre : list string) :
  Forall (λ l, classify sr l = Unparseable) pre →
  ∀ i st,
    scan_reach sr n i pre st = Some (push_error (concat_lines pre) st).
Proof.
  induction 1 as [| l pre Hl _ IH]; intros i st; simpl.
  - unfold push_error. rewrite append_nil_r. by destruct st.
  - rewrite scan_line_classify, Hl, IH, push_error_push_error. reflexivity.
Qed.

(** X5: a continuation line that comes before any single-line field, with
    nothing but unparseable lines before it, ends the parse at once: the
    error is a [ParseChangesError] that quotes this line and says that it
    continues from nothing, and the unparseable lines read so far are not
    reported. *)
Theorem continuation_from_nothing (armored : string) (sr : Z)
    (keyrings : option (list string)) (contents line content : string)
    (pre post : list string) :
  signed_contents armored keyrings = Ok contents →
  indexed_lines contents = pre ++ line :: post →
  Forall (λ l, classify sr l = Unparseable) pre →
  classify sr line = Continuation content →
  parse_deb822 armored sr keyrings
  = Raise (ParseChangesError
             ("'" +:+ line +:+ "'" +:+ Py.nl +:+
              " [Multi-line field continuing on from nothing?]")).
Proof.
  intros Hc Hl Hpre Hline.
  assert (Hne : contents ≠ "").
  { apply indexed_lines_nonempty. rewrite Hl. by destruct pre. }
  rewrite (parse_deb822_unfold _ _ _ _ Hc Hne). unfold scan. rewrite Hl.
  rewrite (scan_loop_reach _ _ _ _ _ _ _
             (scan_reach_unparseable sr _ pre Hpre 0 scan_init)).
  cbn [scan_loop]. rewrite scan_line_classify, Hline. reflexivity.
Qed.

(** X6: a marker line that comes before any single-line field, with
    nothing but unparseable lines before it, makes [parse_deb822] fail with
    [UnboundLocalError], since the variable [field] has no value yet; the
    error is not a [ParseChangesError]. *)
Theorem marker_before_any_field (armored : string) (sr : Z)
    (keyrings : option (list string)) (contents line : string)
    (pre post : list string) :
  signed_contents armored keyrings = Ok contents →
  indexed_lines contents = pre ++ line :: post →
  Forall (λ l, classify sr l = Unparseable) pre →
  classify sr line = Marker →
  parse_deb822 armored sr keyrings = Raise (UnboundLocalError "field").
Proof.
  intros Hc Hl Hpre Hline.
  assert (Hne : contents ≠ "").
  { apply indexed_lines_nonempty. rewrite Hl. by destruct pre. }
  rewrite (parse_deb822_unfold _ _ _ _ Hc Hne). unfold scan. rewrite Hl.
  rewrite (scan_loop_reach _ _ _ _ _ _ _
             (scan_reach_unparseable sr _ pre Hpre 0 scan_init)).
  cbn [scan_loop]. rewrite scan_line_classify, Hline. reflexivity.
Qed.

(** X7: when [parse_changes] returns a record for a file that is not a
    .dsc, the record is the one of [parse_deb822] and it has every one of
    the nine mandatory fields. *)
Theorem parse_changes_ok_has_mandatory_fields (content : string) (sr : Z)
    (keyrings : option (list string)) (r : gmap string string) :
  parse_changes content sr false keyrings = Ok r →
  parse_deb822 content sr keyrings = Ok r
  ∧ Forall (λ kw, is_Some (r !! Py.lower kw)) must_keywords.
Proof.
  unfold parse_changes, mbind, result_bind. intros Hp.
  destruct (parse_deb822 content sr keyrings) as [changes |] eqn:Hd;
    [| discriminate]. cbn [negb] in Hp.
  destruct (check_must_keywords changes must_keywords []) as [m |] eqn:Hm;
    [| discriminate].
  injection Hp as <-. split; [reflexivity |].
  revert Hm. generalize (@nil string). generalize must_keywords.
  induction l as [| kw kws IH]; intros m0 Hm; [constructor |].
  cbn [check_must_keywords] in Hm.
  destruct (changes !! Py.lower kw) as [v |] eqn:Hv.
  - constructor; [by rewrite Hv | by eapply IH].
  - rewrite length_app in Hm. simpl in Hm.
    replace (length m0 + 1 =? 0) with false in Hm
      by (symmetry; apply Nat.eqb_neq; lia).
    discriminate.
Qed.

End ParserErrors.

(** * Further properties of the file list *)

Lemma build_entries_empty_line (includes_section : bool) (hashname : string)
    (pre post : list string) :
  ∀ files,
    build_entries includes_section hashname (pre ++ "" :: post) files
    = build_entries includes_section hashname pre files.
Proof.
  induction pre as [| i pre IH]; intros files; [reflexivity |].
  cbn [app build_entries].
  destruct (String.eqb i ""); [reflexivity |].
  destruct (unpack_entry includes_section (Py.split_ws i))
    as [[[[[md5 size] section] priority] name] |]; [| reflexivity].
  destruct (extract_component_from_section _). apply IH.
Qed.

Lemma split_on_cons (c : ascii) (s : string) :
  ∃ h t, Py.split_on c s = h :: t.
Proof.
  induction s as [| d s (h & t & IH)]; simpl; [eauto |].
  destruct (Ascii.eqb d c); [eauto |]. rewrite IH. eauto.
Qed.

Lemma join_cons2 (sep x y : string) (l : list string) :
  Py.join sep (x :: y :: l) = x +:+ sep +:+ Py.join sep (y :: l).
Proof. reflexivity. Qed.

(** The pieces of [s.split(c)] put together again with [c] give [s]. *)
Lemma join_split_on (c : ascii) (s : string) :
  Py.join (String c "") (Py.split_on c s) = s.
Proof.
  induction s as [| d s IH]; [reflexivity |]. cbn [Py.split_on].
  destruct (split_on_cons c s) as (h & t & Hs). rewrite Hs in *.
  destruct (Ascii.eqb_spec d c) as [-> | Hne].
  - rewrite join_cons2, IH. reflexivity.
  - destruct t as [| h' t].
    + simpl in *. by rewrite IH.
    + rewrite join_cons2 in *.
      change (String d h +:+ String c "" +:+ Py.join (String c "") (h' :: t))
        with (String d (h +:+ String c "" +:+ Py.join (String c "") (h' :: t))).
      by rewrite IH.
Qed.

(** No piece of [s.split(c)] has an occurrence of [c]. *)
Lemma split_on_free (c : ascii) (s : string) :
  Forall (free_of c) (Py.split_on c s).
Proof.
  induction s as [| d s IH]; simpl.
  - by repeat constructor.
  - destruct (Ascii.eqb_spec d c) as [-> | Hne].
    + constructor; [reflexivity | exact IH].
    + destruct (Py.split_on c s) as [| p ps].
      { repeat constructor. unfold free_of. simpl.
        destruct (Ascii.eqb_spec c d); [congruence | reflexivity]. }
      inversion IH as [| ? ? Hp Hps]; subst. constructor; [| exact Hps].
      unfold free_of in *. simpl. rewrite Hp.
      destruct (Ascii.eqb_spec c d); [congruence | reflexivity].
Qed.

Lemma split_on_free_id (c : ascii) (s : string) :
  free_of c s → Py.split_on c s = [s].
Proof.
  unfold free_of. induction s as [| d s IH]; [reflexivity |]. simpl.
  destruct (Ascii.eqb_spec c d) as [-> | Hne]; [discriminate |].
  intros Hs. simpl in Hs. rewrite (IH Hs).
  destruct (Ascii.eqb_spec d c); [congruence | reflexivity].
Qed.

(** The section is returned as it was given. *)
Lemma extract_component_from_section_fst (section : string) :
  (extract_component_from_section section).1 = section.
Proof.
  unfold extract_component_from_section.
  by destruct (Py.contains_char "/" section).
Qed.

(** X11: [extract_component_from_section] returns the section as it was
    given.  The component is main when the section has no slash; otherwise
    it is the text before the first slash of the section. *)
Theorem extract_component_from_section_spec (section : string) :
  (extract_component_from_section section).1 = section
  ∧ free_of "/" (extract_component_from_section section).2
  ∧ ((free_of "/" section
      ∧ (extract_component_from_section section).2 = "main")
     ∨ ∃ rest,
         section
         = (extract_component_from_section section).2 +:+ "/" +:+ rest).
Proof.
  unfold extract_component_from_section.
  destruct (Py.contains_char "/" section) eqn:Hc; simpl.
  - pose proof (join_split_on "/" section) as Hj.
    pose proof (split_on_free "/" section) as Hf.
    destruct (Py.split_on "/" section) as [| h [| h' t]].
    + simpl in Hj. rewrite <- Hj in Hc. discriminate.
    + simpl in Hj. rewrite Hj in Hf.
      apply Forall_cons in Hf as [Hf _]. unfold free_of in Hf. congruence.
    + apply Forall_cons in Hf as [Hf _]. rewrite join_cons2 in Hj.
      split; [reflexivity |]. split; [exact Hf |].
      right. eexists. symmetry. exact Hj.
  - split; [reflexivity |]. split; [reflexivity |]. left. by split.
Qed.

Lemma dict_keys_dict_set {V : Type} (k : string) (v : V)
    (d : list (string * V)) :
  ∀ x, x ∈ dict_keys (dict_set k v d) → x = k ∨ x ∈ dict_keys d.
Proof.
  unfold dict_keys. induction d as [| [k' v'] d IH]; intros x; simpl.
  - intros Hx. apply list_elem_of_singleton in Hx. auto.
  - destruct (String.eqb_spec k k') as [-> |]; simpl.
    + intros Hx. apply elem_of_cons in Hx as [-> | Hx]; [by left |].
      right. by apply elem_of_cons; right.
    + intros Hx. apply elem_of_cons in Hx as [-> | Hx].
      * right. by apply elem_of_cons; left.
      * destruct (IH _ Hx); [by left | right]. by apply elem_of_cons; right.
Qed.

Lemma dict_set_NoDup {V : Type} (k : string) (v : V) (d : list (string * V)) :
  NoDup (dict_keys d) → NoDup (dict_keys (dict_set k v d)).
Proof.
  unfold dict_keys. induction d as [| [k' v'] d IH]; simpl.
  - intros _. apply NoDup_singleton.
  - intros Hd. apply NoDup_cons in Hd as [Hk' Hd].
    destruct (String.eqb_spec k k') as [-> |]; simpl.
    + by apply NoDup_cons.
    + apply NoDup_cons. split; [| by apply IH].
      intros Hin. apply (dict_keys_dict_set k v d) in Hin as [-> | Hin];
        [congruence | contradiction].
Qed.

Lemma dict_set_Forall {V : Type} (P : string * V → Prop) (k : string) (v : V)
    (d : list (string * V)) :
  P (k, v) → Forall P d → Forall P (dict_set k v d).
Proof.
  intros Hkv. induction 1 as [| [k' v'] d Hx Hd IH]; simpl.
  - by repeat constructor.
  - destruct (String.eqb k k'); by constructor.
Qed.

(** A property of the file list that every new entry keeps. *)
Lemma build_entries_invariant (P : list (string * gmap string string) → Prop)
    (includes_section : bool) (hashname : string) :
  (∀ files i md5 size section priority name,
     P files →
     unpack_entry includes_section (Py.split_ws i)
     = Some (md5, size, section, priority, name) →
     P (dict_set name
          (<[hashname := md5]>
             (<["component" :=
                  (extract_component_from_section
                     (if String.eqb section "" then "-" else section)).2]>
                (<["priority" :=
                     if String.eqb priority "" then "-" else priority]>
                   (<["section" :=
                        (extract_component_from_section
                           (if String.eqb section "" then "-" else section)).1]>
                      (<["size" := size]> ∅)))))
          files)) →
  ∀ lines files files',
    P files →
    build_entries includes_section hashname lines files = Ok files' →
    P files'.
Proof.
  intros Hstep lines.
  induction lines as [| i lines IH]; intros files files' HP Hb.
  - by injection Hb as <-.
  - cbn [build_entries] in Hb.
    destruct (String.eqb i ""); [by injection Hb as <- |].
    destruct (unpack_entry includes_section (Py.split_ws i))
      as [[[[[md5 size] section] priority] name] |] eqn:Hu; [| discriminate].
    destruct (extract_component_from_section
                (if String.eqb section "" then "-" else section))
      as [sec comp] eqn:He.
    eapply IH; [| exact Hb].
    specialize (Hstep files i md5 size section priority name HP Hu).
    by rewrite He in Hstep.
Qed.

Section FileListMore.
Context `{Formats}.

Lemma build_file_list_ok_inv (changes : gmap string string) (is_a_dsc : bool)
    (field hashname : string) (files : list (string * gmap string string)) :
  build_file_list changes is_a_dsc field hashname = Ok files →
  ∃ value,
    changes !! field = Some value
    ∧ build_entries (negb is_a_dsc && String.eqb field "files") hashname
        (Py.split_on Py.LF value) [] = Ok files.
Proof.
  unfold build_file_list. destruct (changes !! field) as [value |];
    [| discriminate].
  intros Hb. exists value. split; [reflexivity |].
  destruct (if negb is_a_dsc then _ else _); [exact Hb | discriminate].
Qed.

(** X9: the file list that [build_file_list] returns has every file name
    once, however often the name occurs in the field. *)
Theorem build_file_list_distinct_names (changes : gmap string string)
    (is_a_dsc : bool) (field hashname : string)
    (files : list (string * gmap string string)) :
  build_file_list changes is_a_dsc field hashname = Ok files →
  NoDup (dict_keys files).
Proof.
  intros Hb. apply build_file_list_ok_inv in Hb as (value & _ & Hb).
  eapply (build_entries_invariant (λ fs, NoDup (dict_keys fs)));
    [| | exact Hb].
  - intros. by apply dict_set_NoDup.
  - apply NoDup_nil_2.
Qed.

(** X10: in the file list that [build_file_list] returns, as long as the
    name of the digest is not one of section, priority and component,
    every entry has a section that is not empty and the component derived
    from that section; when the lines have three tokens (a .dsc, or a
    field other than files) its section and its priority are a dash and
    its component is main. *)
Theorem build_file_list_entries (changes : gmap string string)
    (is_a_dsc : bool) (field hashname : string)
    (files : list (string * gmap string string)) :
  build_file_list changes is_a_dsc field hashname = Ok files →
  hashname ∉ ["section"; "priority"; "component"] →
  Forall
    (λ ne, ∃ section,
       ne.2 !! "section" = Some section
       ∧ section ≠ ""
       ∧ ne.2 !! "component"
         = Some (extract_component_from_section section).2
       ∧ (negb is_a_dsc && String.eqb field "files" = false →
          section = "-" ∧ ne.2 !! "priority" = Some "-"
          ∧ ne.2 !! "component" = Some "main"))
    files.
Proof.
  intros Hb Hh. apply build_file_list_ok_inv in Hb as (value & _ & Hb).
  assert (Hs : hashname ≠ "section" ∧ hashname ≠ "priority"
               ∧ hashname ≠ "component").
  { repeat split; intros ->; apply Hh; set_solver. }
  destruct Hs as (Hs1 & Hs2 & Hs3).
  eapply (build_entries_invariant (Forall _)); [| apply Forall_nil_2 | exact Hb].
  intros fs i md5 size section priority name Hfs Hu.
  apply dict_set_Forall; [| exact Hfs].
  pose proof (extract_component_from_section_fst
                (if String.eqb section "" then "-" else section)) as H1.
  exists (if String.eqb section "" then "-" else section). cbn [snd].
  rewrite H1.
  rewrite (lookup_insert_ne _ hashname "section") by done.
  rewrite (lookup_insert_ne _ "component" "section") by done.
  rewrite (lookup_insert_ne _ "priority" "section") by done.
  rewrite lookup_insert_eq.
  rewrite (lookup_insert_ne _ hashname "component") by done.
  rewrite lookup_insert_eq.
  rewrite (lookup_insert_ne _ hashname "priority") by done.
  rewrite (lookup_insert_ne _ "component" "priority") by done.
  rewrite lookup_insert_eq.
  split; [reflexivity |]. split.
  { destruct (String.eqb_spec section ""); [discriminate | assumption]. }
  split; [reflexivity |].
  intros Hthree. rewrite Hthree in Hu. unfold unpack_entry in Hu.
  destruct (Py.split_ws i) as [| a [| b [| c [| x l]]]]; try discriminate.
  injection Hu as <- <- <- <- <-. done.
Qed.

End FileListMore.

(** X8: the loop of [build_file_list] ends at the first empty line:
    whatever follows an empty line, well formed or not, changes neither the
    file list nor the error. *)
Theorem build_file_list_ends_at_empty_line (includes_section : bool)
    (hashname : string) (pre post : list string)
    (files : list (string * gmap string string)) :
  build_entries includes_section hashname (pre ++ "" :: post) files
  = build_entries includes_section hashname pre files.
Proof. apply build_entries_empty_line. Qed.

(** * Further properties of the check of the source files *)

Lemma count_has_incr (has : gmap string nat) (k k' : string) :
  count (has_incr has k) k'
  = (if String.eqb k k' then 1 else 0) + count has k'.
Proof.
  unfold count, has_incr. destruct (String.eqb_spec k k') as [-> | Hne].
  - by rewrite lookup_insert_eq.
  - by rewrite lookup_insert_ne.
Qed.

Lemma count_has_read (has : gmap string nat) (k k' : string) :
  count (has_read has k).2 k' = count has k'
  ∧ (has_read has k).1 = count has k.
Proof.
  unfold count, has_read. destruct (has !! k) as [n |] eqn:Hk; simpl.
  - split; reflexivity.
  - split; [| reflexivity].
    destruct (decide (k = k')) as [<- | Hne].
    + by rewrite lookup_insert_eq, Hk.
    + by rewrite lookup_insert_ne.
Qed.

Lemma ftype_keys_in_table (table : list (regex * list string))
    (ext : string) (keys : list string) :
  ftype_keys table ext = Some keys → keys ∈ map snd table.
Proof.
  induction table as [| [r ks] table IH]; [discriminate |]. simpl.
  destruct (re_match r ext).
  - intros [= <-]. by apply elem_of_cons; left.
  - intros Hk. apply elem_of_cons; right. by apply IH.
Qed.

Lemma ftype_keys_consistent (ext : string) (keys : list string)
    (has : gmap string nat) :
  ftype_keys ftype_lookup ext = Some keys →
  counters_consistent has →
  counters_consistent (foldl has_incr has keys).
Proof.
  intros Hk [H1 H2]. apply ftype_keys_in_table in Hk.
  unfold ftype_lookup in Hk. cbn [map snd] in Hk.
  unfold counters_consistent.
  repeat (apply elem_of_cons in Hk as [-> | Hk]);
    [.. | by apply elem_of_nil in Hk];
    cbn [foldl]; rewrite ?count_has_incr; simpl; lia.
Qed.

Section DscFilesMore.
Context `{Regexes} `{SrcFormats}.

(** X12: whatever the file names are, the counters that the loop of
    [check_dsc_files] fills never count more gzipped original tarballs than
    original tarballs, nor more gzipped native tarballs than native
    tarballs. *)
Theorem classify_files_counters (dsc_filename : string)
    (dsc_files rejmsg : list string) :
  counters_consistent (classify_files dsc_filename dsc_files rejmsg ∅).2.
Proof.
  assert (Hgen : ∀ files rej has, counters_consistent has →
            counters_consistent (classify_files dsc_filename files rej has).2).
  { induction files as [| f files IH]; intros rej has Hc; [exact Hc |].
    cbn [classify_files]. destruct (re_issource f) as [ext |]; [| by apply IH].
    destruct (ftype_keys ftype_lookup ext) as [keys |] eqn:Hk; [| exact Hc].
    apply IH. by eapply ftype_keys_consistent. }
  apply Hgen. split; reflexivity.
Qed.

Lemma check_multiple_spec (dsc_filename : string) (types : list string) :
  ∀ rejmsg has,
    (check_multiple dsc_filename types rejmsg has).1
    = rejmsg ++ map (multiple_message dsc_filename)
                  (List.filter (λ t, 1 <? count has t) types)
    ∧ ∀ k, count (check_multiple dsc_filename types rejmsg has).2 k
           = count has k.
Proof.
  induction types as [| t types IH]; intros rejmsg has.
  - simpl. by rewrite app_nil_r.
  - cbn [check_multiple List.filter].
    destruct (has_read has t) as [n has'] eqn:Hr.
    pose proof (count_has_read has t) as Hc. rewrite Hr in Hc. simpl in Hc.
    destruct (Hc t) as [_ ->].
    destruct (IH (if 1 <? count has t
                  then rejmsg ++ [dsc_filename +:+ ": lists multiple " +:+ t]
                  else rejmsg) has') as [IH1 IH2].
    split.
    + rewrite IH1.
      assert (Hf : List.filter (λ t0, 1 <? count has' t0) types
                   = List.filter (λ t0, 1 <? count has t0) types).
      { apply filter_ext. intros a. by rewrite (proj1 (Hc a)). }
      rewrite Hf. destruct (1 <? count has t); [| reflexivity].
      by rewrite <- app_assoc.
    + intros k. rewrite IH2. apply Hc.
Qed.

(** X13: once the files are classified, [check_dsc_files] adds one message
    [lists multiple] for each of the types orig_tar, orig_tar_sig,
    native_tar, debian_tar and debian_diff that was counted more than once,
    in this order and after the messages of the classification, and then
    the messages of the source format, if the format is known. *)
Theorem check_dsc_files_messages (dsc_filename fmt : string)
    (dsc : gmap string string)
    (dsc_files : list (string * gmap string string)) :
  dsc !! "format" = Some fmt →
  ∃ has',
    (∀ k, count has' k
          = count (classify_files dsc_filename (dict_keys dsc_files) [] ∅).2 k)
    ∧ check_dsc_files dsc_filename dsc dsc_files
      = Ok ((classify_files dsc_filename (dict_keys dsc_files) [] ∅).1
            ++ map (multiple_message dsc_filename)
                 (List.filter
                    (λ t, 1 <? count (classify_files dsc_filename
                                        (dict_keys dsc_files) [] ∅).2 t)
                    single_types)
            ++ match get_format_from_string fmt with
               | Some reject_msgs =>
                   map (λ x, dsc_filename +:+ ": " +:+ x) (reject_msgs has')
               | None => []
               end).
Proof.
  intros Hf. unfold check_dsc_files.
  destruct (classify_files dsc_filename (dict_keys dsc_files) [] ∅)
    as [rejmsg has] eqn:Hc.
  destruct (check_multiple_spec dsc_filename single_types rejmsg has)
    as [H1 H2].
  destruct (check_multiple dsc_filename single_types rejmsg has)
    as [rejmsg' has'] eqn:Hm.
  simpl in H1, H2. subst rejmsg'. exists has'. split; [exact H2 |].
  rewrite Hf. cbn [fst snd].
  destruct (get_format_from_string fmt).
  - by rewrite <- app_assoc.
  - by rewrite app_nil_r.
Qed.

End DscFilesMore.

(** * Further properties of the analysis of reverse dependencies *)

Lemma add_broken_reported (source package architecture pkg : string)
    (b : gmap string (gmap string (gset string))) :
  reported (add_broken source package architecture b) pkg →
  pkg = package ∨ reported b pkg.
Proof.
  unfold add_broken. intros (key & bindict & Hk & Hp).
  destruct (decide (source = key)) as [<- | Hne].
  - rewrite lookup_insert_eq in Hk. injection Hk as <-.
    destruct (decide (package = pkg)) as [<- | Hne]; [by left | right].
    rewrite lookup_insert_ne in Hp by done.
    destruct (b !! source) as [bd |] eqn:Hb; simpl in Hp.
    + by exists source, bd.
    + rewrite lookup_empty in Hp. by destruct Hp.
  - rewrite lookup_insert_ne in Hk by done. right. by exists key, bindict.
Qed.

Lemma check_clauses_unreported (removals : list string) (t : arch_tables)
    (package architecture : string) (parsed_dep : list clause) :
  package ∉ removals →
  ∀ a a',
    removed_unreported removals a →
    check_clauses removals t package architecture parsed_dep a = Ok a' →
    removed_unreported removals a'.
Proof.
  intros Hp. induction parsed_dep as [| dep rest IH]; intros a a' Ha Hc.
  - by injection Hc as <-.
  - cbn [check_clauses] in Hc.
    destruct (clause_broken removals dep); [| by eapply IH].
    destruct (p2c t !! package); [| discriminate].
    destruct (sources t !! package); [| discriminate].
    eapply IH; [| exact Hc]. intros pkg Hr. simpl in Hr.
    apply add_broken_reported in Hr as [-> | Hr]; [exact Hp | by apply Ha].
Qed.

Section ReverseDependsMore.
Context `{Regexes} `{Archive}.

Lemma check_packages_unreported (removals : list string) (t : arch_tables)
    (architecture : string) (packages : list (string * string)) :
  ∀ a a',
    removed_unreported removals a →
    check_packages removals t architecture packages a = Ok a' →
    removed_unreported removals a'.
Proof.
  induction packages as [| [package depends] rest IH]; intros a a' Ha Hc.
  - by injection Hc as <-.
  - cbn [check_packages] in Hc.
    destruct (in_list package removals) eqn:Hin; [by eapply IH |].
    destruct (check_clauses removals t package architecture
                (default [] (parse_depends depends)) a) as [a1 |] eqn:Hcl;
      [| discriminate].
    eapply IH; [| exact Hc].
    eapply check_clauses_unreported; [| exact Ha | exact Hcl].
    intros Hp. apply in_list_elem_of in Hp. congruence.
Qed.

Lemma check_architectures_unreported (removals architectures : list string) :
  ∀ st st',
    removed_unreported removals st.2 →
    check_architectures removals architectures st = Ok st' →
    removed_unreported removals st'.2.
Proof.
  induction architectures as [| arch rest IH]; intros st st' Ha Hc.
  - by injection Hc as <-.
  - cbn [check_architectures] in Hc.
    destruct (check_architecture removals arch st) as [st1 |] eqn:H1;
      [| discriminate].
    eapply IH; [| exact Hc]. unfold check_architecture in H1.
    destruct (known_architecture arch); [| by injection H1 as <-].
    simpl in H1.
    match type of H1 with
    | context [check_packages ?r ?t ?ar ?l ?a0] =>
        destruct (check_packages r t ar l a0) as [a1 |] eqn:Hp;
          [| discriminate]
    end.
    injection H1 as <-. simpl.
    eapply check_packages_unreported; [| exact Hp]. exact Ha.
Qed.

Lemma check_build_clauses_depends (removals : list string) (source : string)
    (parsed_dep : list clause) :
  ∀ a a',
    check_build_clauses removals source parsed_dep a = Ok a' →
    broken_depends a' = broken_depends a.
Proof.
  induction parsed_dep as [| dep rest IH]; intros a a' Hc.
  - by injection Hc as <-.
  - cbn [check_build_clauses] in Hc.
    destruct (clause_broken removals dep); [| by eapply IH].
    destruct (override_component _); [| discriminate].
    by rewrite (IH _ _ Hc).
Qed.

Lemma check_sources_depends (removals : list string)
    (rows : list (string * option string)) :
  ∀ a a',
    check_sources removals rows a = Ok a' →
    broken_depends a' = broken_depends a.
Proof.
  induction rows as [| [source build_dep] rest IH]; intros a a' Hc.
  - by injection Hc as <-.
  - cbn [check_sources] in Hc.
    destruct (in_list source removals); [by eapply IH |].
    match type of Hc with
    | context [check_build_clauses ?r ?s ?p ?a0] =>
        destruct (check_build_clauses r s p a0) as [a1 |] eqn:Hb;
          [| discriminate]
    end.
    rewrite (IH _ _ Hc). by eapply check_build_clauses_depends.
Qed.

(** X14: a binary package that is itself in [removals] is never filed in
    the report of broken Depends, on any architecture and under any
    source. *)
Theorem removed_packages_are_not_reported (removals arches : list string)
    (include_arch_all : bool) (a : analysis)
    (key pkg : string) (bindict : gmap string (gset string)) :
  analyse removals arches include_arch_all = Ok a →
  broken_depends a !! key = Some bindict →
  is_Some (bindict !! pkg) →
  pkg ∉ removals.
Proof.
  unfold analyse. intros Ha Hk Hp.
  match type of Ha with
  | context [check_architectures ?r ?l ?s0] =>
      destruct (check_architectures r l s0) as [st |] eqn:H1;
        [| discriminate]
  end.
  simpl in Ha. apply check_sources_depends in Ha.
  apply check_architectures_unreported in H1.
  - apply H1. rewrite <- Ha. by exists key, bindict.
  - intros p (k & bd & Hk' & _). simpl in Hk'.
    by rewrite lookup_empty in Hk'.
Qed.

End ReverseDependsMore.

Lemma unsat_nil (dep : clause) : unsat [] dep = 0.
Proof. induction dep as [| [[p a] b] dep IH]; simpl; [reflexivity | exact IH]. Qed.

Lemma clause_broken_nil (dep : clause) :
  dep ≠ [] → clause_broken [] dep = false.
Proof.
  intros Hd. unfold clause_broken. rewrite unsat_nil.
  destruct dep; [contradiction | reflexivity].
Qed.

Lemma check_clauses_nil (t : arch_tables) (package architecture : string)
    (parsed_dep : list clause) (a : analysis) :
  Forall (λ dep, dep ≠ []) parsed_dep →
  check_clauses [] t package architecture parsed_dep a = Ok a.
Proof.
  induction 1 as [| dep rest Hd _ IH]; [reflexivity |].
  cbn [check_clauses]. by rewrite (clause_broken_nil _ Hd).
Qed.

Section NothingRemoved.
Context `{Regexes} `{Archive}.

(** The parsers of dependency fields return no clause without
    alternatives. *)
Hypothesis parse_depends_clauses :
  ∀ s cls, parse_depends s = Some cls → Forall (λ dep, dep ≠ []) cls.
Hypothesis parse_src_depends_clauses :
  ∀ s cls, parse_src_depends s = Some cls → Forall (λ dep, dep ≠ []) cls.

Lemma check_packages_nil (t : arch_tables) (architecture : string)
    (packages : list (string * string)) (a : analysis) :
  check_packages [] t architecture packages a = Ok a.
Proof.
  induction packages as [| [package depends] rest IH]; [reflexivity |].
  cbn [check_packages in_list existsb]. rewrite check_clauses_nil; [exact IH |].
  destruct (parse_depends depends) as [cls |] eqn:Hp; simpl;
    [by eapply parse_depends_clauses | constructor].
Qed.

Lemma check_architectures_nil (architectures : list string) :
  ∀ st st',
    check_architectures [] architectures st = Ok st' →
    broken_depends st'.2 = broken_depends st.2
    ∧ broken_build_depends st'.2 = broken_build_depends st.2
    ∧ dep_problem st'.2 = dep_problem st.2.
Proof.
  induction architectures as [| arch rest IH]; intros st st';
    [by intros [= <-] |].
  cbn [check_architectures]. unfold check_architecture.
  destruct (known_architecture arch); simpl; [| by apply IH].
  rewrite check_packages_nil. simpl. intros Hs. by apply IH in Hs.
Qed.

Lemma check_sources_nil (rows : list (string * option string)) (a : analysis) :
  check_sources [] rows a = Ok a.
Proof.
  induction rows as [| [source build_dep] rest IH]; [reflexivity |].
  cbn [check_sources in_list existsb].
  assert (Hb : ∀ parsed, Forall (λ dep, dep ≠ []) parsed →
            check_build_clauses [] source parsed a = Ok a).
  { induction 1 as [| dep r Hd _ IHr]; [reflexivity |].
    cbn [check_build_clauses]. by rewrite (clause_broken_nil _ Hd). }
  rewrite Hb; [exact IH |].
  destruct build_dep as [bd |]; [| constructor].
  destruct (parse_src_depends _) as [cls |] eqn:Hp; simpl;
    [by eapply parse_src_depends_clauses | constructor].
Qed.

(** X15: when nothing is to be removed, and the parsers of dependency
    fields return no clause without alternatives, an analysis that comes
    to its end has found nothing, whatever the archive holds: no broken
    Depends, no broken Build-Depends, and [dep_problem], the value that
    [check_reverse_depends] returns, is false.  (A clause without
    alternatives would count as broken: none of its alternatives
    survives.) *)
Theorem nothing_removed_nothing_broken (arches : list string)
    (include_arch_all : bool) (a : analysis) :
  analyse [] arches include_arch_all = Ok a →
  broken_depends a = ∅
  ∧ broken_build_depends a = ∅
  ∧ dep_problem a = false.
Proof.
  unfold analyse.
  match goal with
  | |- context [check_architectures ?r ?l ?s0] =>
      destruct (check_architectures r l s0) as [st' | e] eqn:Hc
  end; [| discriminate].
  simpl. rewrite check_sources_nil. intros [= <-].
  by apply check_architectures_nil in Hc.
Qed.

End NothingRemoved.

(** ** The counters of the virtual packages *)

Lemma count_provides_spec (removals : list string) (package v : string)
    (names : list string) :
  ∀ vp,
    let vs := List.filter (λ x, negb (String.eqb x package))
                (map Py.strip names) in
    let vp' := count_provides removals package names vp in
    (is_Some (vp' !! v) ↔ is_Some (vp !! v) ∨ v ∈ vs)
    ∧ (count vp' v = 0
       ↔ count vp v = 0 ∧ (v ∈ vs → package ∈ removals)).
Proof.
  induction names as [| name names IH]; intros vp; cbn zeta.
  - simpl. split; split.
    + tauto.
    + intros [Hs | Hin]; [exact Hs | by apply elem_of_nil in Hin].
    + intros Hc. split; [exact Hc |]. intros Hin. by apply elem_of_nil in Hin.
    + tauto.
  - cbn [count_provides map List.filter].
    destruct (String.eqb_spec (Py.strip name) package) as [He | Hne];
      cbn [negb]; [apply IH |].
    set (v0 := Py.strip name) in *.
    set (vp0 := match vp !! v0 with
                | Some _ => vp
                | None => <[v0 := 0]> vp
                end).
    assert (H0 : (is_Some (vp0 !! v) ↔ is_Some (vp !! v) ∨ v = v0)
                 ∧ count vp0 v = count vp v
                 ∧ is_Some (vp0 !! v0)).
    { unfold vp0, count. destruct (vp !! v0) as [n |] eqn:Hv0.
      - split; [| split; [reflexivity | by rewrite Hv0]]. split; [tauto |].
        intros [Hs | ->]; [exact Hs | by rewrite Hv0].
      - split; [| split].
        + destruct (decide (v0 = v)) as [<- | Hd].
          * rewrite lookup_insert_eq. split; [by right | by eexists].
          * rewrite lookup_insert_ne by done. split; [tauto |].
            intros [Hs | ->]; [exact Hs | done].
        + destruct (decide (v0 = v)) as [<- | Hd].
          * by rewrite lookup_insert_eq, Hv0.
          * by rewrite lookup_insert_ne.
        + by rewrite lookup_insert_eq. }
    destruct H0 as (Hs0 & Hc0 & Hv0).
    destruct (IH (if negb (in_list package removals)
                  then <[v0 := S (default 0 (vp0 !! v0))]> vp0
                  else vp0)) as [IH1 IH2].
    cbn zeta in IH1, IH2. fold vp0.
    destruct (in_list package removals) eqn:Hin; cbn [negb] in *.
    + apply in_list_elem_of in Hin. split.
      * rewrite IH1, Hs0, elem_of_cons. tauto.
      * rewrite IH2, Hc0, elem_of_cons. tauto.
    + assert (Hnin : package ∉ removals).
      { intros Hp. apply in_list_elem_of in Hp. congruence. }
      split.
      * rewrite IH1, elem_of_cons.
        destruct (decide (v0 = v)) as [<- | Hd].
        -- rewrite lookup_insert_eq.
           split; [intros _; right; by left | intros _; left; by eexists].
        -- rewrite lookup_insert_ne by done. rewrite Hs0. tauto.
      * rewrite IH2, elem_of_cons. unfold count at 1.
        destruct (decide (v0 = v)) as [<- | Hd].
        -- rewrite lookup_insert_eq. simpl. split; [lia |].
           intros [_ Hp]. exfalso. apply Hnin, Hp. by left.
        -- rewrite lookup_insert_ne by done. fold (count vp0 v).
           rewrite Hc0. split.
           ++ intros [Hc Hp]. split; [exact Hc |].
              intros [-> | Hin']; [done | by apply Hp].
           ++ intros [Hc Hp]. split; [exact Hc |]. intros Hin'. apply Hp.
              by right.
Qed.

Lemma read_rows_virtual (removals : list string) (v : string)
    (rows : list binary_row) :
  ∀ t,
    let t' := read_rows removals rows t in
    (is_Some (virtual_packages t' !! v)
     ↔ is_Some (virtual_packages t !! v)
       ∨ ∃ r, r ∈ rows ∧ v ∈ provides_of r)
    ∧ (count (virtual_packages t') v = 0
       ↔ count (virtual_packages t) v = 0
         ∧ ∀ r, r ∈ rows → v ∈ provides_of r → row_package r ∈ removals).
Proof.
  induction rows as [| r rows IH]; intros t; cbn zeta.
  - simpl. split.
    + split; [tauto |]. intros [Hs | (r & Hr & _)]; [exact Hs |].
      by apply elem_of_nil in Hr.
    + split; [| tauto]. intros Hc. split; [exact Hc |]. intros r Hr.
      by apply elem_of_nil in Hr.
  - cbn [read_rows]. match goal with
    | |- context [read_rows removals rows ?t1] =>
        destruct (IH t1) as [IH1 IH2]
    end.
    cbn zeta in IH1, IH2. cbn [virtual_packages] in IH1, IH2.
    assert (Hrow : (is_Some (match row_provides r with
                             | Some p => count_provides removals
                                 (row_package r) (Py.split_on "," p)
                                 (virtual_packages t)
                             | None => virtual_packages t
                             end !! v)
                    ↔ is_Some (virtual_packages t !! v) ∨ v ∈ provides_of r)
                   ∧ (count (match row_provides r with
                             | Some p => count_provides removals
                                 (row_package r) (Py.split_on "," p)
                                 (virtual_packages t)
                             | None => virtual_packages t
                             end) v = 0
                      ↔ count (virtual_packages t) v = 0
                        ∧ (v ∈ provides_of r → row_package r ∈ removals))).
    { unfold provides_of. destruct (row_provides r) as [p |].
      - apply count_provides_spec.
      - split; [| split; [| tauto]].
        + split; [tauto |]. intros [Hs | Hin]; [exact Hs |].
          by apply elem_of_nil in Hin.
        + intros Hc. split; [exact Hc |]. intros Hin.
          by apply elem_of_nil in Hin. }
    destruct Hrow as [Hr1 Hr2]. split.
    + rewrite IH1, Hr1. split.
      * intros [[Hs | Hin] | (r' & Hr' & Hin)]; [by left | |].
        -- right. exists r. split; [by apply elem_of_cons; left | done].
        -- right. exists r'. split; [by apply elem_of_cons; right | done].
      * intros [Hs | (r' & Hr' & Hin)]; [by left; left |].
        apply elem_of_cons in Hr' as [-> | Hr']; [by left; right |].
        right. by exists r'.
    + rewrite IH2, Hr2. split.
      * intros [[Hc Hp] Hall]. split; [exact Hc |]. intros r' Hr' Hin.
        apply elem_of_cons in Hr' as [-> | Hr']; [by apply Hp |].
        by apply (Hall r').
      * intros [Hc Hall]. split; [split; [exact Hc |] |].
        -- intros Hin. apply (Hall r); [by apply elem_of_cons; left | done].
        -- intros r' Hr' Hin. apply (Hall r'); [| done].
           by apply elem_of_cons; right.
Qed.

Section VirtualPackages.
Context `{Regexes} `{Archive}.

Lemma check_packages_keeps_removal_set (removals : list string)
    (t : arch_tables) (architecture : string)
    (packages : list (string * string)) (a a' : analysis) :
  check_packages removals t architecture packages a = Ok a' →
  removal_set a' = removal_set a.
Proof.
  intros Hc.
  pose proof (check_packages_removal_set removals t architecture packages
                (removal_set a) a) as Hr.
  assert (Ha : with_removal_set (removal_set a) a = a) by (by destruct a).
  rewrite Ha, Hc in Hr. simpl in Hr. injection Hr as ->. reflexivity.
Qed.

(** X16: on an architecture the analysis knows, a name joins
    [removal_set] exactly when some row of the architecture provides it as
    a virtual package (a name of its Provides field other than its own
    name) and every row that provides it is a package of [removals]; the
    names already in the set stay. *)
Theorem virtual_packages_join_removal_set (removals : list string)
    (architecture v : string) (st st' : gmap string string * analysis) :
  known_architecture architecture = true →
  check_architecture removals architecture st = Ok st' →
  v ∈ removal_set st'.2
  ↔ v ∈ removal_set st.2
    ∨ ((∃ r, r ∈ binaries_query architecture ∧ v ∈ provides_of r)
       ∧ ∀ r, r ∈ binaries_query architecture → v ∈ provides_of r →
              row_package r ∈ removals).
Proof.
  intros Hk Hc. unfold check_architecture in Hc. rewrite Hk in Hc.
  simpl in Hc.
  match type of Hc with
  | context [check_packages ?r ?t ?ar ?l ?a0] =>
      destruct (check_packages r t ar l a0) as [a1 |] eqn:Hp;
        [| discriminate];
      apply check_packages_keeps_removal_set in Hp
  end.
  injection Hc as <-. simpl in *. rewrite Hp.
  rewrite elem_of_union, elem_of_dom.
  match goal with
  | |- context [read_rows removals ?rows ?t0] =>
      destruct (read_rows_virtual removals v rows t0) as [H1 H2]
  end.
  cbn zeta in H1, H2. simpl in H1, H2.
  unfold count in H2 at 2. rewrite lookup_empty in H1, H2. simpl in H2.
  assert (Hz : is_Some (filter (λ kv : string * nat, kv.2 = 0)
                 (virtual_packages
                    (read_rows removals (binaries_query architecture)
                       {| deps := []; sources := ∅; virtual_packages := ∅;
                          p2c := st.1 |})) !! v)
               ↔ (∃ r, r ∈ binaries_query architecture ∧ v ∈ provides_of r)
                 ∧ ∀ r, r ∈ binaries_query architecture → v ∈ provides_of r →
                        row_package r ∈ removals).
  { split.
    - intros [n Hn]. apply map_lookup_filter_Some in Hn as [Hn Hzero].
      simpl in Hzero. subst n. split.
      + destruct (proj1 H1 (ltac:(by eexists))) as [[x Hx] | Hpr];
          [discriminate | exact Hpr].
      + apply H2. unfold count. by rewrite Hn.
    - intros [Hpr Hall].
      destruct (proj2 H1 (or_intror Hpr)) as [n Hn].
      assert (Hc0 : n = 0).
      { pose proof (proj2 H2 (conj eq_refl Hall)) as Hc0.
        unfold count in Hc0. by rewrite Hn in Hc0. }
      subst n. exists 0. apply map_lookup_filter_Some. by split. }
  rewrite Hz. reflexivity.
Qed.

End VirtualPackages.

(** * Properties of further functions *)

(** ** Free file names *)

Lemma find_next_free_loop_spec (lexists : string → bool) (orig_dest : string)
    (n : nat) :
  ∀ extra,
    let r := find_next_free_loop lexists orig_dest n
               (candidate orig_dest extra) extra in
    extra ≤ r.2 ≤ extra + n
    ∧ r.1 = candidate orig_dest r.2
    ∧ (∀ i, extra ≤ i < r.2 → lexists (candidate orig_dest i) = true)
    ∧ (r.2 < extra + n → lexists r.1 = false).
Proof.
  induction n as [| n IH]; intros extra; cbn zeta.
  - simpl. repeat split; lia.
  - cbn [find_next_free_loop].
    destruct (lexists (candidate orig_dest extra)) eqn:Hl.
    + destruct (IH (S extra)) as (H1 & H2 & H3 & H4). cbn zeta in *.
      change (orig_dest +:+ "." +:+ PyMore.repr_nat extra)
        with (candidate orig_dest (S extra)).
      repeat split; try lia; try assumption.
      * intros i Hi. destruct (decide (i = extra)) as [-> | Hne];
          [exact Hl | apply H3; lia].
      * intros Hlt. apply H4. lia.
    + simpl. repeat split; try lia. intros _. exact Hl.
Qed.

(** X17: [find_next_free] tries [dest], [dest.0], [dest.1], ..., at most
    [too_many] names in all.  It returns the first of them that does not
    exist, and raises [NoFreeFilenameError] exactly when all of them
    exist; so it never returns the name of an existing file, and with
    [too_many] at 0 it always raises. *)
Theorem find_next_free_spec (lexists : string → bool) (dest : string)
    (too_many : nat) :
  match find_next_free lexists dest too_many with
  | Returns d =>
      ∃ j, j < too_many
           ∧ d = candidate dest j
           ∧ lexists d = false
           ∧ ∀ i, i < j → lexists (candidate dest i) = true
  | Raises e =>
      e = NoFreeFilenameError
      ∧ ∀ i, i < too_many → lexists (candidate dest i) = true
  end.
Proof.
  unfold find_next_free.
  pose proof (find_next_free_loop_spec lexists dest too_many 0)
    as (H1 & H2 & H3 & H4).
  cbn zeta in *. change (candidate dest 0) with dest in *.
  destruct (find_next_free_loop lexists dest too_many dest 0) as [d e].
  simpl in *. destruct (Nat.leb_spec too_many e) as [Hle | Hlt].
  - split; [reflexivity |]. intros i Hi. apply H3. lia.
  - exists e. repeat split; [lia | exact H2 | apply H4; lia |].
    intros i Hi. apply H3. lia.
Qed.

Lemma first_existing_spec (exists_ : string → bool) (filename : string)
    (exts : list string) :
  match first_existing exists_ filename exts with
  | Returns f =>
      ∃ pre ext post,
        exts = pre ++ ext :: post
        ∧ f = filename +:+ ext
        ∧ exists_ f = true
        ∧ Forall (λ e, exists_ (filename +:+ e) = false) pre
  | Raises e =>
      e = OSError filename
      ∧ Forall (λ e, exists_ (filename +:+ e) = false) exts
  end.
Proof.
  induction exts as [| ext exts IH]; simpl; [by split |].
  destruct (exists_ (filename +:+ ext)) eqn:He.
  - exists [], ext, exts. repeat split; [exact He | constructor].
  - destruct (first_existing exists_ filename exts) as [f | e].
    + destruct IH as (pre & ext' & post & -> & -> & Hf & Hpre).
      exists (ext :: pre), ext', post. repeat split; [exact Hf |].
      by constructor.
    + destruct IH as [-> Hall]. split; [reflexivity | by constructor].
Qed.

(** X18: [find_possibly_compressed_file] returns a file that exists, the
    name it was given followed by the first of the endings (none, .xz,
    .gz, .bz2) with which the file exists; it raises [OSError] for the
    name it was given exactly when the file exists with none of them. *)
Theorem find_possibly_compressed_file_spec (exists_ : string → bool)
    (filename : string) :
  match find_possibly_compressed_file exists_ filename with
  | Returns f =>
      ∃ pre ext post,
        compressions = pre ++ ext :: post
        ∧ f = filename +:+ ext
        ∧ exists_ f = true
        ∧ Forall (λ e, exists_ (filename +:+ e) = false) pre
  | Raises e =>
      e = OSError filename
      ∧ Forall (λ e, exists_ (filename +:+ e) = false) compressions
  end.
Proof. apply first_existing_spec. Qed.

(** ** Splitting and joining *)

Lemma contains_char_app (c : ascii) (a b : string) :
  Py.contains_char c (a +:+ b)
  = Py.contains_char c a || Py.contains_char c b.
Proof.
  induction a as [| x a IH]; [reflexivity |].
  change (String x a +:+ b) with (String x (a +:+ b)). simpl.
  by rewrite IH, orb_assoc.
Qed.

Lemma free_of_app (c : ascii) (a b : string) :
  free_of c (a +:+ b) ↔ free_of c a ∧ free_of c b.
Proof. unfold free_of. rewrite contains_char_app. apply orb_false_iff. Qed.

Lemma contains_char_rev_app (c : ascii) (a b : string) :
  Py.contains_char c (String.rev_app a b)
  = Py.contains_char c a || Py.contains_char c b.
Proof.
  revert b. induction a as [| x a IH]; intros b; [reflexivity |].
  simpl. rewrite IH. simpl. destruct (Ascii.eqb c x); simpl;
    [by rewrite orb_true_r | reflexivity].
Qed.

Lemma free_of_rev (c : ascii) (s : string) :
  free_of c (String.rev s) ↔ free_of c s.
Proof.
  unfold free_of, String.rev. rewrite contains_char_rev_app. simpl.
  by rewrite orb_false_r.
Qed.

Lemma free_of_lstrip (c : ascii) (s : string) :
  free_of c s → free_of c (Py.lstrip s).
Proof.
  unfold free_of. induction s as [| x s IH]; [done |]. simpl.
  intros Hs. apply orb_false_iff in Hs as [Hx Hs].
  destruct (Py.is_space x); [by apply IH |]. simpl. by rewrite Hx, Hs.
Qed.

Lemma free_of_strip (c : ascii) (s : string) :
  free_of c s → free_of c (Py.strip s).
Proof.
  intros Hs. unfold Py.strip.
  by apply free_of_rev, free_of_lstrip, free_of_rev, free_of_lstrip.
Qed.

Lemma split_on_app_sep (c : ascii) (x rest : string) :
  free_of c x →
  Py.split_on c (x +:+ String c rest) = x :: Py.split_on c rest.
Proof.
  unfold free_of. induction x as [| d x IH]; intros Hx.
  - change ("" +:+ String c rest) with (String c rest). simpl.
    by rewrite Ascii.eqb_refl.
  - simpl in Hx. apply orb_false_iff in Hx as [Hd Hx].
    change (String d x +:+ String c rest) with (String d (x +:+ String c rest)).
    cbn [Py.split_on]. rewrite (IH Hx).
    rewrite Ascii.eqb_sym in Hd. by rewrite Hd.
Qed.

(** The text that joins, with the character [c], strings that are free of
    [c] splits at [c] into these strings. *)
Lemma split_on_join (c : ascii) (l : list string) :
  l ≠ [] →
  Forall (free_of c) l →
  Py.split_on c (Py.join (String c "") l) = l.
Proof.
  intros Hne Hl. induction Hl as [| x l Hx Hl IH]; [done |].
  destruct l as [| y l].
  - simpl. by apply split_on_free_id.
  - rewrite join_cons2.
    change (x +:+ String c "" +:+ Py.join (String c "") (y :: l))
      with (x +:+ String c (Py.join (String c "") (y :: l))).
    rewrite (split_on_app_sep _ _ _ Hx). by rewrite IH.
Qed.

(** X20: for a separator of one character, splitting what [result_join]
    returns gives back the values it was given, a missing value as the
    empty string, as long as there is at least one value and no value
    holds the separator. *)
Theorem result_join_split (c : ascii) (original : list (option string)) :
  original ≠ [] →
  Forall (λ x, free_of c (default "" x)) original →
  Py.split_on c (result_join original (String c ""))
  = map (default "") original.
Proof.
  intros Hne Hf. unfold result_join.
  rewrite (map_ext _ (default "")) by (by intros [?|]).
  apply split_on_join.
  - by destruct original.
  - by apply Forall_map.
Qed.

(** X21: when the prefix has no line feed and at least one line is kept,
    the lines of what [prefix_multi_line_string] returns are the kept
    lines of its argument, stripped of the whitespace around them, each
    after the prefix; an empty line is kept only on request. *)
Theorem prefix_multi_line_string_lines (lines prefix : string)
    (include_blank_lines : bool) :
  free_of Py.LF prefix →
  cleaned_lines lines include_blank_lines ≠ [] →
  Py.split_on Py.LF
    (prefix_multi_line_string lines prefix include_blank_lines)
  = map (λ cleaned_line, prefix +:+ cleaned_line)
      (cleaned_lines lines include_blank_lines)
  ∧ (include_blank_lines = false →
     Forall (λ cleaned_line, cleaned_line ≠ "")
       (cleaned_lines lines include_blank_lines)).
Proof.
  intros Hp Hne. split.
  - unfold prefix_multi_line_string. apply split_on_join.
    + by destruct (cleaned_lines lines include_blank_lines).
    + apply Forall_map, Forall_forall. intros l Hl.
      apply free_of_app. split; [exact Hp |].
      unfold cleaned_lines in Hl.
      apply list_elem_of_In, filter_In in Hl as [Hl _].
      apply in_map_iff in Hl as (raw & <- & Hraw).
      apply free_of_strip.
      pose proof (split_on_free Py.LF lines) as Hf.
      rewrite Forall_forall in Hf. by apply Hf, list_elem_of_In.
  - intros ->. unfold cleaned_lines. apply Forall_forall. intros l Hl.
    apply list_elem_of_In, filter_In in Hl as [_ Hl].
    rewrite orb_false_r in Hl. intros ->. discriminate.
Qed.

(** ** Command-line arguments *)









Lemma ends_with_char_contains (c : ascii) (s : string) :
  PyMore.ends_with_char c s = true → Py.contains_char c s = true.
Proof.
  induction s as [| d s IH]; [discriminate |]. intros He.
  cbn [Py.contains_char]. destruct s as [| d' s'].
  - cbn [PyMore.ends_with_char] in He. rewrite Ascii.eqb_sym, He. reflexivity.
  - rewrite (IH He). apply orb_true_r.
Qed.

(** With [dwim], a text that ends with a comma makes the program exit. *)
Lemma split_args_trailing_comma (s : string) :
  PyMore.ends_with_char "," s = true →
  split_args s true = Raises (SystemExit 1).
Proof.
  intros He. unfold split_args.
  rewrite (ends_with_char_contains _ _ He), He. reflexivity.
Qed.

(** ** Pool directories *)

Lemma free_of_take (c : ascii) (n : nat) (s : string) :
  free_of c s → free_of c (PyMore.take n s).
Proof.
  unfold free_of. revert s. induction n as [| n IH]; intros [| d s];
    try reflexivity.
  simpl. intros Hs. apply orb_false_iff in Hs as [-> Hs]. by apply IH.
Qed.

Lemma take_prefix (n : nat) (s : string) :
  ∃ rest, s = PyMore.take n s +:+ rest.
Proof.
  revert s. induction n as [| n IH]; intros [| d s]; try by eexists.
  destruct (IH s) as [rest Hrest]. exists rest. simpl.
  change (String d (PyMore.take n s) +:+ rest)
    with (String d (PyMore.take n s +:+ rest)).
  by rewrite <- Hrest.
Qed.

(** X22: for a source name without slash, the path that [poolify] returns
    has two components and ends with a slash: the second component is the
    source name itself, so two names never share a path, and the first is
    a prefix of the name, of at most four characters, empty only for the
    empty name. *)
Theorem poolify_components (source : string) :
  free_of "/" source →
  ∃ dir rest,
    Py.split_on "/" (poolify source) = [dir; source; ""]
    ∧ source = dir +:+ rest
    ∧ String.length dir ≤ 4
    ∧ (source ≠ "" → dir ≠ "").
Proof.
  intros Hs.
  assert (Hgen : ∀ n, 1 ≤ n ≤ 4 →
    ∃ dir rest,
      Py.split_on "/" (PyMore.take n source +:+ "/" +:+ source +:+ "/")
      = [dir; source; ""]
      ∧ source = dir +:+ rest
      ∧ String.length dir ≤ 4
      ∧ (source ≠ "" → dir ≠ "")).
  { intros n Hn. destruct (take_prefix n source) as [rest Hrest].
    exists (PyMore.take n source), rest. split; [| split; [exact Hrest |]].
    - change (PyMore.take n source +:+ "/" +:+ source +:+ "/")
        with (PyMore.take n source +:+ String "/" (source +:+ String "/" "")).
      rewrite split_on_app_sep by by apply free_of_take.
      by rewrite split_on_app_sep.
    - split.
      + assert (Hlen : ∀ m s, String.length (PyMore.take m s) ≤ m).
        { clear. induction m as [| m IH]; intros [| d s]; simpl; try lia.
          specialize (IH s). lia. }
        specialize (Hlen n source). lia.
      + destruct source as [| d s]; [done |]. intros _.
        destruct n as [| n]; [lia | discriminate]. }
  unfold poolify. destruct (String.eqb _ _); apply Hgen; lia.
Qed.

(** ** The order of architectures *)

Lemma ascii_compare_refl (a : ascii) : Ascii.compare a a = Eq.
Proof. unfold Ascii.compare. apply N.compare_refl. Qed.

Lemma ascii_compare_trans (a b c : ascii) :
  Ascii.compare a b = Lt → Ascii.compare b c = Lt → Ascii.compare a c = Lt.
Proof.
  unfold Ascii.compare. rewrite !N.compare_lt_iff. lia.
Qed.

Lemma string_compare_refl (s : string) : String.compare s s = Eq.
Proof.
  induction s as [| a s IH]; [reflexivity |]. simpl.
  by rewrite ascii_compare_refl.
Qed.

Lemma string_compare_trans (a b c : string) :
  String.compare a b = Lt → String.compare b c = Lt →
  String.compare a c = Lt.
Proof.
  revert b c. induction a as [| x a IH]; intros [| y b] [| z c]; simpl;
    try done.
  destruct (Ascii.compare x y) eqn:Hxy; try done;
    destruct (Ascii.compare y z) eqn:Hyz; try done.
  - apply Ascii.compare_eq_iff in Hxy as ->.
    apply Ascii.compare_eq_iff in Hyz as ->.
    rewrite ascii_compare_refl. apply IH.
  - apply Ascii.compare_eq_iff in Hxy as ->. by rewrite Hyz.
  - apply Ascii.compare_eq_iff in Hyz as <-. by rewrite Hxy.
  - by rewrite (ascii_compare_trans _ _ _ Hxy Hyz).
Qed.

Lemma string_ltb_irrefl (s : string) : String.ltb s s = false.
Proof. unfold String.ltb. by rewrite string_compare_refl. Qed.

Lemma string_ltb_trans (a b c : string) :
  String.ltb a b = true → String.ltb b c = true → String.ltb a c = true.
Proof.
  unfold String.ltb. intros Hab Hbc.
  rewrite (string_compare_trans a b c); [reflexivity | |].
  - by destruct (String.compare a b).
  - by destruct (String.compare b c).
Qed.

Lemma string_ltb_total (a b : string) :
  String.ltb a b = false → String.ltb b a = false → a = b.
Proof.
  unfold String.ltb. rewrite (String.compare_antisym b a).
  destruct (String.compare a b) eqn:Hab; simpl; try done.
  intros _ _. by apply String.compare_eq_iff.
Qed.

(** X23: on the keys of architecture names, [__lt__] is a strict total
    order (no key is below itself, the order is transitive, and two keys
    neither of which is below the other have the same name), and the key
    of ["source"] is below every other key. *)
Theorem ArchKey_strict_total_order (a b c : string) :
  ArchKey.lt (ArchKey.init a) (ArchKey.init a) = false
  ∧ (ArchKey.lt (ArchKey.init a) (ArchKey.init b) = true →
     ArchKey.lt (ArchKey.init b) (ArchKey.init c) = true →
     ArchKey.lt (ArchKey.init a) (ArchKey.init c) = true)
  ∧ (ArchKey.lt (ArchKey.init a) (ArchKey.init b) = false →
     ArchKey.lt (ArchKey.init b) (ArchKey.init a) = false →
     a = b ∧ ArchKey.eq (ArchKey.init a) (ArchKey.init b) = true)
  ∧ (a ≠ "source" →
     ArchKey.lt (ArchKey.init "source") (ArchKey.init a) = true
     ∧ ArchKey.lt (ArchKey.init a) (ArchKey.init "source") = false).
Proof.
  unfold ArchKey.lt, ArchKey.init, ArchKey.eq.
  cbn [ArchKey.issource ArchKey.arch].
  change (String.eqb "source" "source") with true. cbv iota.
  destruct (String.eqb_spec a "source") as [-> | Ha];
    destruct (String.eqb_spec b "source") as [-> | Hb];
    destruct (String.eqb_spec c "source") as [-> | Hc];
    cbn [negb]; repeat split; intros; try done;
    try apply string_ltb_irrefl; try apply String.eqb_refl;
    try (by eapply string_ltb_trans);
    try (by apply string_ltb_total);
    apply String.eqb_eq; by apply string_ltb_total.
Qed.

(** ** Debug sections *)

Lemma split_once_char (c : ascii) (s : string) :
  match PyMore.split_once (String c "") s with
  | Some (a, b) => free_of c a ∧ s = a +:+ String c b
  | None => free_of c s
  end.
Proof.
  unfold free_of. induction s as [| d s IH]; [done |].
  cbn [PyMore.split_once strip_prefix Py.contains_char].
  destruct (Ascii.eqb_spec c d) as [-> | Hne]; [done |].
  destruct (PyMore.split_once (String c "") s) as [[a b] |].
  - destruct IH as [Ha ->]. split; [| reflexivity].
    cbn [Py.contains_char]. rewrite Ha.
    by destruct (Ascii.eqb_spec c d).
  - by rewrite IH.
Qed.

Lemma split_once_app (c : ascii) (a b : string) :
  free_of c a →
  PyMore.split_once (String c "") (a +:+ String c b) = Some (a, b).
Proof.
  unfold free_of. induction a as [| d a IH]; intros Ha.
  - change ("" +:+ String c b) with (String c b).
    cbn [PyMore.split_once strip_prefix]. by rewrite Ascii.eqb_refl.
  - cbn [Py.contains_char] in Ha. apply orb_false_iff in Ha as [Hd Ha].
    change (String d a +:+ String c b) with (String d (a +:+ String c b)).
    cbn [PyMore.split_once strip_prefix]. rewrite Hd.
    fold (PyMore.split_once (String c "") (a +:+ String c b)).
    by rewrite (IH Ha).
Qed.

(** X24: [is_in_debug_section] answers yes exactly for a control file
    whose Auto-Built-Package field is ["debug-symbols"] and whose Section
    field is ["debug"], or ["debug"] after one component and a slash; a
    component that holds a slash itself does not count. *)
Theorem is_in_debug_section_true (control : string → option string) :
  is_in_debug_section control = Returns true
  ↔ (∃ s, control "Section" = Some s
          ∧ (s = "debug"
             ∨ ∃ component, free_of "/" component
                            ∧ s = component +:+ "/debug"))
    ∧ control "Auto-Built-Package" = Some "debug-symbols".
Proof.
  unfold is_in_debug_section, PyMore.after_first. split.
  - destruct (control "Section") as [s |]; [| discriminate].
    intros [= Hb]. apply andb_true_iff in Hb as [Hs Ha].
    apply String.eqb_eq in Hs. split.
    + exists s. split; [reflexivity |].
      pose proof (split_once_char "/" s) as Hsp.
      destruct (PyMore.split_once "/" s) as [[a b] |].
      * destruct Hsp as [Hfree ->]. right. exists a. by rewrite Hs.
      * by left.
    + destruct (control "Auto-Built-Package") as [a |]; [| discriminate].
      by apply String.eqb_eq in Ha as ->.
  - intros [(s & -> & Hs) ->]. f_equal. apply andb_true_iff.
    split; [| reflexivity]. apply String.eqb_eq.
    destruct Hs as [-> | (component & Hfree & ->)]; [reflexivity |].
    change (component +:+ "/debug") with (component +:+ String "/" "debug").
    by rewrite split_once_app.
Qed.

(** ** Built-Using *)

Lemma built_using_pairs_spec (clauses : list clause)
    (bu r : list (string * string)) :
  built_using_pairs clauses bu = Returns r
  ↔ ∃ more, clauses = map (λ p, [(p.1, p.2, "=")]) more ∧ r = bu ++ more.
Proof.
  revert bu. induction clauses as [| dep rest IH]; intros bu; simpl.
  - split.
    + intros [= <-]. exists []. by rewrite app_nil_r.
    + intros ([| ? ?] & Hm & ->); [by rewrite app_nil_r | discriminate].
  - destruct dep as [| [[source_name source_version] comp] [| ? ?]].
    + split; [discriminate |]. by intros ([| ? ?] & Hm & _).
    + destruct (String.eqb_spec comp "=") as [-> | Hne].
      * rewrite IH. split.
        -- intros (more & -> & ->).
           exists ((source_name, source_version) :: more).
           by rewrite <- app_assoc.
        -- intros ([| [n v] more] & Hm & ->); [discriminate |].
           simpl in Hm. injection Hm as -> -> ->. exists more.
           by rewrite <- app_assoc.
      * split; [discriminate |].
        intros ([| [n v] more] & Hm & _); [discriminate |].
        simpl in Hm. injection Hm as _ _ Hc _. by destruct Hne.
    + split; [discriminate |].
      intros ([| [n v] more] & Hm & _); discriminate.
Qed.

Section BuiltUsingMore.
Context `{Archive}.

(** X25: [parse_built_using] returns a list of pairs exactly in two
    cases: the control file has no Built-Using field and the list is
    empty, or every clause of the field is one alternative with the
    relation [=] and the list holds the name and version of each, in the
    order of the field.  A clause with alternatives, another relation or a
    field that does not parse never gives a list. *)
Theorem parse_built_using_returns (control : string → option string)
    (bu : list (string * string)) :
  parse_built_using control = Returns bu
  ↔ (control "Built-Using" = None ∧ bu = [])
    ∨ (∃ built_using,
         control "Built-Using" = Some built_using
         ∧ parse_depends built_using
           = Some (map (λ p, [(p.1, p.2, "=")]) bu)).
Proof.
  unfold parse_built_using.
  destruct (control "Built-Using") as [built_using |].
  - destruct (parse_depends built_using) as [clauses |] eqn:Hp.
    + rewrite built_using_pairs_spec. split.
      * intros (more & -> & ->). right. by exists built_using.
      * intros [[? _] | (? & [= <-] & Hq)]; [discriminate |].
        rewrite Hp in Hq. injection Hq as ->. by exists bu.
    + split; [discriminate |].
      intros [[? _] | (? & [= <-] & Hq)]; [discriminate |].
      rewrite Hp in Hq. discriminate.
  - split.
    + intros [= <-]. by left.
    + intros [[_ ->] | (? & ? & _)]; [reflexivity | discriminate].
Qed.

End BuiltUsingMore.

(** ** WNPP bugs *)

Lemma span_all_chars (p : ascii → bool) (s : string) :
  PyMore.all_chars p (Py.span p s).1 = true.
Proof.
  induction s as [| c s IH]; [reflexivity |]. simpl.
  destruct (p c) eqn:Hc; [| reflexivity].
  destruct (Py.span p s) as [a b]. simpl in *. by rewrite Hc.
Qed.

Lemma first_digits_word (s bug_no : string) :
  PyMore.first_digits s = Some bug_no → word_of PyMore.is_digit bug_no.
Proof.
  induction s as [| c s IH]; [discriminate |]. simpl.
  destruct (PyMore.is_digit c) eqn:Hc; [| exact IH].
  intros [= <-]. split; [discriminate |]. simpl.
  by rewrite Hc, span_all_chars.
Qed.

Lemma bug_numbers_spec (wnpp_bugs bugs r : list string) :
  bug_numbers wnpp_bugs bugs = Returns r →
  ∃ numbers,
    r = bugs ++ numbers
    ∧ map Some numbers = map PyMore.first_digits wnpp_bugs
    ∧ Forall (word_of PyMore.is_digit) numbers.
Proof.
  revert bugs. induction wnpp_bugs as [| wnpp_bug rest IH]; intros bugs; simpl.
  - intros [= <-]. exists []. by rewrite app_nil_r.
  - destruct (PyMore.first_digits wnpp_bug) as [bug_no |] eqn:Hd;
      [| discriminate].
    pose proof (first_digits_word _ _ Hd) as Hw.
    destruct bug_no as [| d bug_no]; [by destruct Hw |]. simpl.
    intros Hr. apply IH in Hr as (numbers & -> & Hn & Hf).
    exists (String d bug_no :: numbers). rewrite <- app_assoc.
    split; [reflexivity |]. split; [simpl; by rewrite Hn | by constructor].
Qed.

Lemma dict_set_elem_of_inv {V : Type} (k k' : string) (v v' : V)
    (d : list (string * V)) :
  NoDup (dict_keys d) →
  (k', v') ∈ dict_set k v d →
  (k' = k ∧ v' = v) ∨ (k' ≠ k ∧ (k', v') ∈ d).
Proof.
  unfold dict_keys. induction d as [| [k0 v0] d IH]; simpl; intros Hd Hin.
  - apply list_elem_of_singleton in Hin. injection Hin. auto.
  - apply NoDup_cons in Hd as [Hk0 Hd].
    destruct (String.eqb_spec k k0) as [-> | Hne].
    + apply elem_of_cons in Hin as [Hin | Hin]; [injection Hin; auto |].
      right. split; [| by apply elem_of_cons; right].
      intros ->. apply Hk0. apply list_elem_of_fmap. by exists (k0, v').
    + apply elem_of_cons in Hin as [Hin | Hin].
      * injection Hin as -> ->. right. split; [done |].
        by apply elem_of_cons; left.
      * destruct (IH Hd Hin) as [? | [? ?]]; [by left |].
        right. split; [done |]. by apply elem_of_cons; right.
Qed.

Section Wnpp.
Variable lines : list string.

Lemma wnpp_entries_inv (rest : list string)
    (wnpp : list (string * list string)) :
  rest ⊆ lines →
  NoDup (dict_keys wnpp) → Forall (wnpp_raw lines) wnpp →
  NoDup (dict_keys (wnpp_entries rest wnpp))
  ∧ Forall (wnpp_raw lines) (wnpp_entries rest wnpp).
Proof.
  revert wnpp. induction rest as [| line rest IH]; intros wnpp Hsub Hd Hr;
    simpl; [done |].
  assert (Hrest : rest ⊆ lines).
  { intros x Hx. apply Hsub. by apply elem_of_cons; right. }
  destruct (PyMore.split_once ": " line) as [[source bugs] |] eqn:Hs;
    [| by apply IH].
  apply IH; [done | by apply dict_set_NoDup |].
  apply dict_set_Forall; [| done].
  exists line, bugs. split; [| done]. apply Hsub. by apply elem_of_cons; left.
Qed.

Lemma wnpp_numbers_inv (todo wnpp r : list (string * list string)) :
  NoDup (dict_keys wnpp) →
  Forall (wnpp_raw lines) todo →
  Forall (λ entry, wnpp_numbered lines entry ∨ entry ∈ todo) wnpp →
  wnpp_numbers todo wnpp = Returns r →
  NoDup (dict_keys r) ∧ Forall (wnpp_numbered lines) r.
Proof.
  revert wnpp. induction todo as [| [source wnpp_bugs] todo IH];
    intros wnpp Hd Ht Hw; simpl.
  - intros [= <-]. split; [done |]. eapply Forall_impl; [exact Hw |].
    intros entry [? | Hin]; [done | by apply elem_of_nil in Hin].
  - apply Forall_cons in Ht as [(line & text & Hline & Hs & Hp) Ht].
    simpl in Hs, Hp.
    destruct (bug_numbers wnpp_bugs []) as [bugs | e] eqn:Hb; [| discriminate].
    change (wnpp_numbers todo (dict_set source bugs wnpp) = Returns r
            → NoDup (dict_keys r) ∧ Forall (wnpp_numbered lines) r).
    apply bug_numbers_spec in Hb as (numbers & -> & Hn & Hf). simpl.
    apply IH; [by apply dict_set_NoDup | done |].
    apply Forall_forall. intros [k v] Hin.
    apply dict_set_elem_of_inv in Hin as [[-> ->] | [Hne Hin]]; [| | done].
    + left. split; [done |]. exists line, text. simpl. by rewrite Hn, Hp.
    + rewrite Forall_forall in Hw. destruct (Hw _ Hin) as [? | Hk]; [by left |].
      right. apply elem_of_cons in Hk as [[= -> _] | Hk]; [done | done].
Qed.

(** X26: in the table that [parse_wnpp_bug_file] returns no source name
    comes twice, and the bugs of a source are the first runs of digits of
    the pieces, between vertical bars, of a line of the file that starts
    with the source name and a colon with a space: every bug is a
    non-empty text of digits. *)
Theorem parse_wnpp_bug_file_returns (wnpp : list (string * list string)) :
  parse_wnpp_bug_file lines = Returns wnpp →
  NoDup (dict_keys wnpp)
  ∧ ∀ source bugs,
      (source, bugs) ∈ wnpp →
      Forall (word_of PyMore.is_digit) bugs
      ∧ ∃ line text,
          line ∈ lines
          ∧ PyMore.split_once ": " line = Some (source, text)
          ∧ map Some bugs
            = map PyMore.first_digits (Py.split_on "|" text).
Proof.
  unfold parse_wnpp_bug_file. intros Hr.
  destruct (wnpp_entries_inv lines []) as [Hd Hraw];
    [done | constructor | constructor |].
  apply wnpp_numbers_inv in Hr as [Hd' Hn]; [| done | done |].
  - split; [done |]. intros source bugs Hin.
    rewrite Forall_forall in Hn. exact (Hn _ Hin).
  - apply Forall_forall. intros entry Hin. by right.
Qed.

End Wnpp.

(** A piece without digit makes the function fail: [re.search] gives
    [None], which has no [group]. *)
Lemma bug_numbers_no_digit (wnpp_bug : string) (rest bugs : list string) :
  PyMore.first_digits wnpp_bug = None →
  bug_numbers (wnpp_bug :: rest) bugs = Raises AttributeError.
Proof. intros Hd. simpl. by rewrite Hd. Qed.

(** ** Addresses of a key *)

Section AddressesMore.
Context `{Keys}.

Lemma listing_addresses_inv (all lines : list string) :
  lines ⊆ all →
  ∀ addresses r,
    listing_addresses lines addresses = Returns r →
    preferred_first addresses → Forall (taken_from all) addresses →
    preferred_first r ∧ Forall (taken_from all) r.
Proof.
  induction lines as [| line rest IH]; intros Hsub addresses r;
    cbn [listing_addresses].
  - by intros [= <-].
  - assert (Hrest : rest ⊆ all).
    { intros x Hx. apply Hsub. by apply elem_of_cons; right. }
    assert (Hline : line ∈ all) by (apply Hsub; by apply elem_of_cons; left).
    destruct (in_list (nth 0 (Py.split_on ":" line) "") ["uid"; "pub"])
      eqn:Hkind; cbn [negb]; [| by apply IH].
    destruct (nth_error (Py.split_on ":" line) 1) as [validity |] eqn:Hv;
      [| discriminate].
    destruct (in_list validity ["i"; "d"; "r"]) eqn:Hvalid; [by apply IH |].
    destruct (nth_error (Py.split_on ":" line) 9) as [uid_bytes |] eqn:Hu;
      [| by apply IH].
    destruct (re_parse_maintainer (decode_uid uid_bytes)) as [address |]
      eqn:Hm; [| by apply IH].
    assert (Ht : taken_from all address).
    { exists line, validity, uid_bytes. by rewrite Hkind, Hv, Hu. }
    destruct (PyMore.endswith "@debian.org" address) eqn:Hd;
      intros Hr (preferred & others & -> & Hp & Ho) Hf;
      apply (IH Hrest _ _ Hr).
    + exists (address :: preferred), others.
      split; [reflexivity |]. split; [by constructor | done].
    + by constructor.
    + exists preferred, (others ++ [address]).
      split; [by rewrite app_assoc |]. split; [done |].
      apply Forall_app. split; [done |]. by repeat constructor.
    + apply Forall_app. split; [done |]. by repeat constructor.
Qed.

(** X27: in the list that [_gpg_get_addresses_from_listing] returns the
    addresses that end with [@debian.org] come before all others, and
    every address is what the maintainer pattern finds in the tenth field
    of a [uid] or [pub] line of the listing whose validity is none of
    [i], [d] and [r]. *)
Theorem listing_addresses_preferred_first (output : string)
    (addresses : list string) :
  _gpg_get_addresses_from_listing output = Returns addresses →
  (∃ preferred others,
     addresses = preferred ++ others
     ∧ Forall (λ a, PyMore.endswith "@debian.org" a = true) preferred
     ∧ Forall (λ a, PyMore.endswith "@debian.org" a = false) others)
  ∧ ∀ address,
      address ∈ addresses →
      ∃ line validity uid_bytes,
        line ∈ Py.split_on Py.LF output
        ∧ in_list (nth 0 (Py.split_on ":" line) "") ["uid"; "pub"] = true
        ∧ nth_error (Py.split_on ":" line) 1 = Some validity
        ∧ in_list validity ["i"; "d"; "r"] = false
        ∧ nth_error (Py.split_on ":" line) 9 = Some uid_bytes
        ∧ re_parse_maintainer (decode_uid uid_bytes) = Some address.
Proof.
  unfold _gpg_get_addresses_from_listing. intros Hr.
  apply (listing_addresses_inv (Py.split_on Py.LF output)) in Hr
    as [Hp Hf]; [| done | | constructor].
  - split; [exact Hp |]. intros address Hin.
    rewrite Forall_forall in Hf. exact (Hf _ Hin).
  - exists [], []. by repeat constructor.
Qed.

End AddressesMore.

(** X28: what [gpg_get_key_addresses] returns for a fingerprint is
    recorded in the cache under this fingerprint, the entries of the other
    fingerprints are kept, and a second call with the new cache returns
    the same addresses and the same cache whatever gpg, the decoding and
    the pattern would give then: they are not consulted. *)
Theorem gpg_get_key_addresses_cached (first second : Keys)
    (fingerprint : string) (cache cache' : gmap string (list string))
    (addresses : list string) :
  @gpg_get_key_addresses first fingerprint cache
  = Returns (addresses, cache') →
  cache' !! fingerprint = Some addresses
  ∧ (∀ other, other ≠ fingerprint → cache' !! other = cache !! other)
  ∧ @gpg_get_key_addresses second fingerprint cache'
    = Returns (addresses, cache').
Proof.
  unfold gpg_get_key_addresses.
  destruct (cache !! fingerprint) as [found |] eqn:Hc.
  - intros [= <- <-]. rewrite Hc. done.
  - destruct (match @gpg_list_keys first fingerprint with
              | Some output => @_gpg_get_addresses_from_listing first output
              | None => Returns []
              end) as [a | e]; [| discriminate].
    intros Hr. change (Returns (a, <[fingerprint := a]> cache)
                       = Returns (addresses, cache')) in Hr.
    injection Hr as -> <-. rewrite lookup_insert_eq.
    split; [done |]. split; [| done].
    intros other Hne. by rewrite lookup_insert_ne.
Qed.

(** * Further concrete runs *)

Lemma sequence_Some {A : Type} (l : list (option A)) (r : list A) :
  Dak.sequence l = Some r → length r = length l.
Proof.
  revert r. induction l as [| x l IH]; intros r; simpl.
  - by intros [= <-].
  - destruct x as [a |]; [| discriminate].
    destruct (Dak.sequence l) as [r' |]; [| discriminate].
    intros [= <-]. simpl. by rewrite (IH r').
Qed.

Lemma sequence_Forall {A B : Type} (f : A → option B) (P : B → Prop)
    (l : list A) (r : list B) :
  (∀ a b, f a = Some b → P b) →
  Dak.sequence (map f l) = Some r → Forall P r.
Proof.
  intros Hf. revert r. induction l as [| x l IH]; intros r; simpl.
  - intros [= <-]. constructor.
  - destruct (f x) as [b |] eqn:Hx; [| discriminate].
    destruct (Dak.sequence (map f l)) as [r' |]; [| discriminate].
    intros [= <-]. constructor; [by eapply Hf | by apply IH].
Qed.

(** The parser of the concrete runs returns no clause without
    alternatives: a clause has one alternative for each piece between
    vertical bars, and there is at least one piece. *)
Lemma parse_clauses_nonempty (s : string) (cls : list clause) :
  Dak.parse_clauses s = Some cls → Forall (λ dep, dep ≠ []) cls.
Proof.
  unfold Dak.parse_clauses. destruct (String.eqb (Py.strip s) "").
  - intros [= <-]. constructor.
  - apply sequence_Forall. intros c dep Hdep ->.
    apply sequence_Some in Hdep. rewrite length_map in Hdep.
    destruct (split_on_cons "|" c) as (h & t & Hc). rewrite Hc in Hdep.
    discriminate.
Qed.

Section MoreRuns.
#[local] Existing Instance Dak.regexes.
#[local] Existing Instance Dak.cleartext.
#[local] Existing Instance Dak.any_format.
#[local] Existing Instance Dak.no_srcformats.
#[local] Existing Instance Dak.virtual_archive.
#[local] Existing Instance Samples.keys.

Lemma parse_deb822_keeps_raw_text_witness :
  parse_deb822 (Dak.payload ["Source: foo (1.2-3)"]) 0 None
  = Ok Dak.source_record
  ∧ Dak.source_record !! "filecontents"
    = Some (Dak.payload ["Source: foo (1.2-3)"]).
Proof.
  assert (Hp : parse_deb822 (Dak.payload ["Source: foo (1.2-3)"]) 0 None
               = Ok Dak.source_record) by (vm_compute; reflexivity).
  split; [exact Hp |]. exact (parse_deb822_keeps_raw_text _ _ _ _ Hp).
Defined.

Lemma parse_deb822_lower_case_keys_witness :
  parse_deb822 (Dak.payload ["Source: foo (1.2-3)"]) 0 None
  = Ok Dak.source_record
  ∧ ∀ k, is_Some (Dak.source_record !! k) → Py.lower k = k.
Proof.
  assert (Hp : parse_deb822 (Dak.payload ["Source: foo (1.2-3)"]) 0 None
               = Ok Dak.source_record) by (vm_compute; reflexivity).
  split; [exact Hp |]. exact (parse_deb822_lower_case_keys _ _ _ _ Hp).
Defined.

(** A payload whose last line, [X], has no terminator: the loop reads it
    as the empty text and the record is returned without it. *)
Lemma parse_deb822_ok_no_unparseable_witness :
  signed_contents ("A: b" +:+ Py.nl +:+ "X") None
  = Ok ("A: b" +:+ Py.nl +:+ "X")
  ∧ Py.splitlines ("A: b" +:+ Py.nl +:+ "X") = ["A: b" +:+ Py.nl; "X"]
  ∧ unparseable 0 (Py.drop_last "X") = true
  ∧ (∃ r, parse_deb822 ("A: b" +:+ Py.nl +:+ "X") 0 None = Ok r)
  ∧ Forall (λ line, unparseable 0 (Py.drop_last line) = true →
                    String.length line ≤ 1)
      (Py.splitlines ("A: b" +:+ Py.nl +:+ "X")).
Proof.
  assert (Hs : signed_contents ("A: b" +:+ Py.nl +:+ "X") None
               = Ok ("A: b" +:+ Py.nl +:+ "X")) by reflexivity.
  split; [exact Hs |]. split; [reflexivity |]. split; [reflexivity |].
  destruct (parse_deb822 ("A: b" +:+ Py.nl +:+ "X") 0 None)
    as [r | e] eqn:Hp; [| vm_compute in Hp; discriminate].
  split; [by exists r |].
  exact (parse_deb822_ok_no_unparseable _ _ _ _ _ Hs Hp).
Defined.

Lemma invalid_dsc_error_points_at_empty_line_witness :
  signed_contents (Dak.payload ["A: b"; ""; "C: d"]) None
  = Ok (Dak.payload ["A: b"; ""; "C: d"])
  ∧ parse_deb822 (Dak.payload ["A: b"; ""; "C: d"]) 1 None
    = Raise (InvalidDscError 2)
  ∧ 1%Z = 1%Z
  ∧ 1 ≤ 2 < length (indexed_lines (Dak.payload ["A: b"; ""; "C: d"]))
  ∧ indexed_lines (Dak.payload ["A: b"; ""; "C: d"]) !! (2 - 1) = Some "".
Proof.
  assert (Hs : signed_contents (Dak.payload ["A: b"; ""; "C: d"]) None
               = Ok (Dak.payload ["A: b"; ""; "C: d"])) by reflexivity.
  assert (Hp : parse_deb822 (Dak.payload ["A: b"; ""; "C: d"]) 1 None
               = Raise (InvalidDscError 2)) by (vm_compute; reflexivity).
  split; [exact Hs |]. split; [exact Hp |].
  exact (invalid_dsc_error_points_at_empty_line _ _ _ _ _ Hs Hp).
Defined.

Lemma continuation_from_nothing_witness :
  signed_contents (Dak.payload ["bogus"; " x"; "A: b"]) None
  = Ok (Dak.payload ["bogus"; " x"; "A: b"])
  ∧ indexed_lines (Dak.payload ["bogus"; " x"; "A: b"])
    = ["bogus"] ++ " x" :: ["A: b"]
  ∧ Forall (λ l, classify 0 l = Unparseable) ["bogus"]
  ∧ classify 0 " x" = Continuation "x"
  ∧ parse_deb822 (Dak.payload ["bogus"; " x"; "A: b"]) 0 None
    = Raise (ParseChangesError
               ("'" +:+ " x" +:+ "'" +:+ Py.nl +:+
                " [Multi-line field continuing on from nothing?]")).
Proof.
  assert (Hs : signed_contents (Dak.payload ["bogus"; " x"; "A: b"]) None
               = Ok (Dak.payload ["bogus"; " x"; "A: b"])) by reflexivity.
  assert (Hl : indexed_lines (Dak.payload ["bogus"; " x"; "A: b"])
               = ["bogus"] ++ " x" :: ["A: b"]) by reflexivity.
  assert (Hpre : Forall (λ l, classify 0 l = Unparseable) ["bogus"])
    by (repeat constructor).
  assert (Hc : classify 0 " x" = Continuation "x") by reflexivity.
  split; [exact Hs |]. split; [exact Hl |]. split; [exact Hpre |].
  split; [exact Hc |].
  exact (continuation_from_nothing _ 0%Z None _ _ _ _ _ Hs Hl Hpre Hc).
Defined.

Lemma marker_before_any_field_witness :
  signed_contents (Dak.payload ["bogus"; " ."; "A: b"]) None
  = Ok (Dak.payload ["bogus"; " ."; "A: b"])
  ∧ indexed_lines (Dak.payload ["bogus"; " ."; "A: b"])
    = ["bogus"] ++ " ." :: ["A: b"]
  ∧ Forall (λ l, classify 0 l = Unparseable) ["bogus"]
  ∧ classify 0 " ." = Marker
  ∧ parse_deb822 (Dak.payload ["bogus"; " ."; "A: b"]) 0 None
    = Raise (UnboundLocalError "field").
Proof.
  assert (Hs : signed_contents (Dak.payload ["bogus"; " ."; "A: b"]) None
               = Ok (Dak.payload ["bogus"; " ."; "A: b"])) by reflexivity.
  assert (Hl : indexed_lines (Dak.payload ["bogus"; " ."; "A: b"])
               = ["bogus"] ++ " ." :: ["A: b"]) by reflexivity.
  assert (Hpre : Forall (λ l, classify 0 l = Unparseable) ["bogus"])
    by (repeat constructor).
  assert (Hc : classify 0 " ." = Marker) by reflexivity.
  split; [exact Hs |]. split; [exact Hl |]. split; [exact Hpre |].
  split; [exact Hc |].
  exact (marker_before_any_field _ 0%Z None _ _ _ _ Hs Hl Hpre Hc).
Defined.

Lemma parse_changes_ok_has_mandatory_fields_witness :
  ∃ r,
    parse_changes Samples.changes_text 0 false None = Ok r
    ∧ parse_deb822 Samples.changes_text 0 None = Ok r
    ∧ Forall (λ kw, is_Some (r !! Py.lower kw)) must_keywords.
Proof.
  destruct (parse_changes Samples.changes_text 0 false None) as [r | e]
    eqn:Hp; [| vm_compute in Hp; discriminate].
  exists r. split; [reflexivity |].
  exact (parse_changes_ok_has_mandatory_fields _ _ _ _ Hp).
Defined.

Lemma build_file_list_distinct_names_witness :
  ∃ files,
    build_file_list Samples.upload_manifest false "files" "md5sum" = Ok files
    ∧ NoDup (dict_keys files).
Proof.
  destruct (build_file_list Samples.upload_manifest false "files" "md5sum")
    as [files | e] eqn:Hb; [| vm_compute in Hb; discriminate].
  exists files. split; [reflexivity |].
  exact (build_file_list_distinct_names _ _ _ _ _ Hb).
Defined.

Lemma build_file_list_entries_witness :
  ∃ files,
    build_file_list Samples.upload_manifest false "files" "md5sum" = Ok files
    ∧ ("md5sum" ∉ ["section"; "priority"; "component"])
    ∧ Forall
        (λ ne, ∃ section,
           ne.2 !! "section" = Some section
           ∧ section ≠ ""
           ∧ ne.2 !! "component"
             = Some (extract_component_from_section section).2
           ∧ (negb false && String.eqb "files" "files" = false →
              section = "-" ∧ ne.2 !! "priority" = Some "-"
              ∧ ne.2 !! "component" = Some "main"))
        files.
Proof.
  destruct (build_file_list Samples.upload_manifest false "files" "md5sum")
    as [files | e] eqn:Hb; [| vm_compute in Hb; discriminate].
  assert (Hh : "md5sum" ∉ ["section"; "priority"; "component"]).
  { rewrite <- in_list_elem_of. by vm_compute. }
  exists files. split; [reflexivity |]. split; [exact Hh |].
  exact (build_file_list_entries _ _ _ _ _ Hb Hh).
Defined.

Lemma check_dsc_files_messages_witness :
  ({[ "format" := "1.0" ]} : gmap string string) !! "format" = Some "1.0"
  ∧ check_dsc_files "foo_1.0.dsc" {[ "format" := "1.0" ]}
      [("foo_1.0.orig.tar.gz", ∅); ("foo_1.0.orig.tar.bz2", ∅)]
    = Ok ["foo_1.0.dsc: lists multiple orig_tar"].
Proof.
  assert (Hf : ({[ "format" := "1.0" ]} : gmap string string) !! "format"
               = Some "1.0") by reflexivity.
  split; [exact Hf |].
  destruct (check_dsc_files_messages "foo_1.0.dsc" "1.0" _
              [("foo_1.0.orig.tar.gz", ∅); ("foo_1.0.orig.tar.bz2", ∅)] Hf)
    as (has' & _ & ->).
  vm_compute. reflexivity.
Defined.

Lemma removed_packages_are_not_reported_witness :
  analyse ["v"] ["amd64"] true = Ok Samples.removal_of_v
  ∧ broken_depends Samples.removal_of_v !! "a-src"
    = Some {[ "a" := {[ "amd64" ]} ]}
  ∧ is_Some (({[ "a" := {[ "amd64" ]} ]} : gmap string (gset string)) !! "a")
  ∧ "a" ∉ ["v"].
Proof.
  assert (Ha : analyse ["v"] ["amd64"] true = Ok Samples.removal_of_v)
    by (vm_compute; reflexivity).
  assert (Hk : broken_depends Samples.removal_of_v !! "a-src"
               = Some {[ "a" := {[ "amd64" ]} ]}) by reflexivity.
  assert (Hp : is_Some (({[ "a" := {[ "amd64" ]} ]}
                          : gmap string (gset string)) !! "a"))
    by (by eexists).
  split; [exact Ha |]. split; [exact Hk |]. split; [exact Hp |].
  exact (removed_packages_are_not_reported _ _ _ _ _ _ _ Ha Hk Hp).
Defined.

Lemma nothing_removed_nothing_broken_witness :
  (∀ s cls, parse_depends s = Some cls → Forall (λ dep, dep ≠ []) cls)
  ∧ (∀ s cls, parse_src_depends s = Some cls → Forall (λ dep, dep ≠ []) cls)
  ∧ ∃ a,
      analyse [] ["amd64"; "source"] true = Ok a
      ∧ broken_depends a = ∅
      ∧ broken_build_depends a = ∅
      ∧ dep_problem a = false.
Proof.
  split; [exact parse_clauses_nonempty |].
  split; [exact parse_clauses_nonempty |].
  destruct (analyse [] ["amd64"; "source"] true) as [a | e] eqn:Ha;
    [| vm_compute in Ha; discriminate].
  exists a. split; [reflexivity |].
  exact (nothing_removed_nothing_broken parse_clauses_nonempty
           parse_clauses_nonempty ["amd64"; "source"] true a Ha).
Defined.

Lemma virtual_packages_join_removal_set_witness :
  known_architecture "amd64" = true
  ∧ ∃ st',
      check_architecture ["b"] "amd64" (∅, Dak.no_breakage ["b"]) = Ok st'
      ∧ ("v" ∈ removal_set st'.2
         ↔ "v" ∈ removal_set (Dak.no_breakage ["b"])
           ∨ ((∃ r, r ∈ binaries_query "amd64" ∧ "v" ∈ provides_of r)
              ∧ ∀ r, r ∈ binaries_query "amd64" → "v" ∈ provides_of r →
                     row_package r ∈ ["b"])).
Proof.
  assert (Hk : known_architecture "amd64" = true) by reflexivity.
  split; [exact Hk |].
  destruct (check_architecture ["b"] "amd64" (∅, Dak.no_breakage ["b"]))
    as [st' | e] eqn:Hc; [| vm_compute in Hc; discriminate].
  exists st'. split; [reflexivity |].
  exact (virtual_packages_join_removal_set _ _ "v" _ _ Hk Hc).
Defined.


Lemma result_join_split_witness :
  [Some "a"; None; Some "b"] ≠ []
  ∧ Forall (λ x, free_of "009" (default "" x)) [Some "a"; None; Some "b"]
  ∧ Py.split_on "009" (result_join [Some "a"; None; Some "b"]
                         (String "009" ""))
    = ["a"; ""; "b"].
Proof.
  assert (Hn : [Some "a"; None; Some "b"] ≠ []) by discriminate.
  assert (Hf : Forall (λ x, free_of "009" (default "" x))
                 [Some "a"; None; Some "b"])
    by (repeat constructor).
  split; [exact Hn |]. split; [exact Hf |].
  exact (result_join_split "009" _ Hn Hf).
Defined.

Lemma prefix_multi_line_string_lines_witness :
  free_of Py.LF "> "
  ∧ cleaned_lines ("a" +:+ Py.nl +:+ Py.nl +:+ " b ") false ≠ []
  ∧ Py.split_on Py.LF
      (prefix_multi_line_string ("a" +:+ Py.nl +:+ Py.nl +:+ " b ") "> "
         false)
    = ["> a"; "> b"].
Proof.
  assert (Hp : free_of Py.LF "> ") by reflexivity.
  assert (Hn : cleaned_lines ("a" +:+ Py.nl +:+ Py.nl +:+ " b ") false ≠ [])
    by (vm_compute; discriminate).
  split; [exact Hp |]. split; [exact Hn |].
  exact (proj1 (prefix_multi_line_string_lines _ _ _ Hp Hn)).
Defined.

Lemma poolify_components_witness :
  free_of "/" "libfoo"
  ∧ ∃ dir rest,
      Py.split_on "/" (poolify "libfoo") = [dir; "libfoo"; ""]
      ∧ "libfoo" = dir +:+ rest
      ∧ String.length dir ≤ 4
      ∧ ("libfoo" ≠ "" → dir ≠ "").
Proof.
  assert (Hf : free_of "/" "libfoo") by reflexivity.
  split; [exact Hf |]. exact (poolify_components _ Hf).
Defined.

Lemma parse_wnpp_bug_file_returns_witness :
  parse_wnpp_bug_file ["foo: ITA 123|O 45"; "junk"; "bar: RFA 7"]
  = Returns [("foo", ["123"; "45"]); ("bar", ["7"])]
  ∧ NoDup (dict_keys [("foo", ["123"; "45"]); ("bar", ["7"])])
  ∧ ∀ source bugs,
      (source, bugs) ∈ [("foo", ["123"; "45"]); ("bar", ["7"])] →
      Forall (word_of PyMore.is_digit) bugs
      ∧ ∃ line text,
          line ∈ ["foo: ITA 123|O 45"; "junk"; "bar: RFA 7"]
          ∧ PyMore.split_once ": " line = Some (source, text)
          ∧ map Some bugs
            = map PyMore.first_digits (Py.split_on "|" text).
Proof.
  assert (Hr : parse_wnpp_bug_file ["foo: ITA 123|O 45"; "junk"; "bar: RFA 7"]
               = Returns [("foo", ["123"; "45"]); ("bar", ["7"])])
    by reflexivity.
  split; [exact Hr |]. exact (parse_wnpp_bug_file_returns _ _ Hr).
Defined.

Lemma listing_addresses_preferred_first_witness :
  _gpg_get_addresses_from_listing Samples.listing
  = Returns ["jane@debian.org"; "jane@example.org"]
  ∧ ∃ preferred others,
      ["jane@debian.org"; "jane@example.org"] = preferred ++ others
      ∧ Forall (λ a, PyMore.endswith "@debian.org" a = true) preferred
      ∧ Forall (λ a, PyMore.endswith "@debian.org" a = false) others.
Proof.
  assert (Hr : _gpg_get_addresses_from_listing Samples.listing
               = Returns ["jane@debian.org"; "jane@example.org"])
    by (vm_compute; reflexivity).
  split; [exact Hr |].
  exact (proj1 (listing_addresses_preferred_first _ _ Hr)).
Defined.

Lemma gpg_get_key_addresses_cached_witness :
  @gpg_get_key_addresses Samples.keys "ABCD" ∅
  = Returns (["jane@debian.org"; "jane@example.org"],
             {[ "ABCD" := ["jane@debian.org"; "jane@example.org"] ]})
  ∧ @gpg_get_key_addresses Samples.no_keys "ABCD"
      {[ "ABCD" := ["jane@debian.org"; "jane@example.org"] ]}
    = Returns (["jane@debian.org"; "jane@example.org"],
               {[ "ABCD" := ["jane@debian.org"; "jane@example.org"] ]}).
Proof.
  assert (Hr : @gpg_get_key_addresses Samples.keys "ABCD" ∅
               = Returns (["jane@debian.org"; "jane@example.org"],
                          {[ "ABCD" := ["jane@debian.org";
                                        "jane@example.org"] ]}))
    by (vm_compute; reflexivity).
  split; [exact Hr |].
  exact (proj2 (proj2 (gpg_get_key_addresses_cached Samples.keys
                         Samples.no_keys _ _ _ _ Hr))).
Defined.

End MoreRuns.
